(** * Statistical testing and allocation engine of creative-optimizer

    A shallow embedding of [utils/ab_testing.py] (class [ABTest]) and
    [utils/early_signals.py] (class [EarlySignalsAnalyzer]), with the
    properties the specification states about them.

    Python floats are idealised as exact rationals ([Q]); Python integers
    are [Z].  The values that are not numbers (the infinities and NaN of
    [numpy.float64]) are kept where the code can produce them, in
    [float64].  The functions of [math] and [scipy.stats] the code calls
    are collected in the interface [Numerics]; Python exceptions are values
    of the error monad [result]. *)

From Stdlib Require Import ZArith QArith Qround Qabs Qminmax Lia Lra Psatz.
From Stdlib Require Import String List Bool Sorted.
From stdpp Require Import base option list gmap strings.

Local Open Scope Z_scope.
Local Open Scope Q_scope.

(** ** Exceptions *)

Inductive exn : Type :=
| ZeroDivisionError
| ValueError
| OverflowError
| TypeError.

Inductive result (A : Type) : Type :=
| Ok (a : A)
| Raise (e : exn).
Arguments Ok {A} a.
Arguments Raise {A} e.

#[global] Instance result_ret : MRet result := fun _ a => Ok a.
#[global] Instance result_bind : MBind result := fun _ _ k m =>
  match m with
  | Ok a => k a
  | Raise e => Raise e
  end.

(** [x < y] on floats *)
Definition Qlt_bool (x y : Q) : bool := negb (Qle_bool y x).

(** Python's [/] on its own floats and integers: a zero divisor raises. *)
Definition py_div (a b : Q) : result Q :=
  if Qeq_bool b 0 then Raise ZeroDivisionError else Ok (a / b).

(** ** [numpy.float64]

    [scipy.stats.norm.ppf] returns a [numpy.float64], and an arithmetic
    operation with such an operand returns one again.  These operations
    never raise: a division by zero gives an infinity or NaN (and a
    warning), which the following operations carry along. *)

Inductive float64 : Type :=
| Finite (x : Q)
| Infinity (negative : bool)
| NaN.

Definition np_add (a b : float64) : float64 :=
  match a, b with
  | NaN, _ | _, NaN => NaN
  | Finite x, Finite y => Finite (x + y)
  | Infinity s, Finite _ | Finite _, Infinity s => Infinity s
  | Infinity s, Infinity s' => if Bool.eqb s s' then Infinity s else NaN
  end.

Definition np_mul (a b : float64) : float64 :=
  match a, b with
  | NaN, _ | _, NaN => NaN
  | Finite x, Finite y => Finite (x * y)
  | Infinity s, Finite y | Finite y, Infinity s =>
      match Qcompare y 0 with
      | Eq => NaN
      | Gt => Infinity s
      | Lt => Infinity (negb s)
      end
  | Infinity s, Infinity s' => Infinity (xorb s s')
  end.


(** [a ** 2] *)
Definition np_square (a : float64) : float64 :=
  match a with
  | Finite x => Finite (x ^ 2)
  | Infinity _ => Infinity false
  | NaN => NaN
  end.

(** [a / b].  A zero divisor is taken as the positive zero: the one divisor
    of the code that can be zero is a square. *)
Definition np_div (a b : float64) : float64 :=
  match a, b with
  | NaN, _ | _, NaN => NaN
  | Finite x, Finite y =>
      if Qeq_bool y 0
      then match Qcompare x 0 with
           | Eq => NaN
           | Gt => Infinity false
           | Lt => Infinity true
           end
      else Finite (x / y)
  | Infinity s, Finite y => if Qlt_bool y 0 then Infinity (negb s) else Infinity s
  | Finite _, Infinity _ => Finite 0
  | Infinity _, Infinity _ => NaN
  end.


(** Python's [round(x, ndigits)]: to the nearest multiple of
    [10^-ndigits], a tie going to the even one. *)
Definition round_half_even (y : Q) : Z :=
  let f := Qfloor y in
  match Qcompare (y - inject_Z f) (1 # 2) with
  | Lt => f
  | Gt => (f + 1)%Z
  | Eq => if Z.even f then f else (f + 1)%Z
  end.

Definition py_round (x : Q) (ndigits : Z) : Q :=
  inject_Z (round_half_even (x * inject_Z (10 ^ ndigits)))
  / inject_Z (10 ^ ndigits).

(** ** Numeric library functions

    [math.sqrt], [scipy.stats.norm.cdf] and [scipy.stats.norm.ppf] are not
    code of this repository: the model takes them as an interface.
    [norm_ppf] is the quantile function where it is finite, on the open
    interval from 0 to 1; [stats_norm_ppf] below is the library function,
    with its values at 0, at 1 and outside. *)

Class Numerics : Type := {
  sqrt : Q -> Q;
  norm_cdf : Q -> Q;
  norm_ppf : Q -> Q;
}.

(** What the proofs below rely on about an implementation of [Numerics]:
    each function gives equal results on equal arguments; [sqrt] is accurate
    to a relative error of [sqrt_tol] on its domain; [norm_cdf] is a
    non-decreasing function into [[0,1]] with value one half at the origin,
    and agrees with the tables of the normal distribution to five decimals
    at 1.98 and 1.981 (0.976148 and 0.976204); [norm_ppf] agrees with the
    tables to four decimals at 0.975 and 0.80 (1.959964 and 0.841621). *)

Definition sqrt_tol : Q := 1 # 1000000000000.

Class NumericsSpec (N : Numerics) : Prop := {
  sqrt_proper : forall x y, x == y -> sqrt x == sqrt y;
  cdf_proper : forall x y, x == y -> norm_cdf x == norm_cdf y;
  ppf_proper : forall x y, x == y -> norm_ppf x == norm_ppf y;
  sqrt_nonneg : forall x, 0 <= x -> 0 <= sqrt x;
  sqrt_accurate : forall x, 0 <= x -> Qabs (sqrt x * sqrt x - x) <= x * sqrt_tol;
  cdf_half : norm_cdf 0 == 1 # 2;
  cdf_mono : forall x y, x <= y -> norm_cdf x <= norm_cdf y;
  cdf_le_1 : forall x, norm_cdf x <= 1;
  cdf_198 : 97614 # 100000 <= norm_cdf (198 # 100);
  cdf_1981 : norm_cdf (1981 # 1000) <= 97621 # 100000;
  ppf_975 : 19599 # 10000 <= norm_ppf (975 # 1000) <= 19600 # 10000;
  ppf_80 : 8416 # 10000 <= norm_ppf (8 # 10) <= 8417 # 10000;
}.

(** [math.sqrt]: a negative argument raises. *)
Definition math_sqrt `{Numerics} (x : Q) : result Q :=
  if Qle_bool 0 x then Ok (sqrt x) else Raise ValueError.

(** [scipy.stats.norm.ppf]: minus infinity at 0, infinity at 1, NaN
    outside [[0,1]]. *)
Definition stats_norm_ppf `{Numerics} (q : Q) : float64 :=
  if Qlt_bool q 0 || Qlt_bool 1 q then NaN
  else if Qeq_bool q 0 then Infinity true
  else if Qeq_bool q 1 then Infinity false
  else Finite (norm_ppf q).

(** [int(math.ceil(x))]: [math.ceil] cannot convert an infinity
    ([OverflowError]) or NaN ([ValueError]) to an integer. *)
Definition math_ceil (x : float64) : result Z :=
  match x with
  | Finite q => Ok (Qceiling q)
  | Infinity _ => Raise OverflowError
  | NaN => Raise ValueError
  end.

(** ** A computable implementation of [Numerics]

    Fixed-point arithmetic with 18 decimals.  The normal density is
    integrated by the midpoint rule on cells of width 1/100 over [[0,6]];
    inside a cell the distribution function is linear.  It stands for the
    Python libraries wherever a property has to be evaluated on numbers. *)

Module Approx.

Definition unit : Z := 10 ^ 18.

Definition mulfix (a b : Z) : Z := (a * b / unit)%Z.

(** [t + t*y/k + t*y^2/(k(k+1)) + ...], [n] further terms *)
Fixpoint exp_terms (n : nat) (k t y : Z) : Z :=
  match n with
  | O => t
  | S n' => (t + exp_terms n' (k + 1) (mulfix t y / k) y)%Z
  end.

Definition sq (a : Z) : Z := mulfix a a.

(** [exp y] for [0 <= y]: the series at [y/16], squared four times *)
Definition exp_fix (y : Z) : Z :=
  sq (sq (sq (sq (exp_terms 20 1 unit (y / 16))))).

Definition inv_sqrt_2pi : Z := 398942280401432678.

(** density at the midpoint of the cell [[k/100, (k+1)/100]] *)
Definition density (k : Z) : Z :=
  let t := ((2 * k + 1) * (unit / 200))%Z in
  (inv_sqrt_2pi * unit / exp_fix (mulfix t t / 2))%Z.

Definition cells : nat := 600.

(** integral of the density over [[0,x]], entered at cell [k] with the
    cells before it summed in [acc] (in units of 1e-20) *)
Fixpoint area (n : nat) (k acc : Z) (x : Q) : Q :=
  match n with
  | O => acc # 100000000000000000000
  | S n' =>
      let d := density k in
      if Qle_bool x ((k + 1) # 100)
      then (acc # 100000000000000000000)
           + (d # 1000000000000000000) * (x - (k # 100))
      else area n' (k + 1) (acc + d)%Z x
  end.

Definition cdf (x : Q) : Q :=
  if Qle_bool 0 x
  then (1 # 2) + Qmin (1 # 2) (area cells 0 0 x)
  else (1 # 2) - Qmin (1 # 2) (area cells 0 0 (- x)).

(** the point where the integral from 0 reaches [target] *)
Fixpoint quantile (n : nat) (k acc : Z) (target : Q) : Q :=
  match n with
  | O => k # 100
  | S n' =>
      let d := density k in
      if Qle_bool target ((acc + d) # 100000000000000000000)
      then (k # 100)
           + (target - (acc # 100000000000000000000))
             / (d # 1000000000000000000)
      else quantile n' (k + 1) (acc + d)%Z target
  end.

Definition ppf (p : Q) : Q :=
  if Qle_bool (1 # 2) p
  then Qred (quantile cells 0 0 (p - (1 # 2)))
  else Qred (- quantile cells 0 0 ((1 # 2) - p)).

(** square root through the integer square root of the reduced fraction *)
Definition root (x : Q) : Q :=
  let r := Qred x in
  if (Qnum r <=? 0)%Z then 0
  else Z.sqrt (Qnum r * Zpos (Qden r) * 10 ^ 40)
       # (Qden r * 100000000000000000000).

#[global] Instance numerics : Numerics :=
  {| sqrt := root; norm_cdf := cdf; norm_ppf := ppf |}.

End Approx.


(** ** The rows of the [Creative] table

    [database.models.Creative] as the two classes read it: counters are
    integers, [cvr] is stored in units of 1/10000, and [id] identifies the
    row.  A [Session] is the table; [query_first] and [query_all] are the
    two queries the code issues. *)

Record Creative : Type := {
  cr_id : string;
  cr_user_id : string;
  cr_name : string;
  cr_impressions : Z;
  cr_clicks : Z;
  cr_conversions : Z;
  cr_installs : Z;
  cr_cvr : Z;
}.

Definition Session : Type := list Creative.

(** [db.query(Creative).filter(Creative.id == cid, Creative.user_id ==
    uid).first()] *)
Definition query_first (db : Session) (cid uid : string) : option Creative :=
  List.find (fun c => String.eqb (cr_id c) cid && String.eqb (cr_user_id c) uid) db.

(** [db.query(Creative).filter(Creative.id.in_(cids), Creative.user_id ==
    uid).all()] *)
Definition query_all (db : Session) (cids : list string) (uid : string)
    : list Creative :=
  List.filter
    (fun c => existsb (String.eqb (cr_id c)) cids && String.eqb (cr_user_id c) uid)
    db.

(** ** The random generator

    [multi_armed_bandit] draws from the generator of Python's [random]
    module, a state shared by the whole process.  The model threads that
    state: [random_random] is [random.random()], a float in [[0,1)], and
    [random_below n] is the index [random.choice] draws for a sequence of
    length [n]; both return the advanced state. *)

Class RandomGen (G : Type) : Type := {
  random_random : G -> Q * G;
  random_below : nat -> G -> nat * G;
}.

(** A generator that replays a given sequence of uniform draws and picks
    the index [floor (u * n)]. *)
Module Tape.

Definition state : Type := list Q.

Definition next (g : state) : Q * state :=
  match g with
  | [] => (0, [])
  | u :: g' => (u, g')
  end.

Definition below (n : nat) (g : state) : nat * state :=
  let '(u, g') := next g in
  (Z.to_nat (Qfloor (u * inject_Z (Z.of_nat n))), g').

#[global] Instance gen : RandomGen state :=
  {| random_random := next; random_below := below |}.

End Tape.

(** ** [class ABTest] *)

Module ABTest.

Record t : Type := {
  db : Session;
  user_id : string;
}.

(** *** [calculate_sample_size] ([self] is not used) *)

Definition default_minimum_detectable_effect : Q := 20 # 100.
Definition default_alpha : Q := 5 # 100.
Definition default_power : Q := 80 # 100.

(** [z_alpha] and [z_beta] are [numpy.float64], and with them the
    numerator and the quotient: the division itself never raises. *)
Definition calculate_sample_size `{Numerics}
    (baseline_cvr minimum_detectable_effect alpha power : Q) : result Z :=
  let z_alpha := stats_norm_ppf (1 - alpha / 2) in
  let z_beta := stats_norm_ppf power in
  let variant_cvr := baseline_cvr * (1 + minimum_detectable_effect) in
  let p_pooled := (baseline_cvr + variant_cvr) / 2 in
  let numerator :=
    np_mul (np_mul (np_mul (np_square (np_add z_alpha z_beta)) (Finite 2))
                   (Finite p_pooled))
           (Finite (1 - p_pooled)) in
  let denominator := (variant_cvr - baseline_cvr) ^ 2 in
  math_ceil (np_div numerator (Finite denominator)).

(** *** [_confidence_interval]

    The one call passes a confidence of 0.95, where the quantile is
    finite, and every divisor is guarded. *)

Definition _confidence_interval `{Numerics}
    (rate_a rate_b : Q) (n_a n_b : Z) (confidence : Q) : result (Q * Q) :=
  let z := norm_ppf ((1 + confidence) / 2) in
  se_a ← (if (n_a >? 0)%Z
          then v ← py_div (rate_a * (1 - rate_a)) (inject_Z n_a); math_sqrt v
          else Ok 0);
  se_b ← (if (n_b >? 0)%Z
          then v ← py_div (rate_b * (1 - rate_b)) (inject_Z n_b); math_sqrt v
          else Ok 0);
  se_diff ← math_sqrt (se_a ^ 2 + se_b ^ 2);
  let diff := rate_b - rate_a in
  let margin := z * se_diff in
  lift_lower ← (if Qlt_bool 0 rate_a then py_div (diff - margin) rate_a else Ok 0);
  lift_upper ← (if Qlt_bool 0 rate_a then py_div (diff + margin) rate_a else Ok 0);
  mret (lift_lower, lift_upper).

(** *** [analyze_test]

    The body after the volume gate, up to the verdict, is
    [test_statistics]; [analyze_test] is the method itself: the two
    queries, the choice of the metric, the volume gate, and the dictionary
    it returns with its values rounded. *)

Record Statistics : Type := {
  rate_a : Q;
  rate_b : Q;
  pooled_rate : Q;
  se : Q;
  z_score : Q;
  p_value : Q;
  lift : Q;
  ci_lower : Q;
  ci_upper : Q;
  is_significant : bool;
  winner : string;
  recommendation : string;
}.

Definition test_statistics `{Numerics}
    (a_conversions a_total b_conversions b_total : Z) : result Statistics :=
  rate_a ← (if (a_total >? 0)%Z
            then py_div (inject_Z a_conversions) (inject_Z a_total) else Ok 0);
  rate_b ← (if (b_total >? 0)%Z
            then py_div (inject_Z b_conversions) (inject_Z b_total) else Ok 0);
  pooled_rate ← py_div (inject_Z (a_conversions + b_conversions))
                       (inject_Z (a_total + b_total));
  inv_a ← py_div 1 (inject_Z a_total);
  inv_b ← py_div 1 (inject_Z b_total);
  se ← math_sqrt (pooled_rate * (1 - pooled_rate) * (inv_a + inv_b));
  '(z_score, p_value) ←
    (if Qeq_bool se 0 then Ok (0, 1)
     else z ← py_div (rate_b - rate_a) se;
          Ok (z, 2 * (1 - norm_cdf (Qabs z))));
  lift ← (if Qlt_bool 0 rate_a then py_div (rate_b - rate_a) rate_a else Ok 0);
  '(ci_lower, ci_upper) ←
    _confidence_interval rate_a rate_b a_total b_total (95 # 100);
  let is_significant := Qlt_bool p_value (5 # 100) in
  let winner :=
    if is_significant then (if Qlt_bool rate_a rate_b then "B" else "A")
    else "tie" in
  let recommendation :=
    if is_significant
    then "Scale variant " +:+ winner +:+ " - statistically significant winner"
    else "No clear winner yet - continue testing or stop test" in
  mret {| rate_a := rate_a; rate_b := rate_b; pooled_rate := pooled_rate;
          se := se; z_score := z_score; p_value := p_value; lift := lift;
          ci_lower := ci_lower; ci_upper := ci_upper;
          is_significant := is_significant; winner := winner;
          recommendation := recommendation |}.

Record CreativeEntry : Type := {
  e_id : string;
  e_name : string;
  e_rate : Q;
  e_samples : Z;
  e_conversions : Z;
}.

(** The verdict dictionary; [lift_percent] is the number printed before
    the percent sign. *)
Record Verdict : Type := {
  v_creative_a : CreativeEntry;
  v_creative_b : CreativeEntry;
  v_winner : string;
  v_lift : Q;
  v_lift_percent : Q;
  v_p_value : Q;
  v_z_score : Q;
  v_statistical_significance : bool;
  v_confidence : Q;
  v_confidence_interval : Q * Q;
  v_recommendation : string;
  v_metric : string;
}.

Inductive AnalyzeResult : Type :=
| Error (error : string)
| InsufficientData (message : string) (samples_a samples_b : Z)
| Analyzed (v : Verdict).

(** [metric] to the numerator and the denominator it reads off a row *)
Definition metric_values (metric : string) (c : Creative) : option (Z * Z) :=
  if String.eqb metric "cvr" then Some (cr_conversions c, cr_clicks c)
  else if String.eqb metric "install_rate" then Some (cr_installs c, cr_clicks c)
  else if String.eqb metric "ctr" then Some (cr_clicks c, cr_impressions c)
  else None.

Definition analyze_test `{Numerics} (self : t)
    (creative_a_id creative_b_id metric : string) : result AnalyzeResult :=
  match query_first (db self) creative_a_id (user_id self),
        query_first (db self) creative_b_id (user_id self) with
  | Some creative_a, Some creative_b =>
      match metric_values metric creative_a, metric_values metric creative_b with
      | Some (a_conversions, a_total), Some (b_conversions, b_total) =>
          if ((a_total <? 100) || (b_total <? 100))%Z
          then Ok (InsufficientData "Need at least 100 samples per variant"
                     a_total b_total)
          else
            s ← test_statistics a_conversions a_total b_conversions b_total;
            mret (Analyzed
              {| v_creative_a :=
                   {| e_id := creative_a_id; e_name := cr_name creative_a;
                      e_rate := py_round (rate_a s) 4; e_samples := a_total;
                      e_conversions := a_conversions |};
                 v_creative_b :=
                   {| e_id := creative_b_id; e_name := cr_name creative_b;
                      e_rate := py_round (rate_b s) 4; e_samples := b_total;
                      e_conversions := b_conversions |};
                 v_winner := winner s;
                 v_lift := py_round (lift s) 3;
                 v_lift_percent := py_round (lift s * 100) 1;
                 v_p_value := py_round (p_value s) 4;
                 v_z_score := py_round (z_score s) 3;
                 v_statistical_significance := is_significant s;
                 v_confidence :=
                   if Qlt_bool (p_value s) 1
                   then py_round (1 - p_value s) 3 else 0;
                 v_confidence_interval :=
                   (py_round (ci_lower s) 3, py_round (ci_upper s) 3);
                 v_recommendation := recommendation s;
                 v_metric := metric |})
      | _, _ => Ok (Error ("Unknown metric: " +:+ metric))
      end
  | _, _ => Ok (Error "Creative not found")
  end.

(** *** [multi_armed_bandit] *)

Record Arm : Type := {
  creative_id : string;
  cvr : Q;
  samples : Z;
}.

(** [results.sort(key=lambda x: x["cvr"], reverse=True)]: descending, and
    stable (rows of equal [cvr] keep their order). *)
Fixpoint insert_desc (r : Arm) (l : list Arm) : list Arm :=
  match l with
  | [] => [r]
  | x :: l' =>
      if Qlt_bool (cvr r) (cvr x) then x :: insert_desc r l' else r :: x :: l'
  end.

Definition sort_desc (l : list Arm) : list Arm := foldr insert_desc [] l.

Record Plan : Type := {
  next_creative : string;
  allocation : gmap string Q;
  reason : string;
  epsilon_used : Q;
  leaderboard : list Arm;
}.

Inductive BanditResult : Type :=
| NoCreatives (error : string)
| Allocated (p : Plan).

(** the loop that fills the [allocation] dictionary *)
Definition allocate (results : list Arm) (chosen : Arm) (epsilon : Q)
    : gmap string Q :=
  let exploit_pct := 1 - epsilon in
  let explore_pct_per_variant := epsilon / inject_Z (Z.of_nat (length results)) in
  foldl
    (fun allocation r =>
       if String.eqb (creative_id r) (creative_id chosen)
       then <[creative_id r := exploit_pct + explore_pct_per_variant]> allocation
       else <[creative_id r := explore_pct_per_variant]> allocation)
    ∅ results.

(** the dictionary appended to [results] for a row *)
Definition arm_of (creative : Creative) : Arm :=
  {| creative_id := cr_id creative;
     cvr := if (cr_cvr creative =? 0)%Z then 0
            else inject_Z (cr_cvr creative) / 10000;
     samples := cr_clicks creative |}.

(** The header of the method,
    [def multi_armed_bandit(self, creative_ids: List[str], epsilon: float = 0.1)],
    and what a call can pass: besides [self], positional arguments and
    keyword arguments, here a list of ids, a float or a generator object
    (a [random.Random]).  Python binds them to the two parameters and raises
    [TypeError] for a third positional argument, for a keyword that names
    no parameter, for a parameter given twice and for a missing
    [creative_ids]; [epsilon] defaults to 0.1. *)
Inductive Argument (G : Type) : Type :=
| IdList (creative_ids : list string)
| Float (x : Q)
| RandomSource (source : G).
Arguments IdList {G} creative_ids.
Arguments Float {G} x.
Arguments RandomSource {G} source.

Definition bind_keyword {G : Type}
    (bound : option (Argument G) * option (Argument G))
    (keyword : string * Argument G)
    : result (option (Argument G) * option (Argument G)) :=
  let '(creative_ids, epsilon) := bound in
  if String.eqb (fst keyword) "creative_ids"
  then match creative_ids with
       | None => Ok (Some (snd keyword), epsilon)
       | Some _ => Raise TypeError
       end
  else if String.eqb (fst keyword) "epsilon"
  then match epsilon with
       | None => Ok (creative_ids, Some (snd keyword))
       | Some _ => Raise TypeError
       end
  else Raise TypeError.

Definition bind_arguments {G : Type}
    (positional : list (Argument G)) (keywords : list (string * Argument G))
    : result (Argument G * Argument G) :=
  bound ← match positional with
          | [] => Ok (None, None)
          | [creative_ids] => Ok (Some creative_ids, None)
          | [creative_ids; epsilon] => Ok (Some creative_ids, Some epsilon)
          | _ => Raise TypeError
          end;
  bound ← foldl (fun acc keyword => b ← acc; bind_keyword b keyword)
                (Ok bound) keywords;
  match bound with
  | (Some creative_ids, epsilon) => Ok (creative_ids, default (Float (1 # 10)) epsilon)
  | (None, _) => Raise TypeError
  end.

(** The method proper, with the state [g] of the process-wide generator
    before the call and after it. *)
Definition multi_armed_bandit {G : Type} `{RandomGen G} (self : t)
    (creative_ids : list string) (epsilon : Q) (g : G) : BanditResult * G :=
  let creatives := query_all (db self) creative_ids (user_id self) in
  match creatives with
  | [] => (NoCreatives "No creatives found", g)
  | first_row :: _ =>
      let results := sort_desc (map arm_of creatives) in
      let best := hd (arm_of first_row) results in
      let '(u, g1) := random_random g in
      let '(chosen, reason, g2) :=
        if Qlt_bool u epsilon
        then let '(k, g2) := random_below (length results) g1 in
             (nth k results best, "explore", g2)
        else (best, "exploit_winner", g1) in
      (Allocated
         {| next_creative := creative_id chosen;
            allocation := allocate results chosen epsilon;
            reason := reason;
            epsilon_used := epsilon;
            leaderboard := results |},
       g2)
  end.

End ABTest.

(** ** [class EarlySignalsAnalyzer] *)

Module EarlySignalsAnalyzer.

(** [THRESHOLDS] *)
Definition ctr_good : Q := 3 # 100.
Definition ctr_bad : Q := 1 # 100.
Definition bounce_good : Q := 40 # 100.
Definition bounce_bad : Q := 70 # 100.
Definition time_good : Q := 5.
Definition time_bad : Q := 2.

(** The lines of [signals_detail], by the check that appended them. *)
Inductive Detail : Type :=
| CtrGood | CtrBad | CtrAverage
| BounceGood | BounceBad
| TimeGood | TimeBad
| EarlyConversions.

(** The [reasoning] text, by the values it prints. *)
Inductive Reasoning : Type :=
| OnlyHoursPassed (age_hours : Q)
| NeedMinimumVolume (impressions clicks : Z)
| ScoreTrail (score positive_signals negative_signals : Z)
             (signals_detail : list Detail).

Record Metrics : Type := {
  m_24h_ctr : Q;
  m_bounce_rate : Q;
  m_avg_time_on_page : Q;
  m_early_cvr : Q;
  m_conversions : Z;
  m_sample_size : Z;
}.

(** [_get_next_action]: the entry of [actions] for the recommendation
    (each prints the predicted CVR), or the default text. *)
Inductive NextAction : Type :=
| IncreaseBudget (predicted_cvr : Q)
| ContinueTest (predicted_cvr : Q)
| PauseCampaign (predicted_cvr : Q)
| StopCampaign (predicted_cvr : Q)
| WaitForMoreData.

Definition _get_next_action (recommendation : string) (predicted_cvr : Q)
    : NextAction :=
  if String.eqb recommendation "scale" then IncreaseBudget predicted_cvr
  else if String.eqb recommendation "continue" then ContinueTest predicted_cvr
  else if String.eqb recommendation "pause" then PauseCampaign predicted_cvr
  else if String.eqb recommendation "kill" then StopCampaign predicted_cvr
  else WaitForMoreData.

(** The dictionary returned: the two gates return the first four keys
    only. *)
Record Scored : Type := {
  predicted_final_cvr : Q;
  metrics : Metrics;
  next_action : NextAction;
}.

Record Analysis : Type := {
  signal : string;
  confidence : Q;
  recommendation : string;
  reasoning : Reasoning;
  scored : option Scored;
}.

(** The three accumulators after the four checks. *)
Definition count_signals (ctr bounce_rate avg_time_on_page : Q) (conversions : Z)
    : Z * Z * list Detail :=
  let '(positive_signals, negative_signals, signals_detail) := (0%Z, 0%Z, []) in
  let '(positive_signals, negative_signals, signals_detail) :=
    if Qle_bool ctr_good ctr
    then ((positive_signals + 2)%Z, negative_signals, signals_detail ++ [CtrGood])
    else if Qle_bool ctr ctr_bad
    then (positive_signals, (negative_signals + 2)%Z, signals_detail ++ [CtrBad])
    else (positive_signals, negative_signals, signals_detail ++ [CtrAverage]) in
  let '(positive_signals, negative_signals, signals_detail) :=
    if Qle_bool bounce_rate bounce_good
    then ((positive_signals + 1)%Z, negative_signals, signals_detail ++ [BounceGood])
    else if Qle_bool bounce_bad bounce_rate
    then (positive_signals, (negative_signals + 1)%Z, signals_detail ++ [BounceBad])
    else (positive_signals, negative_signals, signals_detail) in
  let '(positive_signals, negative_signals, signals_detail) :=
    if Qle_bool time_good avg_time_on_page
    then ((positive_signals + 1)%Z, negative_signals, signals_detail ++ [TimeGood])
    else if Qle_bool avg_time_on_page time_bad
    then (positive_signals, (negative_signals + 1)%Z, signals_detail ++ [TimeBad])
    else (positive_signals, negative_signals, signals_detail) in
  if (conversions >? 0)%Z
  then ((positive_signals + 1)%Z, negative_signals,
        signals_detail ++ [EarlyConversions])
  else (positive_signals, negative_signals, signals_detail).

(** [analyze_24h_performance]; [now] is the reading of
    [datetime.utcnow()], and times are in seconds.  [after_time_gate] is
    the body below the check of the age. *)
Definition analyze_24h_performance (now : Q)
    (impressions clicks landing_views landing_bounces : Z)
    (avg_time_on_page : Q) (conversions : Z) (created_at : option Q)
    : result Analysis :=
  ctr ← (if (impressions >? 0)%Z
         then py_div (inject_Z clicks) (inject_Z impressions) else Ok 0);
  bounce_rate ← (if (landing_views >? 0)%Z
                 then py_div (inject_Z landing_bounces) (inject_Z landing_views)
                 else Ok 0);
  early_cvr ← (if (clicks >? 0)%Z
               then py_div (inject_Z conversions) (inject_Z clicks) else Ok 0);
  let after_time_gate :=
    if ((impressions <? 100) || (clicks <? 10))%Z
    then Ok {| signal := "insufficient_volume"; confidence := 0;
               recommendation := "wait";
               reasoning := NeedMinimumVolume impressions clicks;
               scored := None |}
    else
      let '(positive_signals, negative_signals, signals_detail) :=
        count_signals ctr bounce_rate avg_time_on_page conversions in
      let score := (positive_signals - negative_signals)%Z in
      let '(signal, recommendation, predicted_cvr, confidence) :=
        if (score >=? 3)%Z
        then ("strong_positive", "scale", ctr * (15 # 100), 75 # 100)
        else if (score >=? 1)%Z
        then ("positive", "continue", ctr * (12 # 100), 65 # 100)
        else if (score >=? -1)%Z
        then ("neutral", "continue", ctr * (8 # 100), 50 # 100)
        else if (score >=? -3)%Z
        then ("negative", "pause", ctr * (5 # 100), 70 # 100)
        else ("strong_negative", "kill", ctr * (3 # 100), 80 # 100) in
      Ok {| signal := signal; confidence := confidence;
            recommendation := recommendation;
            reasoning := ScoreTrail score positive_signals negative_signals
                           signals_detail;
            scored :=
              Some {| predicted_final_cvr := predicted_cvr;
                      metrics :=
                        {| m_24h_ctr := ctr; m_bounce_rate := bounce_rate;
                           m_avg_time_on_page := avg_time_on_page;
                           m_early_cvr := early_cvr;
                           m_conversions := conversions;
                           m_sample_size := clicks |};
                      next_action :=
                        _get_next_action recommendation predicted_cvr |} |} in
  match created_at with
  | Some created =>
      let age_hours := (now - created) / 3600 in
      if Qlt_bool age_hours 6
      then Ok {| signal := "insufficient_data"; confidence := 0;
                 recommendation := "wait";
                 reasoning := OnlyHoursPassed age_hours; scored := None |}
      else after_time_gate
  | None => after_time_gate
  end.

End EarlySignalsAnalyzer.

(** ** [bulk_analyze_24h]

    An element of [creatives_data] is a dictionary read with [get]: a key
    that is absent is [None] here, and the default of the call is applied
    where the method is called.  The clock is read once per element: [now i]
    is the reading of [datetime.utcnow()] made for the element of index [i].
    The [next_step] text is kept by the three numbers it prints. *)

Record CreativeData : Type := {
  d_id : option string;
  d_name : option string;
  d_impressions : option Z;
  d_clicks : option Z;
  d_landing_views : option Z;
  d_landing_bounces : option Z;
  d_avg_time_on_page : option Q;
  d_conversions : option Z;
  d_created_at : option Q;
}.

Record BulkEntry : Type := {
  b_creative_id : option string;
  b_name : option string;
  b_analysis : EarlySignalsAnalyzer.Analysis;
}.

Record BulkSummary : Type := {
  total_analyzed : Z;
  winners_count : Z;
  potential_count : Z;
  losers_count : Z;
  kill_rate : Q;
  estimated_savings_usd : Z;
  next_step : Z * Z * Z;
}.

Record BulkResult : Type := {
  winners : list BulkEntry;
  potential : list BulkEntry;
  losers : list BulkEntry;
  summary : BulkSummary;
}.

(** the [for] loop, from the element of index [i] on *)
Fixpoint bulk_loop (now : nat -> Q) (i : nat) (creatives_data : list CreativeData)
    (winners potential losers : list BulkEntry)
    : result (list BulkEntry * list BulkEntry * list BulkEntry) :=
  match creatives_data with
  | [] => Ok (winners, potential, losers)
  | creative :: rest =>
      analysis ←
        EarlySignalsAnalyzer.analyze_24h_performance (now i)
          (default 0%Z (d_impressions creative))
          (default 0%Z (d_clicks creative))
          (default 0%Z (d_landing_views creative))
          (default 0%Z (d_landing_bounces creative))
          (default 0 (d_avg_time_on_page creative))
          (default 0%Z (d_conversions creative))
          (d_created_at creative);
      let result :=
        {| b_creative_id := d_id creative; b_name := d_name creative;
           b_analysis := analysis |} in
      let recommendation := EarlySignalsAnalyzer.recommendation analysis in
      if String.eqb recommendation "scale"
      then bulk_loop now (S i) rest (winners ++ [result]) potential losers
      else if String.eqb recommendation "continue"
              || String.eqb recommendation "pause"
      then bulk_loop now (S i) rest winners (potential ++ [result]) losers
      else bulk_loop now (S i) rest winners potential (losers ++ [result])
  end.

Definition bulk_analyze_24h (now : nat -> Q) (creatives_data : list CreativeData)
    : result BulkResult :=
  '(winners, potential, losers) ← bulk_loop now 0 creatives_data [] [] [];
  let total_creatives := Z.of_nat (length creatives_data) in
  let killed_early := Z.of_nat (length losers) in
  let saved_budget := (killed_early * 40)%Z in
  kill_rate ← (if (total_creatives >? 0)%Z
               then py_div (inject_Z killed_early) (inject_Z total_creatives)
               else Ok 0);
  mret {| winners := winners; potential := potential; losers := losers;
          summary :=
            {| total_analyzed := total_creatives;
               winners_count := Z.of_nat (length winners);
               potential_count := Z.of_nat (length potential);
               losers_count := Z.of_nat (length losers);
               kill_rate := kill_rate;
               estimated_savings_usd := saved_budget;
               next_step := (killed_early, Z.of_nat (length potential),
                             Z.of_nat (length winners)) |} |}.

(** ** The early-signal score as the specification words it

    Signed contributions of four independent checks, and the table that
    maps a score to a signal, a recommendation, a confidence and the factor
    applied to the CTR.  These follow the specification, not the code; the
    theorems below compare them with [analyze_24h_performance]. *)

Module EarlySignalSpec.

Definition ctr_points (ctr : Q) : Z :=
  if Qle_bool (3 # 100) ctr then 2
  else if Qle_bool ctr (1 # 100) then -2 else 0.

Definition bounce_points (bounce_rate : Q) : Z :=
  if Qle_bool bounce_rate (40 # 100) then 1
  else if Qle_bool (70 # 100) bounce_rate then -1 else 0.

Definition time_points (avg_time_on_page : Q) : Z :=
  if Qle_bool 5 avg_time_on_page then 1
  else if Qle_bool avg_time_on_page 2 then -1 else 0.

Definition conversion_points (conversions : Z) : Z :=
  if (0 <? conversions)%Z then 1 else 0.

Definition score (ctr bounce_rate avg_time_on_page : Q) (conversions : Z) : Z :=
  (ctr_points ctr + bounce_points bounce_rate
   + time_points avg_time_on_page + conversion_points conversions)%Z.

Record Row : Type := {
  row_signal : string;
  row_recommendation : string;
  row_confidence : Q;
  row_factor : Q;
}.

Definition within (lo hi score : Z) : bool :=
  ((lo <=? score) && (score <=? hi))%Z.

Definition classify (score : Z) : option Row :=
  if (3 <=? score)%Z
  then Some {| row_signal := "strong_positive"; row_recommendation := "scale";
               row_confidence := 75 # 100; row_factor := 15 # 100 |}
  else if within 1 2 score
  then Some {| row_signal := "positive"; row_recommendation := "continue";
               row_confidence := 65 # 100; row_factor := 12 # 100 |}
  else if within (-1) 0 score
  then Some {| row_signal := "neutral"; row_recommendation := "continue";
               row_confidence := 50 # 100; row_factor := 8 # 100 |}
  else if within (-3) (-2) score
  then Some {| row_signal := "negative"; row_recommendation := "pause";
               row_confidence := 70 # 100; row_factor := 5 # 100 |}
  else if (score <=? -4)%Z
  then Some {| row_signal := "strong_negative"; row_recommendation := "kill";
               row_confidence := 80 # 100; row_factor := 3 # 100 |}
  else None.

End EarlySignalSpec.

(** ** Inputs of the examples *)

Definition example_row (id : string) (clicks conversions : Z) : Creative :=
  {| cr_id := id; cr_user_id := "user"; cr_name := id;
     cr_impressions := 5000; cr_clicks := clicks;
     cr_conversions := conversions; cr_installs := 0; cr_cvr := 0 |}.

Definition example_test (clicks_a conversions_a clicks_b conversions_b : Z)
    : ABTest.t :=
  {| ABTest.db := [example_row "a" clicks_a conversions_a;
                   example_row "b" clicks_b conversions_b];
     ABTest.user_id := "user" |}.

Definition example_arm (id : string) (cvr : Z) : Creative :=
  {| cr_id := id; cr_user_id := "user"; cr_name := id;
     cr_impressions := 5000; cr_clicks := 1000;
     cr_conversions := 0; cr_installs := 0; cr_cvr := cvr |}.

(** two variants, of rates 0.05 and 0.03 *)
Definition example_arms : ABTest.t :=
  {| ABTest.db := [example_arm "b" 300; example_arm "a" 500];
     ABTest.user_id := "user" |}.

(** ** Quantities the statements name *)

(** The quotient under the ceiling of [calculate_sample_size], where the
    critical values are finite. *)
Definition sample_ratio `{Numerics}
    (baseline_cvr minimum_detectable_effect alpha power : Q)
    : Q :=
  let variant_cvr := baseline_cvr * (1 + minimum_detectable_effect) in
  let p_pooled := (baseline_cvr + variant_cvr) / 2 in
  (norm_ppf (1 - alpha / 2) + norm_ppf power) ^ 2 * 2 * p_pooled * (1 - p_pooled)
  / (variant_cvr - baseline_cvr) ^ 2.

(** The sum of the weights of an allocation. *)
Definition total_weight (allocation : gmap string Q) : Q :=
  map_fold (fun _ w acc => w + acc) 0 allocation.

(** The loop of [allocate], for any two weights. *)
Definition fill (chosen : ABTest.Arm) (hi lo : Q) (acc : gmap string Q)
    (l : list ABTest.Arm)
    : gmap string Q :=
  foldl
    (fun allocation r =>
       if String.eqb (ABTest.creative_id r) (ABTest.creative_id chosen)
       then <[ABTest.creative_id r := hi]> allocation
       else <[ABTest.creative_id r := lo]> allocation)
    acc l.

(** ** Quantities the further statements name *)

(** the score printed in the [reasoning] of a scored analysis *)
Definition score_of (a : EarlySignalsAnalyzer.Analysis) : option Z :=
  match EarlySignalsAnalyzer.reasoning a with
  | EarlySignalsAnalyzer.ScoreTrail score _ _ _ => Some score
  | _ => None
  end.

(** [ctr] and [bounce_rate] as the method computes them *)
Definition ctr_of (impressions clicks : Z) : Q :=
  if (impressions >? 0)%Z then inject_Z clicks / inject_Z impressions else 0.

Definition bounce_rate_of (landing_views landing_bounces : Z) : Q :=
  if (landing_views >? 0)%Z
  then inject_Z landing_bounces / inject_Z landing_views else 0.

(** the age of the variant is known and below six hours *)
Definition too_young (now : Q) (created_at : option Q) : bool :=
  match created_at with
  | Some created => Qlt_bool ((now - created) / 3600) 6
  | None => false
  end.

Definition low_volume (impressions clicks : Z) : bool :=
  ((impressions <? 100) || (clicks <? 10))%Z.

(** the dictionary [result] built for the element of index [i] *)
Definition entry_for (now : nat -> Q) (i : nat) (creative : CreativeData)
    : result BulkEntry :=
  analysis ←
    EarlySignalsAnalyzer.analyze_24h_performance (now i)
      (default 0%Z (d_impressions creative))
      (default 0%Z (d_clicks creative))
      (default 0%Z (d_landing_views creative))
      (default 0%Z (d_landing_bounces creative))
      (default 0 (d_avg_time_on_page creative))
      (default 0%Z (d_conversions creative))
      (d_created_at creative);
  mret {| b_creative_id := d_id creative; b_name := d_name creative;
          b_analysis := analysis |}.

(** the dictionaries built by the loop, in the order of the input *)
Fixpoint bulk_entries (now : nat -> Q) (i : nat) (creatives_data : list CreativeData)
    : result (list BulkEntry) :=
  match creatives_data with
  | [] => Ok []
  | creative :: rest =>
      e ← entry_for now i creative;
      es ← bulk_entries now (S i) rest;
      mret (e :: es)
  end.

(** the three branches of the loop of [bulk_analyze_24h] *)
Definition is_winner (e : BulkEntry) : bool :=
  String.eqb (EarlySignalsAnalyzer.recommendation (b_analysis e)) "scale".

Definition is_potential (e : BulkEntry) : bool :=
  negb (is_winner e)
  && (String.eqb (EarlySignalsAnalyzer.recommendation (b_analysis e)) "continue"
      || String.eqb (EarlySignalsAnalyzer.recommendation (b_analysis e)) "pause").

Definition is_loser (e : BulkEntry) : bool :=
  negb (is_winner e) && negb (is_potential e).

(** the rows of the table that belong to a user *)
Definition rows_of (uid : string) (db : Session) : Session :=
  List.filter (fun c => String.eqb (cr_user_id c) uid) db.

(** ** Inputs of the further examples *)

Definition example_data (id : string) (impressions clicks landing_views
    landing_bounces : Z) (avg_time_on_page : Q) (conversions : Z)
    : CreativeData :=
  {| d_id := Some id; d_name := Some id;
     d_impressions := Some impressions; d_clicks := Some clicks;
     d_landing_views := Some landing_views;
     d_landing_bounces := Some landing_bounces;
     d_avg_time_on_page := Some avg_time_on_page;
     d_conversions := Some conversions; d_created_at := None |}.

(** a dictionary with an id and no counter *)
Definition example_data_empty : CreativeData :=
  {| d_id := Some "empty"; d_name := None;
     d_impressions := None; d_clicks := None; d_landing_views := None;
     d_landing_bounces := None; d_avg_time_on_page := None;
     d_conversions := None; d_created_at := None |}.

Definition example_bulk : list CreativeData :=
  [example_data "good" 500 20 18 6 (65 # 10) 2;
   example_data "bad" 2000 15 12 10 (12 # 10) 0;
   example_data_empty].

(** * Properties *)

(** ** Comparisons and division *)

Lemma Qlt_bool_iff (x y : Q) : Qlt_bool x y = true <-> x < y.
Proof.
  unfold Qlt_bool. rewrite negb_true_iff, <- not_true_iff_false, Qle_bool_iff.
  split; [apply Qnot_le_lt | apply Qlt_not_le].
Qed.

Lemma Qlt_bool_false_iff (x y : Q) : Qlt_bool x y = false <-> y <= x.
Proof.
  unfold Qlt_bool. rewrite negb_false_iff. apply Qle_bool_iff.
Qed.

Lemma Qle_bool_false_iff (x y : Q) : Qle_bool x y = false <-> y < x.
Proof.
  rewrite <- not_true_iff_false, Qle_bool_iff.
  split; [apply Qnot_le_lt | apply Qlt_not_le].
Qed.

Lemma py_div_ok (a b : Q) : ~ b == 0 -> py_div a b = Ok (a / b).
Proof.
  intros Hb. unfold py_div. destruct (Qeq_bool b 0) eqn:E; [|reflexivity].
  apply Qeq_bool_iff in E. contradiction.
Qed.

Lemma py_div_zero (a b : Q) : b == 0 -> py_div a b = Raise ZeroDivisionError.
Proof.
  intros Hb. unfold py_div. apply Qeq_bool_iff in Hb. now rewrite Hb.
Qed.

Lemma inject_Z_nonzero (n : Z) : (n <> 0)%Z -> ~ inject_Z n == 0.
Proof.
  intros Hn E. apply Hn. unfold Qeq in E. simpl in E. lia.
Qed.

Lemma py_div_Z_ok (a : Q) (n : Z) :
  (n <> 0)%Z -> py_div a (inject_Z n) = Ok (a / inject_Z n).
Proof. intros Hn. apply py_div_ok, inject_Z_nonzero, Hn. Qed.

(** A division guarded by [n > 0] never raises. *)
Lemma guarded_div (a : Q) (n : Z) :
  (if (n >? 0)%Z then py_div a (inject_Z n) else Ok 0)
  = Ok (if (n >? 0)%Z then a / inject_Z n else 0).
Proof.
  destruct (n >? 0)%Z eqn:E; [|reflexivity].
  apply py_div_Z_ok. lia.
Qed.

(** ** The computable numerics meet [NumericsSpec] *)

Section ApproxSpec.

Lemma approx_sq_nonneg (a : Z) : (0 <= Approx.sq a)%Z.
Proof.
  unfold Approx.sq, Approx.mulfix. apply Z.div_pos; [nia|reflexivity].
Qed.

Lemma approx_density_nonneg (k : Z) : (0 <= Approx.density k)%Z.
Proof.
  unfold Approx.density, Approx.exp_fix.
  set (b := Approx.sq _).
  assert (Hb : (0 <= b)%Z) by apply approx_sq_nonneg.
  destruct (Z.eq_dec b 0%Z) as [-> | Hne].
  - now rewrite Z.div_0_r.
  - apply Z.div_pos; [|lia]. vm_compute. discriminate.
Qed.

Lemma approx_cell_succ (k : Z) : (k + 1) # 100 == (k # 100) + (1 # 100).
Proof. unfold Qeq, Qplus. simpl. lia. Qed.

Lemma approx_units_succ (acc d : Z) :
  (acc + d) # 100000000000000000000
  == (acc # 100000000000000000000) + (d # 1000000000000000000) * (1 # 100).
Proof. unfold Qeq, Qplus, Qmult. simpl. lia. Qed.

Lemma approx_units_nonneg (d : Z) : (0 <= d)%Z -> 0 <= d # 1000000000000000000.
Proof. intros H. unfold Qle. simpl. lia. Qed.

Lemma approx_area_lower (n : nat) : forall (k acc : Z) (x : Q),
  k # 100 <= x -> acc # 100000000000000000000 <= Approx.area n k acc x.
Proof.
  induction n as [|n IH]; intros k acc x Hx; simpl.
  - lra.
  - pose proof (approx_units_nonneg _ (approx_density_nonneg k)) as Hd.
    destruct (Qle_bool x ((k + 1) # 100)) eqn:E.
    + nra.
    + apply Qle_bool_false_iff in E.
      eapply Qle_trans; [|apply IH; lra].
      rewrite approx_units_succ. nra.
Qed.

Lemma approx_area_mono (n : nat) : forall (k acc : Z) (x y : Q),
  k # 100 <= x -> x <= y -> Approx.area n k acc x <= Approx.area n k acc y.
Proof.
  induction n as [|n IH]; intros k acc x y Hx Hxy; simpl.
  - lra.
  - pose proof (approx_units_nonneg _ (approx_density_nonneg k)) as Hd.
    pose proof (approx_cell_succ k) as Hk.
    destruct (Qle_bool x ((k + 1) # 100)) eqn:Ex;
      destruct (Qle_bool y ((k + 1) # 100)) eqn:Ey.
    + nra.
    + apply Qle_bool_iff in Ex. apply Qle_bool_false_iff in Ey.
      eapply Qle_trans; [|apply approx_area_lower; lra].
      rewrite approx_units_succ. nra.
    + apply Qle_bool_false_iff in Ex. apply Qle_bool_iff in Ey. lra.
    + apply Qle_bool_false_iff in Ex. apply IH; lra.
Qed.

Lemma approx_area_proper (n : nat) : forall (k acc : Z) (x y : Q),
  x == y -> Approx.area n k acc x == Approx.area n k acc y.
Proof.
  induction n as [|n IH]; intros k acc x y E; simpl.
  - reflexivity.
  - assert (Eb : Qle_bool x ((k + 1) # 100) = Qle_bool y ((k + 1) # 100))
      by now rewrite E.
    rewrite Eb. destruct (Qle_bool y ((k + 1) # 100)).
    + now rewrite E.
    + now apply IH.
Qed.

Lemma approx_cdf_proper (x y : Q) : x == y -> Approx.cdf x == Approx.cdf y.
Proof.
  intros E. unfold Approx.cdf.
  assert (Eb : Qle_bool 0 x = Qle_bool 0 y) by now rewrite E.
  rewrite Eb. destruct (Qle_bool 0 y).
  - now rewrite (approx_area_proper _ _ _ x y E).
  - assert (E' : - x == - y) by now rewrite E.
    now rewrite (approx_area_proper _ _ _ (- x) (- y) E').
Qed.

Lemma approx_cell_zero (x : Q) : 0 <= x -> 0 # 100 <= x.
Proof. intros H. assert (E : 0 # 100 == 0) by reflexivity. now rewrite E. Qed.

Lemma approx_area_nonneg (x : Q) : 0 <= x -> 0 <= Approx.area Approx.cells 0 0 x.
Proof.
  intros Hx.
  eapply Qle_trans; [|apply approx_area_lower, approx_cell_zero, Hx].
  discriminate.
Qed.

Lemma approx_area_mono_0 (x y : Q) :
  0 <= x -> x <= y ->
  Approx.area Approx.cells 0 0 x <= Approx.area Approx.cells 0 0 y.
Proof. intros Hx Hxy. apply approx_area_mono; [apply approx_cell_zero, Hx|exact Hxy]. Qed.

Lemma approx_cdf_mono (x y : Q) : x <= y -> Approx.cdf x <= Approx.cdf y.
Proof.
  intros Hxy. unfold Approx.cdf.
  destruct (Qle_bool 0 x) eqn:Ex; destruct (Qle_bool 0 y) eqn:Ey.
  - apply Qle_bool_iff in Ex.
    pose proof (approx_area_mono_0 x y Ex Hxy) as H.
    apply Qplus_le_r. apply Q.min_le_compat_l. exact H.
  - apply Qle_bool_iff in Ex. apply Qle_bool_false_iff in Ey. lra.
  - apply Qle_bool_false_iff in Ex. apply Qle_bool_iff in Ey.
    assert (Hx : 0 <= - x) by lra.
    pose proof (approx_area_nonneg _ Hx) as H1.
    pose proof (approx_area_nonneg _ Ey) as H2.
    assert (0 <= Qmin (1 # 2) (Approx.area Approx.cells 0 0 (- x)))
      by (apply Q.min_glb; [discriminate|exact H1]).
    assert (0 <= Qmin (1 # 2) (Approx.area Approx.cells 0 0 y))
      by (apply Q.min_glb; [discriminate|exact H2]).
    lra.
  - apply Qle_bool_false_iff in Ex. apply Qle_bool_false_iff in Ey.
    assert (Hy : 0 <= - y) by lra.
    assert (Hyx : - y <= - x) by lra.
    pose proof (approx_area_mono_0 (- y) (- x) Hy Hyx) as H.
    assert (Qmin (1 # 2) (Approx.area Approx.cells 0 0 (- y))
            <= Qmin (1 # 2) (Approx.area Approx.cells 0 0 (- x)))
      by (apply Q.min_le_compat_l; exact H).
    lra.
Qed.

Lemma approx_cdf_le_1 (x : Q) : Approx.cdf x <= 1.
Proof.
  unfold Approx.cdf. destruct (Qle_bool 0 x) eqn:Ex.
  - pose proof (Q.le_min_l (1 # 2) (Approx.area Approx.cells 0 0 x)). lra.
  - apply Qle_bool_false_iff in Ex.
    assert (Hx : 0 <= - x) by lra.
    pose proof (approx_area_nonneg _ Hx) as H1.
    assert (0 <= Qmin (1 # 2) (Approx.area Approx.cells 0 0 (- x)))
      by (apply Q.min_glb; [discriminate|exact H1]).
    lra.
Qed.

Lemma approx_quantile_proper (n : nat) : forall (k acc : Z) (x y : Q),
  x == y -> Approx.quantile n k acc x == Approx.quantile n k acc y.
Proof.
  induction n as [|n IH]; intros k acc x y E; simpl.
  - reflexivity.
  - set (c := (acc + Approx.density k) # 100000000000000000000).
    assert (Eb : Qle_bool x c = Qle_bool y c) by now rewrite E.
    rewrite Eb. destruct (Qle_bool y c).
    + now rewrite E.
    + now apply IH.
Qed.

Lemma approx_ppf_proper (x y : Q) : x == y -> Approx.ppf x == Approx.ppf y.
Proof.
  intros E. unfold Approx.ppf.
  assert (Eb : Qle_bool (1 # 2) x = Qle_bool (1 # 2) y) by now rewrite E.
  rewrite Eb. destruct (Qle_bool (1 # 2) y).
  - erewrite Qred_complete; [reflexivity|].
    apply approx_quantile_proper. now rewrite E.
  - erewrite Qred_complete; [reflexivity|].
    apply Qopp_comp, approx_quantile_proper. now rewrite E.
Qed.

Lemma approx_sqrt_proper (x y : Q) : x == y -> Approx.root x == Approx.root y.
Proof.
  intros E. unfold Approx.root. now rewrite (Qred_complete x y E).
Qed.

Lemma approx_sqrt_nonneg (x : Q) : 0 <= Approx.root x.
Proof.
  unfold Approx.root. destruct (Qnum (Qred x) <=? 0)%Z; [discriminate|].
  unfold Qle. simpl. rewrite Z.mul_1_r. apply Z.sqrt_nonneg.
Qed.

(** integer square root at a scale [s >= 2e12]: relative accuracy 1e-12 *)
Lemma approx_isqrt_accurate (n d s : Z) :
  (1 <= n)%Z -> (1 <= d)%Z -> (2 * 10 ^ 12 <= s)%Z ->
  let r := Z.sqrt (n * d * (s * s)) in
  (r * r <= n * d * (s * s)
   /\ (n * d * (s * s) - r * r) * 10 ^ 12 <= n * d * (s * s))%Z.
Proof.
  intros Hn Hd Hs r.
  assert (Hpos : (0 <= n * d * (s * s))%Z) by nia.
  pose proof (Z.sqrt_spec _ Hpos) as [Hlo Hhi]. fold r in Hlo, Hhi.
  assert (Hr0 : (0 <= r)%Z) by apply Z.sqrt_nonneg.
  assert (Hrs : (s <= r)%Z).
  { unfold r. rewrite <- (Z.sqrt_square s) at 1 by lia.
    apply Z.sqrt_le_mono.
    assert (1 <= n * d)%Z by nia. assert (0 <= s * s)%Z by nia. nia. }
  split; [exact Hlo|].
  assert ((n * d * (s * s) - r * r) <= 2 * r)%Z by nia.
  assert (2 * r * 10 ^ 12 <= r * r)%Z by nia.
  nia.
Qed.


Lemma approx_sqrt_accurate (x : Q) :
  0 <= x -> Qabs (Approx.root x * Approx.root x - x) <= x * sqrt_tol.
Proof.
  intros Hx.
  assert (E : x == Qred x) by (symmetry; apply Qred_correct).
  unfold Approx.root. set (r := Qred x) in *.
  rewrite E in Hx. rewrite E. clearbody r. clear E x.
  destruct r as [n d]. cbn [Qnum Qden].
  destruct (n <=? 0)%Z eqn:En.
  - apply Z.leb_le in En.
    assert (n = 0%Z) by (unfold Qle in Hx; simpl in Hx; lia). subst n.
    apply Qle_bool_imp_le. reflexivity.
  - apply Z.leb_gt in En.
    change (10 ^ 40)%Z
      with (Z.pos 100000000000000000000 * Z.pos 100000000000000000000)%Z.
    assert (Hs : (2 * 10 ^ 12 <= Z.pos 100000000000000000000)%Z)
      by (vm_compute; discriminate).
    generalize dependent (100000000000000000000%positive). intros s Hs.
    pose proof (approx_isqrt_accurate n (Z.pos d) (Z.pos s) ltac:(lia) ltac:(lia) Hs)
      as [Hlo Hhi].
    set (q := Z.sqrt (n * Z.pos d * (Z.pos s * Z.pos s))) in *.
    assert (Hq : (0 <= q)%Z) by apply Z.sqrt_nonneg.
    apply Qabs_Qle_condition. unfold sqrt_tol.
    split; unfold Qle, Qminus, Qplus, Qmult, Qopp; cbn [Qnum Qden];
      rewrite ?Pos2Z.inj_mul.
    + apply Z.le_0_sub.
      match goal with |- (0 <= ?e)%Z =>
        replace e with
          (Z.pos d * Z.pos d
           * (n * Z.pos d * (Z.pos s * Z.pos s)
              - (n * Z.pos d * (Z.pos s * Z.pos s) - q * q) * 10 ^ 12))%Z
          by ring
      end.
      apply Z.mul_nonneg_nonneg; lia.
    + apply Z.le_0_sub.
      match goal with |- (0 <= ?e)%Z =>
        replace e with
          (Z.pos d * Z.pos d
           * (n * Z.pos d * (Z.pos s * Z.pos s)
              + (n * Z.pos d * (Z.pos s * Z.pos s) - q * q) * 10 ^ 12))%Z
          by ring
      end.
      apply Z.mul_nonneg_nonneg; [lia|]. nia.
Qed.

Lemma approx_numerics_spec : NumericsSpec Approx.numerics.
Proof.
  split; cbn [sqrt norm_cdf norm_ppf Approx.numerics].
  - apply approx_sqrt_proper.
  - apply approx_cdf_proper.
  - apply approx_ppf_proper.
  - intros x _. apply approx_sqrt_nonneg.
  - apply approx_sqrt_accurate.
  - apply Qeq_bool_eq. vm_compute. reflexivity.
  - apply approx_cdf_mono.
  - apply approx_cdf_le_1.
  - apply Qle_bool_imp_le. vm_compute. reflexivity.
  - apply Qle_bool_imp_le. vm_compute. reflexivity.
  - split; apply Qle_bool_imp_le; vm_compute; reflexivity.
  - split; apply Qle_bool_imp_le; vm_compute; reflexivity.
Qed.

End ApproxSpec.

#[global] Existing Instance approx_numerics_spec.

(** ** The early-signal scorer *)

Section EarlySignals.

Import EarlySignalsAnalyzer.

Lemma count_signals_score (ctr bounce_rate avg_time_on_page : Q) (conversions : Z) :
  let '(positive_signals, negative_signals, _) :=
    count_signals ctr bounce_rate avg_time_on_page conversions in
  (positive_signals - negative_signals)%Z
  = EarlySignalSpec.score ctr bounce_rate avg_time_on_page conversions.
Proof.
  unfold count_signals, EarlySignalSpec.score, EarlySignalSpec.ctr_points,
    EarlySignalSpec.bounce_points, EarlySignalSpec.time_points,
    EarlySignalSpec.conversion_points,
    ctr_good, ctr_bad, bounce_good, bounce_bad, time_good, time_bad.
  rewrite Z.gtb_ltb.
  destruct (Qle_bool (3 # 100) ctr), (Qle_bool ctr (1 # 100)),
    (Qle_bool bounce_rate (40 # 100)), (Qle_bool (70 # 100) bounce_rate),
    (Qle_bool 5 avg_time_on_page), (Qle_bool avg_time_on_page 2),
    (0 <? conversions)%Z; reflexivity.
Qed.

(** The chain of comparisons in the code selects the row of the table. *)
Lemma classify_chain (score : Z) (ctr : Q) :
  exists row,
    EarlySignalSpec.classify score = Some row /\
    (if (score >=? 3)%Z
     then ("strong_positive", "scale", ctr * (15 # 100), 75 # 100)
     else if (score >=? 1)%Z
     then ("positive", "continue", ctr * (12 # 100), 65 # 100)
     else if (score >=? -1)%Z
     then ("neutral", "continue", ctr * (8 # 100), 50 # 100)
     else if (score >=? -3)%Z
     then ("negative", "pause", ctr * (5 # 100), 70 # 100)
     else ("strong_negative", "kill", ctr * (3 # 100), 80 # 100))
    = (EarlySignalSpec.row_signal row, EarlySignalSpec.row_recommendation row,
       ctr * EarlySignalSpec.row_factor row, EarlySignalSpec.row_confidence row).
Proof.
  unfold EarlySignalSpec.classify, EarlySignalSpec.within.
  destruct (Z.geb_spec score 3).
  { replace (3 <=? score)%Z with true by lia. eauto. }
  replace (3 <=? score)%Z with false by lia.
  destruct (Z.geb_spec score 1).
  { replace (1 <=? score)%Z with true by lia.
    replace (score <=? 2)%Z with true by lia. eauto. }
  replace (1 <=? score)%Z with false by lia.
  destruct (Z.geb_spec score (-1)).
  { replace (-1 <=? score)%Z with true by lia.
    replace (score <=? 0)%Z with true by lia. eauto. }
  replace (-1 <=? score)%Z with false by lia.
  destruct (Z.geb_spec score (-3)).
  { replace (-3 <=? score)%Z with true by lia.
    replace (score <=? -2)%Z with true by lia. eauto. }
  replace (-3 <=? score)%Z with false by lia.
  replace (score <=? -4)%Z with true by lia. eauto.
Qed.

(** C6, as the code has it.  A variant created less than six hours before
    [now] is answered by the time gate, whatever the counters are: the
    signal is the string [insufficient_data], the confidence 0 and the
    recommendation [wait]; neither the volume gate nor the score is
    reached. *)
Theorem time_gate_answers_first
    (now : Q) (impressions clicks landing_views landing_bounces : Z)
    (avg_time_on_page : Q) (conversions : Z) (created : Q) :
  (now - created) / 3600 < 6 ->
  analyze_24h_performance now impressions clicks landing_views landing_bounces
    avg_time_on_page conversions (Some created)
  = Ok {| signal := "insufficient_data"; confidence := 0;
          recommendation := "wait";
          reasoning := OnlyHoursPassed ((now - created) / 3600);
          scored := None |}.
Proof.
  intros Hage. unfold analyze_24h_performance.
  rewrite !guarded_div. cbn [mbind result_bind].
  apply Qlt_bool_iff in Hage. now rewrite Hage.
Qed.

Lemma time_gate_answers_first_witness :
  (3 * 3600 - 0) / 3600 < 6 /\
  analyze_24h_performance (3 * 3600) 500 20 18 6 (65 # 10) 2 (Some 0)
  = Ok {| signal := "insufficient_data"; confidence := 0;
          recommendation := "wait";
          reasoning := OnlyHoursPassed ((3 * 3600 - 0) / 3600);
          scored := None |}.
Proof.
  split; [reflexivity|].
  apply (time_gate_answers_first (3 * 3600) 500 20 18 6 (65 # 10) 2 0).
  reflexivity.
Defined.

(** C6, as the specification names the signal: at an age of three hours
    the signal returned is [insufficient_data], not [insufficient_time]. *)
Lemma time_gate_signal_name :
  exists a,
    analyze_24h_performance (3 * 3600) 500 20 18 6 (65 # 10) 2 (Some 0) = Ok a /\
    signal a = "insufficient_data" /\
    signal a <> "insufficient_time" /\
    recommendation a = "wait".
Proof.
  eexists. split; [vm_compute; reflexivity|].
  repeat split. discriminate.
Qed.

(** C8.  Past both gates the score is the sum of the four signed
    contributions of the specification, and signal, recommendation,
    confidence and predicted CVR are those of the row of the table for
    that score, the predicted CVR being the CTR times the row's factor. *)
Theorem score_and_classification
    (now : Q) (impressions clicks landing_views landing_bounces : Z)
    (avg_time_on_page : Q) (conversions : Z) (created_at : option Q) :
  (forall created, created_at = Some created -> 6 <= (now - created) / 3600) ->
  (100 <= impressions)%Z ->
  (10 <= clicks)%Z ->
  let ctr := inject_Z clicks / inject_Z impressions in
  let bounce_rate :=
    if (landing_views >? 0)%Z
    then inject_Z landing_bounces / inject_Z landing_views else 0 in
  let score :=
    EarlySignalSpec.score ctr bounce_rate avg_time_on_page conversions in
  exists row positive_signals negative_signals signals_detail metrics action,
    EarlySignalSpec.classify score = Some row /\
    analyze_24h_performance now impressions clicks landing_views landing_bounces
      avg_time_on_page conversions created_at
    = Ok {| signal := EarlySignalSpec.row_signal row;
            confidence := EarlySignalSpec.row_confidence row;
            recommendation := EarlySignalSpec.row_recommendation row;
            reasoning :=
              ScoreTrail score positive_signals negative_signals signals_detail;
            scored :=
              Some {| predicted_final_cvr := ctr * EarlySignalSpec.row_factor row;
                      metrics := metrics; next_action := action |} |}.
Proof.
  intros Hage Himp Hclicks ctr bounce_rate score.
  unfold analyze_24h_performance.
  rewrite !guarded_div. cbn [mbind result_bind].
  replace (impressions >? 0)%Z with true by lia.
  fold ctr. fold bounce_rate.
  replace ((impressions <? 100) || (clicks <? 10))%Z with false by lia.
  pose proof (count_signals_score ctr bounce_rate avg_time_on_page conversions)
    as Hscore.
  destruct (count_signals ctr bounce_rate avg_time_on_page conversions)
    as [[positive_signals negative_signals] signals_detail].
  fold score in Hscore. rewrite Hscore.
  destruct (classify_chain score ctr) as (row & Hrow & Hchain).
  rewrite Hchain.
  exists row, positive_signals, negative_signals, signals_detail.
  do 2 eexists. split; [exact Hrow|].
  destruct created_at as [created|]; [|reflexivity].
  specialize (Hage created eq_refl).
  apply Qlt_bool_false_iff in Hage. rewrite Hage. reflexivity.
Qed.

(** The example of the specification: score 5, [strong_positive],
    [scale], confidence 0.75 and a predicted CVR of 0.15 times the CTR. *)
Lemma score_and_classification_witness :
  (forall created : Q, @None Q = Some created -> 6 <= (0 - created) / 3600) /\
  (100 <= 500)%Z /\ (10 <= 20)%Z /\
  exists positive_signals negative_signals signals_detail metrics action,
    analyze_24h_performance 0 500 20 18 6 (65 # 10) 2 None
    = Ok {| signal := "strong_positive"; confidence := 75 # 100;
            recommendation := "scale";
            reasoning :=
              ScoreTrail 5 positive_signals negative_signals signals_detail;
            scored :=
              Some {| predicted_final_cvr :=
                        inject_Z 20 / inject_Z 500 * (15 # 100);
                      metrics := metrics; next_action := action |} |}.
Proof.
  assert (H0 : forall created : Q,
             @None Q = Some created -> 6 <= (0 - created) / 3600)
    by (intros created E; discriminate E).
  assert (H1 : (100 <= 500)%Z) by lia.
  assert (H2 : (10 <= 20)%Z) by lia.
  repeat split; try assumption.
  destruct (score_and_classification 0 500 20 18 6 (65 # 10) 2 None H0 H1 H2)
    as (row & ps & ns & sd & m & act & Hrow & Hres).
  vm_compute in Hrow. injection Hrow as <-.
  exists ps, ns, sd, m, act. exact Hres.
Defined.

End EarlySignals.

(** ** The significance analyzer: gates *)

Section AnalyzerGate.

Import ABTest.
Context {N : Numerics}.

(** C3.  When both rows are found and the metric is one of the three, a
    denominator below 100 on either side makes [analyze_test] return the
    [insufficient_data] dictionary with the two sample sizes.  This holds
    for every implementation of the numeric functions: none of them is
    consulted. *)
Theorem volume_gate
    (self : t) (creative_a_id creative_b_id metric : string)
    (creative_a creative_b : Creative)
    (a_conversions a_total b_conversions b_total : Z) :
  query_first (db self) creative_a_id (user_id self) = Some creative_a ->
  query_first (db self) creative_b_id (user_id self) = Some creative_b ->
  metric_values metric creative_a = Some (a_conversions, a_total) ->
  metric_values metric creative_b = Some (b_conversions, b_total) ->
  (a_total < 100 \/ b_total < 100)%Z ->
  analyze_test self creative_a_id creative_b_id metric
  = Ok (InsufficientData "Need at least 100 samples per variant" a_total b_total).
Proof.
  intros Ha Hb Hma Hmb Hlow. unfold analyze_test.
  rewrite Ha, Hb, Hma, Hmb.
  replace ((a_total <? 100) || (b_total <? 100))%Z with true; [reflexivity|].
  symmetry. apply orb_true_iff. lia.
Qed.

(** The metric is valid exactly when it names one of the three rates. *)
Lemma metric_values_valid (metric : string) (c : Creative) :
  (metric = "cvr" \/ metric = "install_rate" \/ metric = "ctr")
  <-> exists num den, metric_values metric c = Some (num, den).
Proof.
  unfold metric_values. split.
  - intros [-> | [-> | ->]]; simpl; eauto.
  - intros (num & den & H).
    destruct (String.eqb_spec metric "cvr"); [auto|].
    destruct (String.eqb_spec metric "install_rate"); [auto|].
    destruct (String.eqb_spec metric "ctr"); [auto|discriminate].
Qed.

End AnalyzerGate.

Lemma volume_gate_witness :
  (99 < 100 \/ 4000 < 100)%Z /\
  ABTest.analyze_test (example_test 99 98 4000 40) "a" "b" "cvr"
  = Ok (ABTest.InsufficientData "Need at least 100 samples per variant" 99 4000).
Proof.
  assert (H : (99 < 100 \/ 4000 < 100)%Z) by (left; lia).
  split; [exact H|].
  apply (volume_gate (example_test 99 98 4000 40) "a" "b" "cvr"
           (example_row "a" 99 98) (example_row "b" 4000 40) 98 99 40 4000);
    solve [reflexivity | exact H].
Defined.

(** ** The sample-size calculator *)

Section SampleSize.

Import ABTest.
Context {N : Numerics}.

Lemma Qpower_2 (x : Q) : x ^ 2 = x * x.
Proof. reflexivity. Qed.


(** *** Values that are not numbers *)

Lemma stats_norm_ppf_finite (q : Q) :
  0 < q < 1 -> stats_norm_ppf q = Finite (norm_ppf q).
Proof.
  intros [H0 H1]. unfold stats_norm_ppf.
  replace (Qlt_bool q 0) with false
    by (symmetry; apply Qlt_bool_false_iff; lra).
  replace (Qlt_bool 1 q) with false
    by (symmetry; apply Qlt_bool_false_iff; lra).
  cbn [orb].
  destruct (Qeq_bool q 0) eqn:E0; [apply Qeq_bool_iff in E0; lra|].
  destruct (Qeq_bool q 1) eqn:E1; [apply Qeq_bool_iff in E1; lra|].
  reflexivity.
Qed.








(** *** The two outcomes of [calculate_sample_size] *)

(** Finite critical values and a divisor that is not zero: the method
    returns the ceiling of the quotient. *)
Lemma calculate_sample_size_returns
    (baseline_cvr minimum_detectable_effect alpha power : Q) :
  0 < 1 - alpha / 2 < 1 -> 0 < power < 1 ->
  ~ (baseline_cvr * (1 + minimum_detectable_effect) - baseline_cvr) ^ 2 == 0 ->
  calculate_sample_size baseline_cvr minimum_detectable_effect alpha power
  = Ok (Qceiling (sample_ratio baseline_cvr minimum_detectable_effect alpha power)).
Proof.
  intros Ha Hp Hd. unfold calculate_sample_size.
  rewrite !stats_norm_ppf_finite by assumption.
  cbn [np_add np_square np_mul np_div].
  destruct (Qeq_bool _ 0) eqn:E; [apply Qeq_bool_iff in E; contradiction|].
  reflexivity.
Qed.








Lemma Qceiling_eq (x : Q) (n : Z) :
  inject_Z n - 1 < x -> x <= inject_Z n -> Qceiling x = n.
Proof.
  intros Hlo Hhi.
  assert (H1 : (Qceiling x <= n)%Z).
  { rewrite <- (Qceiling_Z n). now apply Qceiling_resp_le. }
  assert (H2 : (n - 1 < Qceiling x)%Z).
  { rewrite Zlt_Qlt. apply Qlt_le_trans with x; [|apply Qle_ceiling].
    replace (n - 1)%Z with (n + -1)%Z by lia.
    rewrite inject_Z_plus. exact Hlo. }
  lia.
Qed.

(** Two effects close to each other need the same sample: for a baseline
    of 0.5, the effects 0.90 and 0.89 both give 16, with any numeric
    library that is accurate to four decimals. *)
Lemma close_effects_same_size `{!NumericsSpec N} :
  calculate_sample_size (1 # 2) (90 # 100) (5 # 100) (80 # 100) = Ok 16%Z /\
  calculate_sample_size (1 # 2) (89 # 100) (5 # 100) (80 # 100) = Ok 16%Z.
Proof.
  pose proof ppf_975 as [Ha1 Ha2]. pose proof ppf_80 as [Hb1 Hb2].
  assert (Ea : norm_ppf (1 - (5 # 100) / 2) == norm_ppf (975 # 1000))
    by (apply ppf_proper; reflexivity).
  assert (Eb : norm_ppf (80 # 100) == norm_ppf (8 # 10))
    by (apply ppf_proper; reflexivity).
  split.
  - rewrite calculate_sample_size_returns
      by (try (split; reflexivity); intros E; discriminate E).
    f_equal. unfold sample_ratio. rewrite !Qpower_2.
    set (k := norm_ppf (1 - (5 # 100) / 2) + norm_ppf (80 # 100)).
    assert (Hk1 : 28015 # 10000 <= k) by (unfold k; lra).
    assert (Hk2 : k <= 28017 # 10000) by (unfold k; lra).
    assert (E : k * k * 2 * (((1 # 2) + (1 # 2) * (1 + (90 # 100))) / 2)
                * (1 - ((1 # 2) + (1 # 2) * (1 + (90 # 100))) / 2)
                / (((1 # 2) * (1 + (90 # 100)) - (1 # 2))
                   * ((1 # 2) * (1 + (90 # 100)) - (1 # 2)))
                == k * k * (319 # 162)) by field.
    assert (Hkk1 : (28015 # 10000) * (28015 # 10000) <= k * k) by nra.
    assert (Hkk2 : k * k <= (28017 # 10000) * (28017 # 10000)) by nra.
    apply Qceiling_eq; rewrite E; unfold inject_Z; lra.
  - rewrite calculate_sample_size_returns
      by (try (split; reflexivity); intros E; discriminate E).
    f_equal. unfold sample_ratio. rewrite !Qpower_2.
    set (k := norm_ppf (1 - (5 # 100) / 2) + norm_ppf (80 # 100)).
    assert (Hk1 : 28015 # 10000 <= k) by (unfold k; lra).
    assert (Hk2 : k <= 28017 # 10000) by (unfold k; lra).
    assert (E : k * k * 2 * (((1 # 2) + (1 # 2) * (1 + (89 # 100))) / 2)
                * (1 - ((1 # 2) + (1 # 2) * (1 + (89 # 100))) / 2)
                / (((1 # 2) * (1 + (89 # 100)) - (1 # 2))
                   * ((1 # 2) * (1 + (89 # 100)) - (1 # 2)))
                == k * k * (64158 # 31684)) by field.
    assert (Hkk1 : (28015 # 10000) * (28015 # 10000) <= k * k) by nra.
    assert (Hkk2 : k * k <= (28017 # 10000) * (28017 # 10000)) by nra.
    apply Qceiling_eq; rewrite E; unfold inject_Z; lra.
Qed.

End SampleSize.





(** ** The significance analyzer: statistics and verdict *)

Section Analyzer.

Import ABTest.
Context {N : Numerics}.

Lemma bind_ok {A B : Type} (m : result A) (k : A -> result B) (b : B) :
  (x ← m; k x) = Ok b -> exists a, m = Ok a /\ k a = Ok b.
Proof. destruct m as [a|e]; [eauto|discriminate]. Qed.

Lemma py_div_inv (a b q : Q) : py_div a b = Ok q -> ~ b == 0 /\ q = a / b.
Proof.
  unfold py_div. destruct (Qeq_bool b 0) eqn:E; [discriminate|].
  intros [= <-]. split; [|reflexivity].
  intros Hb. apply Qeq_bool_iff in Hb. congruence.
Qed.

Lemma math_sqrt_inv (x r : Q) : math_sqrt x = Ok r -> 0 <= x /\ r = sqrt x.
Proof.
  unfold math_sqrt. destruct (Qle_bool 0 x) eqn:E; [|discriminate].
  intros [= <-]. split; [now apply Qle_bool_iff|reflexivity].
Qed.

(** What a returned [Statistics] holds. *)
Lemma test_statistics_inv (a_conversions a_total b_conversions b_total : Z)
    (s : Statistics) :
  test_statistics a_conversions a_total b_conversions b_total = Ok s ->
  rate_a s = (if (a_total >? 0)%Z
              then inject_Z a_conversions / inject_Z a_total else 0) /\
  rate_b s = (if (b_total >? 0)%Z
              then inject_Z b_conversions / inject_Z b_total else 0) /\
  pooled_rate s
  = inject_Z (a_conversions + b_conversions) / inject_Z (a_total + b_total) /\
  se s = sqrt (pooled_rate s * (1 - pooled_rate s)
               * (1 / inject_Z a_total + 1 / inject_Z b_total)) /\
  (se s == 0 /\ z_score s = 0 /\ p_value s = 1
   \/ ~ se s == 0 /\ z_score s = (rate_b s - rate_a s) / se s
      /\ p_value s = 2 * (1 - norm_cdf (Qabs (z_score s)))) /\
  is_significant s = Qlt_bool (p_value s) (5 # 100) /\
  winner s = (if is_significant s
              then (if Qlt_bool (rate_a s) (rate_b s) then "B" else "A")
              else "tie").
Proof.
  unfold test_statistics. rewrite !guarded_div. cbn [mbind result_bind].
  intros H.
  apply bind_ok in H as (pooled & Hpooled & H). apply py_div_inv in Hpooled as [_ ->].
  apply bind_ok in H as (inv_a & Hinv_a & H). apply py_div_inv in Hinv_a as [_ ->].
  apply bind_ok in H as (inv_b & Hinv_b & H). apply py_div_inv in Hinv_b as [_ ->].
  apply bind_ok in H as (se0 & Hse & H). apply math_sqrt_inv in Hse as [_ Hse].
  apply bind_ok in H as ([z p] & Hzp & H).
  apply bind_ok in H as (lift0 & _ & H).
  apply bind_ok in H as ([lo hi] & _ & H).
  injection H as <-. cbn [rate_a rate_b pooled_rate se z_score p_value
                            is_significant winner].
  repeat (split; [reflexivity || exact Hse|]).
  split; [|split; reflexivity].
  destruct (Qeq_bool se0 0) eqn:E.
  - left. injection Hzp as <- <-. apply Qeq_bool_iff in E. auto.
  - right. apply bind_ok in Hzp as (z0 & Hz & Hzp).
    apply py_div_inv in Hz as [Hne ->]. injection Hzp as <- <-. auto.
Qed.

Lemma math_sqrt_ok (x : Q) : 0 <= x -> math_sqrt x = Ok (sqrt x).
Proof.
  intros Hx. unfold math_sqrt. apply Qle_bool_iff in Hx. now rewrite Hx.
Qed.

Lemma inject_Z_pos (n : Z) : (0 < n)%Z -> 0 < inject_Z n.
Proof. intros H. unfold Qlt. simpl. lia. Qed.

(** A count out of a positive total is a rate. *)
Lemma rate_bounds (num den : Z) :
  (0 <= num <= den)%Z -> (0 < den)%Z ->
  0 <= inject_Z num / inject_Z den <= 1.
Proof.
  intros [H0 H1] Hden. pose proof (inject_Z_pos den Hden) as Hd. split.
  - apply Qle_shift_div_l; [exact Hd|]. rewrite Qmult_0_l.
    unfold Qle. simpl. lia.
  - apply Qle_shift_div_r; [exact Hd|]. rewrite Qmult_1_l.
    rewrite <- Zle_Qle. exact H1.
Qed.

Lemma guarded_rate_bounds (num den : Z) :
  (0 <= num <= den)%Z ->
  0 <= (if (den >? 0)%Z then inject_Z num / inject_Z den else 0) <= 1.
Proof.
  intros H. destruct (den >? 0)%Z eqn:E.
  - apply rate_bounds; [exact H|lia].
  - split; discriminate.
Qed.

Lemma guarded_rate_div (a r : Q) :
  (if Qlt_bool 0 r then py_div a r else Ok 0)
  = Ok (if Qlt_bool 0 r then a / r else 0).
Proof.
  destruct (Qlt_bool 0 r) eqn:E; [|reflexivity].
  apply Qlt_bool_iff in E. apply py_div_ok. lra.
Qed.

Lemma standard_error_returns (rate : Q) (n : Z) :
  0 <= rate <= 1 ->
  exists se_n,
    (if (n >? 0)%Z
     then v ← py_div (rate * (1 - rate)) (inject_Z n); math_sqrt v
     else Ok 0) = Ok se_n.
Proof.
  intros Hr. destruct (n >? 0)%Z eqn:E; [|eauto].
  rewrite py_div_Z_ok by lia. cbn [mbind result_bind].
  rewrite math_sqrt_ok; [eauto|].
  apply Qle_shift_div_l; [apply inject_Z_pos; lia|]. nra.
Qed.

Lemma _confidence_interval_returns (rate_a rate_b : Q) (n_a n_b : Z) (c : Q) :
  0 <= rate_a <= 1 -> 0 <= rate_b <= 1 ->
  exists lower upper,
    _confidence_interval rate_a rate_b n_a n_b c = Ok (lower, upper).
Proof.
  intros Ha Hb. unfold _confidence_interval.
  destruct (standard_error_returns rate_a n_a Ha) as (se_a & ->).
  destruct (standard_error_returns rate_b n_b Hb) as (se_b & ->).
  cbn [mbind result_bind].
  rewrite math_sqrt_ok by (rewrite !Qpower_2; nra).
  cbn [mbind result_bind]. rewrite !guarded_rate_div.
  cbn [mbind result_bind mret result_ret]. eauto.
Qed.

(** Valid counts with positive totals never make [test_statistics] raise. *)
Lemma test_statistics_returns
    (a_conversions a_total b_conversions b_total : Z) :
  (0 <= a_conversions <= a_total)%Z -> (0 <= b_conversions <= b_total)%Z ->
  (0 < a_total)%Z -> (0 < b_total)%Z ->
  exists s, test_statistics a_conversions a_total b_conversions b_total = Ok s.
Proof.
  intros Ha Hb Hta Htb. unfold test_statistics.
  rewrite !guarded_div. cbn [mbind result_bind].
  pose proof (guarded_rate_bounds _ _ Ha) as Hra.
  pose proof (guarded_rate_bounds _ _ Hb) as Hrb.
  set (rate_a := if (a_total >? 0)%Z then _ else _) in *.
  set (rate_b := if (b_total >? 0)%Z then _ else _) in *.
  rewrite !py_div_Z_ok by lia. cbn [mbind result_bind].
  set (pooled := inject_Z (a_conversions + b_conversions)
                 / inject_Z (a_total + b_total)).
  assert (Hp : 0 <= pooled <= 1) by (apply rate_bounds; lia).
  rewrite math_sqrt_ok.
  2:{ assert (0 < 1 / inject_Z a_total)
        by (apply Qlt_shift_div_l; [apply inject_Z_pos; lia|reflexivity]).
      assert (0 < 1 / inject_Z b_total)
        by (apply Qlt_shift_div_l; [apply inject_Z_pos; lia|reflexivity]).
      apply Qmult_le_0_compat; [nra|lra]. }
  cbn [mbind result_bind].
  set (se := sqrt _).
  assert (Hzp : exists zp,
             (if Qeq_bool se 0 then Ok (0, 1)
              else z ← py_div (rate_b - rate_a) se;
                   Ok (z, 2 * (1 - norm_cdf (Qabs z)))) = Ok zp).
  { destruct (Qeq_bool se 0) eqn:E; [eauto|].
    rewrite py_div_ok; [cbn; eauto|].
    intros Hse. apply Qeq_bool_iff in Hse. congruence. }
  destruct Hzp as ([z p] & ->). cbn [mbind result_bind].
  rewrite guarded_rate_div. cbn [mbind result_bind].
  destruct (_confidence_interval_returns rate_a rate_b a_total b_total
              (95 # 100) Hra Hrb) as (lo & hi & ->).
  cbn [mbind result_bind mret result_ret]. eauto.
Qed.

Context {NS : NumericsSpec N}.

Lemma sqrt_zero_iff (x : Q) : 0 <= x -> (sqrt x == 0 <-> x == 0).
Proof.
  intros Hx. split; intros E.
  - pose proof (sqrt_accurate x Hx) as H.
    apply Qabs_Qle_condition in H as [H _].
    rewrite E in H. unfold sqrt_tol in H. lra.
  - rewrite (sqrt_proper x 0 E).
    pose proof (sqrt_accurate 0 ltac:(lra)) as H.
    apply Qabs_Qle_condition in H as [_ H].
    pose proof (sqrt_nonneg 0 ltac:(lra)) as H0.
    assert (Hs : sqrt 0 * sqrt 0 <= 0) by lra.
    destruct (Qlt_le_dec 0 (sqrt 0)) as [Hpos | Hle]; [nra|lra].
Qed.

(** The two-tailed probability is a probability. *)
Lemma two_tailed_range (z : Q) : 0 <= 2 * (1 - norm_cdf (Qabs z)) <= 1.
Proof.
  pose proof (cdf_mono 0 (Qabs z) (Qabs_nonneg z)) as H.
  pose proof (cdf_le_1 (Qabs z)). pose proof cdf_half. lra.
Qed.

(** Equal rates give a p-value of 1. *)
Lemma equal_rates_p_value (a_conversions a_total b_conversions b_total : Z)
    (s : Statistics) :
  test_statistics a_conversions a_total b_conversions b_total = Ok s ->
  rate_a s == rate_b s -> p_value s == 1.
Proof.
  intros Hs Heq.
  apply test_statistics_inv in Hs as (_ & _ & _ & _ & Hzp & _).
  destruct Hzp as [(_ & _ & ->) | (Hse & Hz & Hp)]; [reflexivity|].
  assert (Ez : z_score s == 0).
  { rewrite Hz, Heq. unfold Qminus. rewrite Qplus_opp_r.
    unfold Qdiv. apply Qmult_0_l. }
  rewrite Hp.
  assert (Ec : norm_cdf (Qabs (z_score s)) == 1 # 2).
  { rewrite <- cdf_half. apply cdf_proper. rewrite Ez. reflexivity. }
  rewrite Ec. reflexivity.
Qed.

(** The verdict of [test_statistics]. *)
Lemma verdict_rule (a_conversions a_total b_conversions b_total : Z)
    (s : Statistics) :
  test_statistics a_conversions a_total b_conversions b_total = Ok s ->
  (is_significant s = true <-> p_value s < 5 # 100) /\
  (is_significant s = true ->
   winner s = "B" /\ rate_a s < rate_b s
   \/ winner s = "A" /\ rate_b s < rate_a s) /\
  (is_significant s = false -> winner s = "tie").
Proof.
  intros Hs. pose proof (equal_rates_p_value _ _ _ _ _ Hs) as Heq.
  apply test_statistics_inv in Hs as (_ & _ & _ & _ & _ & Hsig & Hwin).
  split; [rewrite Hsig; apply Qlt_bool_iff|].
  split; intros Hsg; rewrite Hsg in Hwin; [|exact Hwin].
  rewrite Hsig in Hsg. apply Qlt_bool_iff in Hsg.
  destruct (Qlt_bool (rate_a s) (rate_b s)) eqn:E.
  - left. apply Qlt_bool_iff in E. auto.
  - right. apply Qlt_bool_false_iff in E. split; [exact Hwin|].
    destruct (Qle_lt_or_eq _ _ E) as [Hlt | Hq]; [exact Hlt|].
    symmetry in Hq. apply Heq in Hq. rewrite Hq in Hsg. discriminate Hsg.
Qed.

(** What [analyze_test] returns past the volume gate. *)
Lemma analyze_test_analyzed
    (self : t) (creative_a_id creative_b_id metric : string)
    (creative_a creative_b : Creative)
    (a_conversions a_total b_conversions b_total : Z) (s : Statistics) :
  query_first (db self) creative_a_id (user_id self) = Some creative_a ->
  query_first (db self) creative_b_id (user_id self) = Some creative_b ->
  metric_values metric creative_a = Some (a_conversions, a_total) ->
  metric_values metric creative_b = Some (b_conversions, b_total) ->
  (100 <= a_total)%Z -> (100 <= b_total)%Z ->
  test_statistics a_conversions a_total b_conversions b_total = Ok s ->
  exists v,
    analyze_test self creative_a_id creative_b_id metric = Ok (Analyzed v) /\
    v_winner v = winner s /\
    v_statistical_significance v = is_significant s /\
    v_p_value v = py_round (p_value s) 4 /\
    v_z_score v = py_round (z_score s) 3 /\
    e_rate (v_creative_a v) = py_round (rate_a s) 4 /\
    e_rate (v_creative_b v) = py_round (rate_b s) 4.
Proof.
  intros Ha Hb Hma Hmb Hta Htb Hs. unfold analyze_test.
  rewrite Ha, Hb, Hma, Hmb, Hs.
  replace ((a_total <? 100) || (b_total <? 100))%Z with false by lia.
  cbn [mbind result_bind mret result_ret]. eexists. split; [reflexivity|].
  cbn. repeat split.
Qed.

(** Where a returned verdict comes from. *)
Lemma analyze_test_inv
    (self : t) (creative_a_id creative_b_id metric : string) (v : Verdict) :
  analyze_test self creative_a_id creative_b_id metric = Ok (Analyzed v) ->
  exists creative_a creative_b a_conversions a_total b_conversions b_total s,
    query_first (db self) creative_a_id (user_id self) = Some creative_a /\
    query_first (db self) creative_b_id (user_id self) = Some creative_b /\
    metric_values metric creative_a = Some (a_conversions, a_total) /\
    metric_values metric creative_b = Some (b_conversions, b_total) /\
    (100 <= a_total)%Z /\ (100 <= b_total)%Z /\
    test_statistics a_conversions a_total b_conversions b_total = Ok s /\
    v_winner v = winner s /\
    v_statistical_significance v = is_significant s.
Proof.
  unfold analyze_test. intros H.
  destruct (query_first (db self) creative_a_id (user_id self))
    as [creative_a|] eqn:Ha; [|discriminate].
  destruct (query_first (db self) creative_b_id (user_id self))
    as [creative_b|] eqn:Hb; [|discriminate].
  destruct (metric_values metric creative_a)
    as [[a_conversions a_total]|] eqn:Hma; [|discriminate].
  destruct (metric_values metric creative_b)
    as [[b_conversions b_total]|] eqn:Hmb; [|discriminate].
  destruct ((a_total <? 100) || (b_total <? 100))%Z eqn:Hgate; [discriminate|].
  apply bind_ok in H as (s & Hs & H). injection H as <-.
  exists creative_a, creative_b, a_conversions, a_total, b_conversions, b_total, s.
  cbn. repeat split; try assumption; lia.
Qed.

(** C10.  A verdict marked significant comes from two computed rates that
    differ, and the winner it names is the variant whose computed rate is
    strictly the larger. *)
Theorem significant_winner_has_larger_rate
    (self : t) (creative_a_id creative_b_id metric : string) (v : Verdict) :
  analyze_test self creative_a_id creative_b_id metric = Ok (Analyzed v) ->
  v_statistical_significance v = true ->
  exists creative_a creative_b a_conversions a_total b_conversions b_total,
    query_first (db self) creative_a_id (user_id self) = Some creative_a /\
    query_first (db self) creative_b_id (user_id self) = Some creative_b /\
    metric_values metric creative_a = Some (a_conversions, a_total) /\
    metric_values metric creative_b = Some (b_conversions, b_total) /\
    let rate_a := inject_Z a_conversions / inject_Z a_total in
    let rate_b := inject_Z b_conversions / inject_Z b_total in
    ~ rate_a == rate_b /\
    (v_winner v = "B" /\ rate_a < rate_b \/ v_winner v = "A" /\ rate_b < rate_a).
Proof.
  intros Hv Hsig.
  apply analyze_test_inv in Hv
    as (creative_a & creative_b & a_conversions & a_total & b_conversions
        & b_total & s & Ha & Hb & Hma & Hmb & Hta & Htb & Hs & Hw & Hsg).
  exists creative_a, creative_b, a_conversions, a_total, b_conversions, b_total.
  repeat (split; [assumption|]).
  rewrite Hsg in Hsig. rewrite Hw.
  pose proof (verdict_rule _ _ _ _ _ Hs) as (_ & Hrule & _).
  specialize (Hrule Hsig).
  apply test_statistics_inv in Hs as (Hra & Hrb & _).
  replace (a_total >? 0)%Z with true in Hra by lia.
  replace (b_total >? 0)%Z with true in Hrb by lia.
  rewrite Hra, Hrb in Hrule. cbv zeta.
  split; [|exact Hrule].
  intros E. destruct Hrule as [[_ H] | [_ H]]; rewrite E in H;
    exact (Qlt_irrefl _ H).
Qed.

(** C4.  Valid counts past the volume gate always get a verdict: no
    division is executed on a zero divisor and no square root on a negative
    number.  The standard error is zero exactly when the pooled rate is 0
    or 1, and then the z-score is 0, the p-value 1 and the verdict a tie;
    otherwise the z-score is the quotient by a non-zero standard error.
    The p-value is a probability either way. *)
Theorem degenerate_statistics_guarded
    (self : t) (creative_a_id creative_b_id metric : string)
    (creative_a creative_b : Creative)
    (a_conversions a_total b_conversions b_total : Z) :
  query_first (db self) creative_a_id (user_id self) = Some creative_a ->
  query_first (db self) creative_b_id (user_id self) = Some creative_b ->
  metric_values metric creative_a = Some (a_conversions, a_total) ->
  metric_values metric creative_b = Some (b_conversions, b_total) ->
  (100 <= a_total)%Z -> (100 <= b_total)%Z ->
  (0 <= a_conversions <= a_total)%Z -> (0 <= b_conversions <= b_total)%Z ->
  exists s v,
    test_statistics a_conversions a_total b_conversions b_total = Ok s /\
    analyze_test self creative_a_id creative_b_id metric = Ok (Analyzed v) /\
    (se s == 0 <-> pooled_rate s == 0 \/ pooled_rate s == 1) /\
    (se s == 0 ->
     z_score s = 0 /\ p_value s = 1 /\
     v_z_score v == 0 /\ v_p_value v == 1 /\
     v_statistical_significance v = false /\ v_winner v = "tie") /\
    (~ se s == 0 -> z_score s = (rate_b s - rate_a s) / se s) /\
    0 <= p_value s <= 1.
Proof.
  intros Ha Hb Hma Hmb Hta Htb Hca Hcb.
  destruct (test_statistics_returns a_conversions a_total b_conversions b_total
              Hca Hcb ltac:(lia) ltac:(lia)) as (s & Hs).
  destruct (analyze_test_analyzed _ _ _ _ _ _ _ _ _ _ _ Ha Hb Hma Hmb Hta Htb Hs)
    as (v & Hv & Hw & Hsg & Hp & Hz & _).
  exists s, v. split; [exact Hs|]. split; [exact Hv|].
  pose proof (test_statistics_inv _ _ _ _ _ Hs)
    as (_ & _ & Hpool & Hse & Hzp & Hsig & Hwin).
  assert (Hpr : 0 <= pooled_rate s <= 1)
    by (rewrite Hpool; apply rate_bounds; lia).
  assert (Hia : 0 < 1 / inject_Z a_total)
    by (apply Qlt_shift_div_l; [apply inject_Z_pos; lia|reflexivity]).
  assert (Hib : 0 < 1 / inject_Z b_total)
    by (apply Qlt_shift_div_l; [apply inject_Z_pos; lia|reflexivity]).
  split.
  { rewrite Hse. rewrite sqrt_zero_iff by (apply Qmult_le_0_compat; [nra|lra]).
    split.
    - intros E. apply Qmult_integral in E as [E | E]; [|lra].
      apply Qmult_integral in E as [E | E]; [left; exact E|right; lra].
    - intros [E | E]; rewrite E; ring. }
  split.
  { intros E. destruct Hzp as [(_ & Hz0 & Hp1) | (Hne & _)]; [|contradiction].
    rewrite Hz, Hp, Hsg, Hw, Hwin, Hsig, Hz0, Hp1. repeat split. }
  split.
  { intros Hne. destruct Hzp as [(E & _) | (_ & Hz0 & _)]; [contradiction|].
    exact Hz0. }
  destruct Hzp as [(_ & _ & ->) | (_ & _ & ->)]; [split; discriminate|].
  apply two_tailed_range.
Qed.

Lemma round_half_even_near (y : Q) (n : Z) :
  inject_Z n - (1 # 2) < y -> y < inject_Z n + (1 # 2) ->
  round_half_even y = n.
Proof.
  intros Hlo Hhi. unfold round_half_even.
  pose proof (Qfloor_le y) as Hf1. pose proof (Qlt_floor y) as Hf2.
  set (f := Qfloor y) in *.
  rewrite inject_Z_plus in Hf2. change (inject_Z 1) with 1 in Hf2.
  assert (Hfn : (f <= n)%Z).
  { apply Z.lt_succ_r. rewrite Zlt_Qlt. unfold Z.succ.
    rewrite inject_Z_plus. change (inject_Z 1) with 1. lra. }
  assert (Hnf : (n - 1 <= f)%Z).
  { apply Z.lt_succ_r. rewrite Zlt_Qlt. unfold Z.succ.
    rewrite inject_Z_plus. change (inject_Z 1) with 1.
    replace (n - 1)%Z with (n + -1)%Z by lia.
    rewrite inject_Z_plus. change (inject_Z (-1)) with (-1). lra. }
  destruct (Z.eq_dec f n) as [-> | Hne].
  - assert (Hc : Qcompare (y - inject_Z n) (1 # 2) = Lt)
      by (apply (proj1 (Qlt_alt _ _)); lra).
    now rewrite Hc.
  - assert (Hf : f = (n + -1)%Z) by lia.
    assert (Hc : Qcompare (y - inject_Z f) (1 # 2) = Gt).
    { apply (proj1 (Qgt_alt _ _)). rewrite Hf, inject_Z_plus.
      change (inject_Z (-1)) with (-1). lra. }
    rewrite Hc. lia.
Qed.

(** The example of the specification, for any accurate numeric library. *)
Lemma example_statistics (s : Statistics) :
  test_statistics 10 100 20 100 = Ok s ->
  rate_a s == 10 # 100 /\ rate_b s == 20 # 100 /\ pooled_rate s == 15 # 100 /\
  (50497 # 1000000 <= se s <= 50498 # 1000000) /\
  (19802 # 10000 <= z_score s <= 19804 # 10000) /\
  (4758 # 100000 <= p_value s <= 4772 # 100000) /\
  is_significant s = true /\ winner s = "B".
Proof.
  intros Hs.
  pose proof (verdict_rule _ _ _ _ _ Hs) as (Hsig & Hwin & _).
  apply test_statistics_inv in Hs as (Hra & Hrb & Hpool & Hse & Hzp & _).
  cbn in Hra, Hrb, Hpool.
  assert (Era : rate_a s == 10 # 100) by (rewrite Hra; reflexivity).
  assert (Erb : rate_b s == 20 # 100) by (rewrite Hrb; reflexivity).
  assert (Ep : pooled_rate s == 15 # 100) by (rewrite Hpool; reflexivity).
  assert (Ese : se s == sqrt (51 # 20000)).
  { rewrite Hse. apply sqrt_proper. rewrite Ep. reflexivity. }
  assert (Hse_bounds : 50497 # 1000000 <= se s <= 50498 # 1000000).
  { rewrite Ese.
    pose proof (sqrt_nonneg (51 # 20000) ltac:(discriminate)) as H0.
    pose proof (sqrt_accurate (51 # 20000) ltac:(discriminate)) as Hacc.
    apply Qabs_Qle_condition in Hacc as [Hlo Hhi]. unfold sqrt_tol in Hlo, Hhi.
    set (r := sqrt (51 # 20000)) in *.
    split.
    - destruct (Qlt_le_dec r (50497 # 1000000)) as [Hlt | Hle]; [|exact Hle].
      exfalso. assert (r * r <= (50497 # 1000000) * (50497 # 1000000)) by nra.
      lra.
    - destruct (Qlt_le_dec (50498 # 1000000) r) as [Hlt | Hle]; [|exact Hle].
      exfalso. assert ((50498 # 1000000) * (50498 # 1000000) <= r * r) by nra.
      lra. }
  destruct Hzp as [(E & _) | (_ & Hz & Hp)]; [lra|].
  assert (Hz_bounds : 19802 # 10000 <= z_score s <= 19804 # 10000).
  { rewrite Hz, Era, Erb. split.
    - apply Qle_shift_div_l; lra.
    - apply Qle_shift_div_r; lra. }
  assert (Hp_bounds : 4758 # 100000 <= p_value s <= 4772 # 100000).
  { rewrite Hp.
    assert (Ec : norm_cdf (Qabs (z_score s)) == norm_cdf (z_score s))
      by (apply cdf_proper, Qabs_pos; lra).
    rewrite Ec.
    pose proof (cdf_mono (198 # 100) (z_score s) ltac:(lra)).
    pose proof (cdf_mono (z_score s) (1981 # 1000) ltac:(lra)).
    pose proof cdf_198. pose proof cdf_1981. split; lra. }
  assert (Hsg : is_significant s = true) by (apply Hsig; lra).
  do 6 (split; [assumption|]).
  split; [exact Hsg|].
  destruct (Hwin Hsg) as [[Hw _] | [_ Hlt]]; [exact Hw|lra].
Qed.

(** C2.  Significance is the strict comparison of the p-value with 0.05;
    a significant verdict names the variant with the strictly larger rate,
    any other verdict is a tie.  The rates are the quotients of the counts
    the call is given, the p-value is 1 for a zero standard error and the
    two-tailed normal probability of the z-score otherwise, and the verdict
    of [analyze_test] carries the significance and the winner computed from
    the counts of its two rows.  For 10 conversions out of 100 clicks
    against 20 out of 100 on the metric [cvr], every numeric library that
    meets [NumericsSpec] gives the rates 0.10 and 0.20, the pooled rate
    0.15, a standard error of 0.0505, a z-score of 1.98 and a p-value of
    0.048 to the digits shown, a significant verdict and the winner B. *)
Theorem significance_rule_and_example :
  (forall (a_conversions a_total b_conversions b_total : Z),
     (0 <= a_conversions <= a_total)%Z -> (0 <= b_conversions <= b_total)%Z ->
     (0 < a_total)%Z -> (0 < b_total)%Z ->
     exists s, test_statistics a_conversions a_total b_conversions b_total = Ok s) /\
  (forall (a_conversions a_total b_conversions b_total : Z) (s : Statistics),
     test_statistics a_conversions a_total b_conversions b_total = Ok s ->
     let ra := if (a_total >? 0)%Z
               then inject_Z a_conversions / inject_Z a_total else 0 in
     let rb := if (b_total >? 0)%Z
               then inject_Z b_conversions / inject_Z b_total else 0 in
     let pooled := inject_Z (a_conversions + b_conversions)
                   / inject_Z (a_total + b_total) in
     rate_a s = ra /\ rate_b s = rb /\
     se s = sqrt (pooled * (1 - pooled)
                  * (1 / inject_Z a_total + 1 / inject_Z b_total)) /\
     p_value s = (if Qeq_bool (se s) 0 then 1
                  else 2 * (1 - norm_cdf (Qabs ((rb - ra) / se s)))) /\
     (is_significant s = true <-> p_value s < 5 # 100) /\
     (p_value s == 5 # 100 -> is_significant s = false) /\
     (is_significant s = true ->
      winner s = "B" /\ ra < rb \/ winner s = "A" /\ rb < ra) /\
     (is_significant s = false -> winner s = "tie")) /\
  (forall (self : t) (creative_a_id creative_b_id metric : string) (v : Verdict),
     analyze_test self creative_a_id creative_b_id metric = Ok (Analyzed v) ->
     exists creative_a creative_b a_conversions a_total b_conversions b_total s,
       query_first (db self) creative_a_id (user_id self) = Some creative_a /\
       query_first (db self) creative_b_id (user_id self) = Some creative_b /\
       metric_values metric creative_a = Some (a_conversions, a_total) /\
       metric_values metric creative_b = Some (b_conversions, b_total) /\
       test_statistics a_conversions a_total b_conversions b_total = Ok s /\
       v_statistical_significance v = is_significant s /\
       v_winner v = winner s) /\
  (forall (self : t) (creative_a_id creative_b_id : string)
          (creative_a creative_b : Creative),
     query_first (db self) creative_a_id (user_id self) = Some creative_a ->
     query_first (db self) creative_b_id (user_id self) = Some creative_b ->
     cr_clicks creative_a = 100%Z -> cr_conversions creative_a = 10%Z ->
     cr_clicks creative_b = 100%Z -> cr_conversions creative_b = 20%Z ->
     exists s v,
       test_statistics 10 100 20 100 = Ok s /\
       analyze_test self creative_a_id creative_b_id "cvr" = Ok (Analyzed v) /\
       rate_a s == 10 # 100 /\ rate_b s == 20 # 100 /\
       pooled_rate s == 15 # 100 /\
       (50497 # 1000000 <= se s <= 50498 # 1000000) /\
       (19802 # 10000 <= z_score s <= 19804 # 10000) /\
       (4758 # 100000 <= p_value s <= 4772 # 100000) /\
       is_significant s = true /\ winner s = "B" /\
       v_statistical_significance v = true /\ v_winner v = "B" /\
       e_rate (v_creative_a v) == 10 # 100 /\
       e_rate (v_creative_b v) == 20 # 100 /\
       v_z_score v == 198 # 100).
Proof.
  split; [exact test_statistics_returns|].
  split; [|split].
  - intros a_conversions a_total b_conversions b_total s Hs ra rb pooled.
    pose proof (verdict_rule _ _ _ _ _ Hs) as (Hsig & Hwin & Htie).
    pose proof (test_statistics_inv _ _ _ _ _ Hs)
      as (Hra & Hrb & Hpool & Hse & Hzp & _).
    fold ra in Hra. fold rb in Hrb. fold pooled in Hpool.
    rewrite Hpool in Hse. rewrite Hra, Hrb in Hwin.
    split; [exact Hra|]. split; [exact Hrb|]. split; [exact Hse|].
    split.
    { destruct Hzp as [(E & _ & Hp) | (Hne & Hz & Hp)].
      - apply Qeq_bool_iff in E. now rewrite E.
      - destruct (Qeq_bool (se s) 0) eqn:E;
          [apply Qeq_bool_iff in E; contradiction|].
        rewrite Hp, Hz, Hra, Hrb. reflexivity. }
    split; [exact Hsig|].
    split; [|split; [exact Hwin|exact Htie]].
    intros E. apply not_true_is_false. rewrite Hsig, E. discriminate.
  - intros self creative_a_id creative_b_id metric v Hv.
    apply analyze_test_inv in Hv
      as (creative_a & creative_b & a_conversions & a_total & b_conversions
          & b_total & s & Ha & Hb & Hma & Hmb & _ & _ & Hs & Hw & Hsg).
    exists creative_a, creative_b, a_conversions, a_total, b_conversions,
      b_total, s.
    repeat (split; [assumption|]). exact Hw.
  - intros self creative_a_id creative_b_id creative_a creative_b
      Ha Hb Hca Hna Hcb Hnb.
    destruct (test_statistics_returns 10 100 20 100
                ltac:(lia) ltac:(lia) ltac:(lia) ltac:(lia)) as (s & Hs).
    assert (Hma : metric_values "cvr" creative_a = Some (10%Z, 100%Z))
      by (unfold metric_values; cbn; now rewrite Hca, Hna).
    assert (Hmb : metric_values "cvr" creative_b = Some (20%Z, 100%Z))
      by (unfold metric_values; cbn; now rewrite Hcb, Hnb).
    destruct (analyze_test_analyzed _ _ _ _ _ _ _ _ _ _ _ Ha Hb Hma Hmb
                ltac:(lia) ltac:(lia) Hs)
      as (v & Hv & Hw & Hsg & _ & Hz & Hea & Heb).
    pose proof (example_statistics s Hs)
      as (Era & Erb & Ep & Hse & Hzb & Hpb & Hsig & Hwin).
    exists s, v. do 10 (split; [assumption|]).
    split; [congruence|]. split; [congruence|].
    apply test_statistics_inv in Hs as (Hra & Hrb & _).
    split; [rewrite Hea, Hra; reflexivity|].
    split; [rewrite Heb, Hrb; reflexivity|].
    rewrite Hz. unfold py_round.
    rewrite (round_half_even_near _ 1980); [reflexivity| |];
      change (inject_Z (10 ^ 3)) with 1000; change (inject_Z 1980) with 1980;
      lra.
Qed.

End Analyzer.

Lemma significance_rule_and_example_witness :
  NumericsSpec Approx.numerics /\
  exists s v,
    @ABTest.test_statistics Approx.numerics 10 100 20 100 = Ok s /\
    @ABTest.analyze_test Approx.numerics (example_test 100 10 100 20) "a" "b" "cvr"
    = Ok (ABTest.Analyzed v) /\
    ABTest.rate_a s = inject_Z 10 / inject_Z 100 /\
    ABTest.rate_b s = inject_Z 20 / inject_Z 100 /\
    (4758 # 100000 <= ABTest.p_value s <= 4772 # 100000) /\
    ABTest.is_significant s = true /\
    ABTest.winner s = "B" /\
    ABTest.v_statistical_significance v = true /\ ABTest.v_winner v = "B".
Proof.
  split; [exact approx_numerics_spec|].
  pose proof (@significance_rule_and_example Approx.numerics
                approx_numerics_spec) as (_ & Hrule & _ & Hex).
  destruct (Hex (example_test 100 10 100 20) "a" "b"
              (example_row "a" 100 10) (example_row "b" 100 20)
              eq_refl eq_refl eq_refl eq_refl eq_refl eq_refl)
    as (s & v & Hs & Hv & _ & _ & _ & _ & _ & Hp & _ & _ & Hsig & Hw & _).
  destruct (Hrule 10%Z 100%Z 20%Z 100%Z s Hs)
    as (Hra & Hrb & _ & _ & Hiff & _ & Hwin & _).
  assert (Hsg : ABTest.is_significant s = true)
    by (apply Hiff; eapply Qle_lt_trans; [apply Hp|reflexivity]).
  exists s, v. split; [exact Hs|]. split; [exact Hv|].
  split; [exact Hra|]. split; [exact Hrb|]. split; [exact Hp|].
  split; [exact Hsg|]. split; [|split; assumption].
  destruct (Hwin Hsg) as [[HB _] | [_ Hlt]]; [exact HB|].
  exfalso. revert Hlt. apply Qle_not_lt. discriminate.
Defined.

Lemma degenerate_statistics_guarded_witness :
  (100 <= 100)%Z /\ (0 <= 0 <= 100)%Z /\
  exists s v,
    @ABTest.test_statistics Approx.numerics 0 100 0 100 = Ok s /\
    @ABTest.analyze_test Approx.numerics (example_test 100 0 100 0) "a" "b" "cvr"
    = Ok (ABTest.Analyzed v) /\
    ABTest.se s == 0 /\ ABTest.z_score s = 0 /\ ABTest.p_value s = 1 /\
    ABTest.v_winner v = "tie".
Proof.
  assert (H100 : (100 <= 100)%Z) by lia.
  assert (H0 : (0 <= 0 <= 100)%Z) by lia.
  split; [exact H100|]. split; [exact H0|].
  destruct (@degenerate_statistics_guarded Approx.numerics approx_numerics_spec
              (example_test 100 0 100 0) "a" "b" "cvr"
              (example_row "a" 100 0) (example_row "b" 100 0) 0 100 0 100
              eq_refl eq_refl eq_refl eq_refl H100 H100 H0 H0)
    as (s & v & Hs & Hv & Hiff & Hdeg & _).
  assert (Hse : ABTest.se s == 0).
  { apply Hiff. left.
    apply (@test_statistics_inv Approx.numerics) in Hs as (_ & _ & -> & _).
    reflexivity. }
  destruct (Hdeg Hse) as (Hz & Hp & _ & _ & _ & Hw).
  exists s, v. repeat split; assumption.
Defined.

Lemma significant_winner_has_larger_rate_witness :
  exists v,
    @ABTest.analyze_test Approx.numerics (example_test 100 10 100 20) "a" "b" "cvr"
    = Ok (ABTest.Analyzed v) /\
    ABTest.v_statistical_significance v = true /\
    ABTest.v_winner v = "B" /\
    ~ inject_Z 10 / inject_Z 100 == inject_Z 20 / inject_Z 100 /\
    inject_Z 10 / inject_Z 100 < inject_Z 20 / inject_Z 100.
Proof.
  eassert (Hv : @ABTest.analyze_test Approx.numerics
                  (example_test 100 10 100 20) "a" "b" "cvr"
                = Ok (ABTest.Analyzed _)) by (vm_compute; reflexivity).
  eexists. split; [exact Hv|].
  split; [reflexivity|]. split; [reflexivity|].
  destruct (@significant_winner_has_larger_rate Approx.numerics
              approx_numerics_spec _ _ _ _ _ Hv eq_refl)
    as (ca & cb & na & da & nb & db & Ha & Hb & Hma & Hmb & Hne & Hrule).
  cbv in Ha. injection Ha as <-.
  cbv in Hb. injection Hb as <-.
  cbv in Hma. injection Hma as <- <-.
  cbv in Hmb. injection Hmb as <- <-.
  split; [exact Hne|].
  destruct Hrule as [[_ H] | [HA _]]; [exact H|discriminate HA].
Defined.

(** ** The bandit allocator *)

Section Bandit.

Import ABTest.

Lemma Qplus_swap (a b c : Q) : a + (b + c) = b + (a + c).
Proof.
  destruct a as [an ad], b as [bn bd], c as [cn cd].
  unfold Qplus. cbn [Qnum Qden]. f_equal; [|lia].
  rewrite !Pos2Z.inj_mul. ring.
Qed.

Lemma total_weight_insert (allocation : gmap string Q) (k : string) (w : Q) :
  allocation !! k = None ->
  total_weight (<[k := w]> allocation) = w + total_weight allocation.
Proof.
  intros Hk. unfold total_weight.
  apply (map_fold_insert_L (fun _ w acc => w + acc)); [|exact Hk].
  intros. apply Qplus_swap.
Qed.

Lemma insert_desc_perm (r : Arm) (l : list Arm) : insert_desc r l ≡ₚ r :: l.
Proof.
  induction l as [|x l IH]; cbn; [reflexivity|].
  destruct (Qlt_bool (cvr r) (cvr x)); [|reflexivity].
  rewrite IH. apply perm_swap.
Qed.

Lemma sort_desc_perm (l : list Arm) : sort_desc l ≡ₚ l.
Proof.
  induction l as [|x l IH]; cbn; [reflexivity|].
  rewrite insert_desc_perm. now rewrite IH.
Qed.

(** The ranking is sorted by falling [cvr]. *)
Lemma insert_desc_sorted (r : Arm) (l : list Arm) :
  Sorted (fun x y => cvr y <= cvr x) l ->
  Sorted (fun x y => cvr y <= cvr x) (insert_desc r l).
Proof.
  induction 1 as [|x l Hl IH Hx]; cbn.
  - repeat constructor.
  - destruct (Qlt_bool (cvr r) (cvr x)) eqn:E.
    + constructor; [exact IH|].
      apply Qlt_bool_iff in E.
      destruct l as [|y l]; cbn.
      * constructor. lra.
      * destruct (Qlt_bool (cvr r) (cvr y)); constructor;
          [now inversion Hx|lra].
    + apply Qlt_bool_false_iff in E.
      constructor; [constructor; assumption|constructor; exact E].
Qed.

Lemma sort_desc_sorted (l : list Arm) :
  Sorted (fun x y => cvr y <= cvr x) (sort_desc l).
Proof.
  induction l as [|x l IH]; cbn; [constructor|].
  now apply insert_desc_sorted.
Qed.

Lemma fill_cons (chosen : Arm) (hi lo : Q) (acc : gmap string Q)
    (x : Arm) (l : list Arm) :
  fill chosen hi lo acc (x :: l)
  = fill chosen hi lo
      (if String.eqb (creative_id x) (creative_id chosen)
       then <[creative_id x := hi]> acc else <[creative_id x := lo]> acc) l.
Proof. reflexivity. Qed.

Lemma fill_lookup_other (chosen : Arm) (hi lo : Q) (l : list Arm) :
  forall (acc : gmap string Q) (k : string),
    k ∉ map creative_id l -> fill chosen hi lo acc l !! k = acc !! k.
Proof.
  induction l as [|x l IH]; intros acc k Hk; [reflexivity|].
  cbn in Hk. apply not_elem_of_cons in Hk as [Hkx Hkl].
  rewrite fill_cons, IH by exact Hkl.
  destruct (String.eqb _ _); now rewrite lookup_insert_ne.
Qed.

Lemma fill_lookup (chosen : Arm) (hi lo : Q) (l : list Arm) :
  forall (acc : gmap string Q) (r : Arm),
    NoDup (map creative_id l) -> r ∈ l ->
    fill chosen hi lo acc l !! creative_id r
    = Some (if String.eqb (creative_id r) (creative_id chosen) then hi else lo).
Proof.
  induction l as [|x l IH]; intros acc r Hnd Hr; [now apply elem_of_nil in Hr|].
  cbn in Hnd. apply NoDup_cons in Hnd as [Hx Hnd].
  apply elem_of_cons in Hr as [-> | Hr].
  - rewrite fill_cons, fill_lookup_other by exact Hx.
    destruct (String.eqb _ _); now rewrite lookup_insert_eq.
  - rewrite fill_cons. now apply IH.
Qed.

Lemma fill_keys (chosen : Arm) (hi lo : Q) (l : list Arm) :
  forall (acc : gmap string Q) (k : string),
    is_Some (fill chosen hi lo acc l !! k) ->
    k ∈ map creative_id l \/ is_Some (acc !! k).
Proof.
  induction l as [|x l IH]; intros acc k Hk; [now right|].
  rewrite fill_cons in Hk.
  apply IH in Hk as [Hk | Hk]; [left; cbn; now apply elem_of_cons; right|].
  destruct (decide (k = creative_id x)) as [-> | Hne].
  - left. cbn. apply elem_of_cons. now left.
  - right. destruct (String.eqb _ _); now rewrite lookup_insert_ne in Hk.
Qed.

Lemma fill_total (chosen : Arm) (epsilon lo : Q) (l : list Arm) :
  forall acc : gmap string Q,
    NoDup (map creative_id l) ->
    (forall r, r ∈ l -> acc !! creative_id r = None) ->
    total_weight (fill chosen (1 - epsilon + lo) lo acc l)
    == total_weight acc + inject_Z (Z.of_nat (length l)) * lo
       + (if decide (creative_id chosen ∈ map creative_id l)
          then 1 - epsilon else 0).
Proof.
  induction l as [|x l IH]; intros acc Hnd Hacc.
  - cbn. rewrite decide_False by apply not_elem_of_nil. ring.
  - cbn in Hnd. apply NoDup_cons in Hnd as [Hx Hnd].
    rewrite fill_cons.
    set (acc' := if String.eqb _ _ then _ else _).
    assert (Hfresh : acc !! creative_id x = None)
      by (apply Hacc, elem_of_cons; now left).
    rewrite (IH acc' Hnd).
    2:{ intros r Hr. assert (Hne : creative_id r <> creative_id x).
        { intros E. apply Hx. rewrite <- E.
          now apply list_elem_of_In, in_map, list_elem_of_In. }
        unfold acc'. destruct (String.eqb _ _);
          (rewrite lookup_insert_ne by congruence);
          apply Hacc, elem_of_cons; now right. }
    cbn [length]. rewrite Nat2Z.inj_succ, <- Z.add_1_r, inject_Z_plus.
    change (inject_Z 1) with 1. unfold acc'.
    destruct (String.eqb_spec (creative_id x) (creative_id chosen)) as [E | Hne].
    + rewrite total_weight_insert by exact Hfresh.
      rewrite decide_False by (rewrite <- E; exact Hx).
      rewrite decide_True by (cbn; rewrite E; apply elem_of_cons; now left).
      ring.
    + rewrite total_weight_insert by exact Hfresh.
      destruct (decide (creative_id chosen ∈ map creative_id l)) as [Hin | Hnin].
      * rewrite decide_True by (cbn; apply elem_of_cons; now right). ring.
      * rewrite decide_False; [ring|].
        cbn. intros Hin. apply elem_of_cons in Hin as [E | Hin]; congruence.
Qed.

Lemma allocate_fill (results : list Arm) (chosen : Arm) (epsilon : Q) :
  allocate results chosen epsilon
  = fill chosen
      (1 - epsilon + epsilon / inject_Z (Z.of_nat (length results)))
      (epsilon / inject_Z (Z.of_nat (length results))) ∅ results.
Proof. reflexivity. Qed.

(** The dictionary built for a ranking with distinct ids and a chosen
    arm of the ranking. *)
Lemma allocate_spec (results : list Arm) (chosen : Arm) (epsilon : Q) :
  NoDup (map creative_id results) -> In chosen results ->
  let n := inject_Z (Z.of_nat (length results)) in
  allocate results chosen epsilon !! creative_id chosen
  = Some (1 - epsilon + epsilon / n) /\
  (forall r, In r results -> creative_id r <> creative_id chosen ->
             allocate results chosen epsilon !! creative_id r
             = Some (epsilon / n)) /\
  (forall k, is_Some (allocate results chosen epsilon !! k) ->
             In k (map creative_id results)) /\
  total_weight (allocate results chosen epsilon) == 1.
Proof.
  intros Hnd Hin n. rewrite allocate_fill. fold n.
  split; [|split; [|split]].
  - rewrite fill_lookup by (try apply list_elem_of_In; assumption).
    now rewrite String.eqb_refl.
  - intros r Hr Hne.
    rewrite fill_lookup by (try apply list_elem_of_In; assumption).
    destruct (String.eqb_spec (creative_id r) (creative_id chosen));
      [contradiction|reflexivity].
  - intros k Hk. apply fill_keys in Hk as [Hk | Hk].
    + now apply list_elem_of_In.
    + rewrite lookup_empty in Hk. now destruct Hk.
  - rewrite fill_total; [|exact Hnd|intros; apply lookup_empty].
    rewrite decide_True by now apply list_elem_of_In, in_map.
    unfold total_weight. rewrite map_fold_empty. fold n.
    assert (Hn : 0 < n).
    { unfold n. destruct results; [destruct Hin|].
      unfold Qlt. cbn. lia. }
    field. lra.
Qed.

Lemma query_all_NoDup (db : Session) (cids : list string) (uid : string) :
  NoDup (map cr_id db) -> NoDup (map cr_id (query_all db cids uid)).
Proof.
  unfold query_all. set (keep := fun c => _).
  induction db as [|c db IH]; cbn; intros Hnd; [constructor|].
  apply NoDup_cons in Hnd as [Hc Hnd].
  destruct (keep c); [|now apply IH].
  cbn. apply NoDup_cons. split; [|now apply IH].
  intros Hin. apply Hc. apply list_elem_of_In in Hin.
  apply list_elem_of_In. apply in_map_iff in Hin as (c' & E & Hin).
  apply in_map_iff. exists c'. split; [exact E|].
  now apply filter_In in Hin.
Qed.

Lemma ranking_ids (creatives : list Creative) :
  map creative_id (sort_desc (map arm_of creatives)) ≡ₚ map cr_id creatives.
Proof.
  rewrite sort_desc_perm, map_map. reflexivity.
Qed.

Lemma nth_or_default_In {A : Type} (k : nat) (l : list A) (d : A) :
  In d l -> In (nth k l d) l.
Proof.
  intros Hd. destruct (Nat.lt_ge_cases k (length l)) as [Hlt | Hge].
  - now apply nth_In.
  - now rewrite nth_overflow.
Qed.

Context {G : Type} {RG : RandomGen G}.

(** The arm [multi_armed_bandit] chooses is one of the ranking. *)
Lemma bandit_returns (self : t) (creative_ids : list string) (epsilon : Q) (g : G) :
  query_all (db self) creative_ids (user_id self) <> [] ->
  let results :=
    sort_desc (map arm_of (query_all (db self) creative_ids (user_id self))) in
  exists chosen reason g',
    In chosen results /\
    multi_armed_bandit self creative_ids epsilon g
    = (Allocated {| next_creative := creative_id chosen;
                    allocation := allocate results chosen epsilon;
                    reason := reason; epsilon_used := epsilon;
                    leaderboard := results |}, g').
Proof.
  intros Hne results. unfold multi_armed_bandit. fold results.
  destruct (query_all (db self) creative_ids (user_id self))
    as [|first_row rows] eqn:Hq; [contradiction|].
  set (best := hd (arm_of first_row) results).
  assert (Hbest : In best results).
  { unfold best. destruct results as [|r rs] eqn:Hr; [|now left].
    pose proof (sort_desc_perm (map arm_of (first_row :: rows))) as Hp.
    fold results in Hp. rewrite Hr in Hp.
    now apply Permutation_nil in Hp. }
  destruct (random_random g) as [u g1].
  destruct (Qlt_bool u epsilon).
  - destruct (random_below (length results) g1) as [k g2].
    exists (nth k results best), "explore", g2.
    split; [now apply nth_or_default_In|reflexivity].
  - exists best, "exploit_winner", g1. split; [exact Hbest|reflexivity].
Qed.

(** C1.  Over a table keyed by [id], whenever some requested row exists,
    [multi_armed_bandit] returns a plan whose chosen variant is one of the
    rows and has weight [(1 - epsilon) + epsilon / n]; every other row has
    weight [epsilon / n]; the dictionary has no other key; the weights add
    up to 1; and a single row is the chosen one, with weight 1.  This holds
    for every epsilon and every state of the generator. *)
Theorem allocation_weights
    (self : t) (creative_ids : list string) (epsilon : Q) (g : G) :
  NoDup (map cr_id (db self)) ->
  query_all (db self) creative_ids (user_id self) <> [] ->
  let creatives := query_all (db self) creative_ids (user_id self) in
  let n := inject_Z (Z.of_nat (length creatives)) in
  exists plan g',
    multi_armed_bandit self creative_ids epsilon g = (Allocated plan, g') /\
    In (next_creative plan) (map cr_id creatives) /\
    allocation plan !! next_creative plan = Some (1 - epsilon + epsilon / n) /\
    (forall c, In c creatives -> cr_id c <> next_creative plan ->
               allocation plan !! cr_id c = Some (epsilon / n)) /\
    (forall k, is_Some (allocation plan !! k) -> In k (map cr_id creatives)) /\
    total_weight (allocation plan) == 1 /\
    (forall c, creatives = [c] ->
               next_creative plan = cr_id c /\ 1 - epsilon + epsilon / n == 1).
Proof.
  intros Hkey Hne creatives n.
  destruct (bandit_returns self creative_ids epsilon g Hne)
    as (chosen & reason & g' & Hin & Hrun).
  fold creatives in Hin, Hrun.
  set (results := sort_desc (map arm_of creatives)) in *.
  assert (Hids : map creative_id results ≡ₚ map cr_id creatives)
    by apply ranking_ids.
  assert (Hnd : NoDup (map creative_id results)).
  { rewrite Hids. now apply query_all_NoDup. }
  assert (Hlen : length results = length creatives).
  { rewrite <- (length_map creative_id results), Hids. apply length_map. }
  destruct (allocate_spec results chosen epsilon Hnd Hin)
    as (Hchosen & Hother & Hkeys & Htotal).
  rewrite Hlen in Hchosen, Hother. fold n in Hchosen, Hother.
  assert (Hnext : In (creative_id chosen) (map cr_id creatives)).
  { apply list_elem_of_In. rewrite <- Hids. now apply list_elem_of_In, in_map. }
  eexists _, g'. split; [exact Hrun|]. cbn [next_creative allocation].
  split; [exact Hnext|]. split; [exact Hchosen|].
  split; [|split; [|split; [exact Htotal|]]].
  - intros c Hc Hcne.
    assert (Hr : In (arm_of c) results).
    { apply list_elem_of_In. unfold results. rewrite sort_desc_perm.
      now apply list_elem_of_In, in_map. }
    exact (Hother (arm_of c) Hr Hcne).
  - intros k Hk. apply Hkeys in Hk.
    apply list_elem_of_In. rewrite <- Hids. now apply list_elem_of_In.
  - intros c Hc. unfold n. rewrite Hc in *. cbn in Hnext.
    destruct Hnext as [E | []]. split; [now symmetry|].
    cbn. field.
Qed.

(** C7, as the code has it.  The method has no parameter for a random
    source: a call binds the id list and epsilon, and a call that passes a
    generator as well, by position or by the name [random_source], is
    refused with [TypeError].  The method draws from the generator shared
    by the process and leaves it advanced, by one draw when it exploits and
    by two when it explores.  The plan depends on the generator only
    through those draws: two states that yield the same first draw and,
    when it is below epsilon, the same index, yield the same plan; so do,
    in particular, two equal states. *)
Theorem plan_determined_by_draws
    (self : t) (creative_ids : list string) (epsilon : Q) (g1 g2 : G) :
  let n := length (query_all (db self) creative_ids (user_id self)) in
  fst (random_random g1) == fst (random_random g2) ->
  (fst (random_random g1) < epsilon ->
   fst (random_below n (snd (random_random g1)))
   = fst (random_below n (snd (random_random g2)))) ->
  bind_arguments (G := G) [IdList creative_ids; Float epsilon] []
  = Ok (IdList creative_ids, Float epsilon) /\
  (forall source : G,
     bind_arguments [IdList creative_ids; Float epsilon; RandomSource source] []
     = Raise TypeError /\
     bind_arguments [IdList creative_ids; Float epsilon]
       [("random_source", RandomSource source)]
     = Raise TypeError) /\
  fst (multi_armed_bandit self creative_ids epsilon g1)
  = fst (multi_armed_bandit self creative_ids epsilon g2) /\
  snd (multi_armed_bandit self creative_ids epsilon g1)
  = match query_all (db self) creative_ids (user_id self) with
    | [] => g1
    | _ :: _ =>
        if Qlt_bool (fst (random_random g1)) epsilon
        then snd (random_below n (snd (random_random g1)))
        else snd (random_random g1)
    end.
Proof.
  intros n Hu Hk.
  split; [reflexivity|]. split; [intros source; split; reflexivity|].
  unfold multi_armed_bandit.
  destruct (query_all (db self) creative_ids (user_id self))
    as [|first_row rows] eqn:Hq; [split; reflexivity|].
  set (results := sort_desc (map arm_of (first_row :: rows))).
  assert (Hlen : length results = n).
  { unfold results, n.
    rewrite <- (length_map creative_id), ranking_ids. apply length_map. }
  rewrite Hlen.
  destruct (random_random g1) as [u1 h1], (random_random g2) as [u2 h2].
  cbn [fst snd] in *.
  assert (Eb : Qlt_bool u1 epsilon = Qlt_bool u2 epsilon).
  { unfold Qlt_bool. now rewrite Hu. }
  rewrite <- Eb. destruct (Qlt_bool u1 epsilon) eqn:E.
  - apply Qlt_bool_iff in E. specialize (Hk E).
    destruct (random_below n h1) as [k1 h1'], (random_below n h2) as [k2 h2'].
    cbn [fst snd] in *. subst k2. split; reflexivity.
  - split; reflexivity.
Qed.

End Bandit.

Lemma allocation_weights_witness :
  NoDup (map cr_id (ABTest.db example_arms)) /\
  query_all (ABTest.db example_arms) ["a"; "b"] "user" <> [] /\
  exists plan g',
    ABTest.multi_armed_bandit example_arms ["a"; "b"] (1 # 10) [1 # 2]
    = (ABTest.Allocated plan, g') /\
    ABTest.allocation plan !! ABTest.next_creative plan
    = Some (1 - (1 # 10) + (1 # 10) / inject_Z (Z.of_nat 2)) /\
    total_weight (ABTest.allocation plan) == 1.
Proof.
  assert (Hkey : NoDup (map cr_id (ABTest.db example_arms))).
  { cbn. apply NoDup_cons. split.
    - intros Hin. apply list_elem_of_singleton in Hin. discriminate Hin.
    - apply NoDup_singleton. }
  assert (Hne : query_all (ABTest.db example_arms) ["a"; "b"] "user" <> [])
    by discriminate.
  split; [exact Hkey|]. split; [exact Hne|].
  destruct (allocation_weights (G := Tape.state) example_arms ["a"; "b"]
              (1 # 10) [1 # 2] Hkey Hne)
    as (plan & g' & Hrun & _ & Hchosen & _ & _ & Htotal & _).
  exists plan, g'. split; [exact Hrun|]. split; [exact Hchosen|exact Htotal].
Defined.

Lemma plan_determined_by_draws_witness :
  fst (random_random [1 # 20; 9 # 10; 7 # 10])
  == fst (random_random [1 # 20; 95 # 100]) /\
  fst (random_random [1 # 20; 9 # 10; 7 # 10]) < 1 # 10 /\
  exists plan,
    fst (ABTest.multi_armed_bandit example_arms ["a"; "b"] (1 # 10)
           [1 # 20; 9 # 10; 7 # 10])
    = ABTest.Allocated plan /\
    fst (ABTest.multi_armed_bandit example_arms ["a"; "b"] (1 # 10)
           [1 # 20; 95 # 100])
    = ABTest.Allocated plan /\
    ABTest.reason plan = "explore" /\ ABTest.next_creative plan = "b" /\
    snd (ABTest.multi_armed_bandit example_arms ["a"; "b"] (1 # 10)
           [1 # 20; 9 # 10; 7 # 10])
    = [7 # 10].
Proof.
  assert (Hu : fst (random_random [1 # 20; 9 # 10; 7 # 10])
               == fst (random_random [1 # 20; 95 # 100])) by reflexivity.
  assert (Hlt : fst (random_random [1 # 20; 9 # 10; 7 # 10]) < 1 # 10)
    by reflexivity.
  assert (Hk : fst (random_random [1 # 20; 9 # 10; 7 # 10]) < 1 # 10 ->
               fst (random_below
                      (length (query_all (ABTest.db example_arms) ["a"; "b"]
                                 (ABTest.user_id example_arms)))
                      (snd (random_random [1 # 20; 9 # 10; 7 # 10])))
               = fst (random_below
                        (length (query_all (ABTest.db example_arms) ["a"; "b"]
                                   (ABTest.user_id example_arms)))
                        (snd (random_random [1 # 20; 95 # 100]))))
    by (intros _; reflexivity).
  split; [exact Hu|]. split; [exact Hlt|].
  destruct (plan_determined_by_draws (G := Tape.state) example_arms ["a"; "b"]
              (1 # 10) [1 # 20; 9 # 10; 7 # 10] [1 # 20; 95 # 100] Hu Hk)
    as (_ & _ & Heq & Hsnd).
  eassert (Hrun : fst (ABTest.multi_armed_bandit example_arms ["a"; "b"] (1 # 10)
                         [1 # 20; 9 # 10; 7 # 10]) = ABTest.Allocated _)
    by (vm_compute; reflexivity).
  eexists. split; [exact Hrun|]. split; [exact (eq_trans (eq_sym Heq) Hrun)|].
  split; [reflexivity|]. split; [reflexivity|].
  exact (eq_trans Hsnd eq_refl).
Defined.

(** C7, as the specification states it: a call that passes a random source
    is refused, whether the source is the third argument or the keyword
    [random_source]. *)
Lemma random_source_argument_refused :
  ABTest.bind_arguments
    [ABTest.IdList ["a"; "b"]; ABTest.Float (1 # 10);
     ABTest.RandomSource [1 # 2; 1 # 4]] []
  = Raise TypeError /\
  ABTest.bind_arguments
    [ABTest.IdList ["a"; "b"]; ABTest.Float (1 # 10)]
    [("random_source", ABTest.RandomSource [1 # 2; 1 # 4])]
  = Raise TypeError.
Proof. split; reflexivity. Qed.

(** * Further properties *)

(** ** The early-signal scorer and the bulk analysis *)

Section EarlySignalsMore.
Import EarlySignalsAnalyzer.

(** The three outcomes of [analyze_24h_performance]. *)
Lemma analyze_24h_performance_cases
    (now : Q) (impressions clicks landing_views landing_bounces : Z)
    (avg_time_on_page : Q) (conversions : Z) (created_at : option Q) :
  exists a,
    analyze_24h_performance now impressions clicks landing_views landing_bounces
      avg_time_on_page conversions created_at = Ok a /\
    (too_young now created_at = true /\
     signal a = "insufficient_data" /\ recommendation a = "wait" /\
     confidence a = 0 /\ scored a = None /\ score_of a = None
     \/
     too_young now created_at = false /\ low_volume impressions clicks = true /\
     signal a = "insufficient_volume" /\ recommendation a = "wait" /\
     confidence a = 0 /\ scored a = None /\ score_of a = None
     \/
     too_young now created_at = false /\ low_volume impressions clicks = false /\
     exists row sc,
       let score :=
         EarlySignalSpec.score (ctr_of impressions clicks)
           (bounce_rate_of landing_views landing_bounces)
           avg_time_on_page conversions in
       EarlySignalSpec.classify score = Some row /\
       score_of a = Some score /\
       signal a = EarlySignalSpec.row_signal row /\
       recommendation a = EarlySignalSpec.row_recommendation row /\
       confidence a = EarlySignalSpec.row_confidence row /\
       scored a = Some sc /\
       predicted_final_cvr sc
       = ctr_of impressions clicks * EarlySignalSpec.row_factor row /\
       next_action sc
       = _get_next_action (EarlySignalSpec.row_recommendation row)
           (predicted_final_cvr sc)).
Proof.
  unfold analyze_24h_performance. rewrite !guarded_div.
  cbn [mbind result_bind]. fold (ctr_of impressions clicks).
  fold (bounce_rate_of landing_views landing_bounces).
  fold (low_volume impressions clicks).
  set (after := if low_volume impressions clicks then _ else _).
  assert (Hafter : exists a, after = Ok a /\
            (low_volume impressions clicks = true /\
             signal a = "insufficient_volume" /\ recommendation a = "wait" /\
             confidence a = 0 /\ scored a = None /\ score_of a = None
             \/
             low_volume impressions clicks = false /\
             exists row sc,
               let score :=
                 EarlySignalSpec.score (ctr_of impressions clicks)
                   (bounce_rate_of landing_views landing_bounces)
                   avg_time_on_page conversions in
               EarlySignalSpec.classify score = Some row /\
               score_of a = Some score /\
               signal a = EarlySignalSpec.row_signal row /\
               recommendation a = EarlySignalSpec.row_recommendation row /\
               confidence a = EarlySignalSpec.row_confidence row /\
               scored a = Some sc /\
               predicted_final_cvr sc
               = ctr_of impressions clicks * EarlySignalSpec.row_factor row /\
               next_action sc
               = _get_next_action (EarlySignalSpec.row_recommendation row)
                   (predicted_final_cvr sc))).
  { unfold after. destruct (low_volume impressions clicks).
    - eexists. split; [reflexivity|]. left. repeat split.
    - pose proof (count_signals_score (ctr_of impressions clicks)
                    (bounce_rate_of landing_views landing_bounces)
                    avg_time_on_page conversions) as Hscore.
      destruct (count_signals _ _ _ _) as [[ps ns] sd].
      rewrite Hscore.
      destruct (classify_chain
                  (EarlySignalSpec.score (ctr_of impressions clicks)
                     (bounce_rate_of landing_views landing_bounces)
                     avg_time_on_page conversions)
                  (ctr_of impressions clicks)) as (row & Hrow & Hchain).
      rewrite Hchain. eexists. split; [reflexivity|]. right.
      split; [reflexivity|]. exists row. eexists. cbn.
      repeat split. exact Hrow. }
  destruct Hafter as (a & Ha & Hcases).
  destruct created_at as [created|]; cbn [too_young].
  - destruct (Qlt_bool ((now - created) / 3600) 6).
    + eexists. split; [reflexivity|]. left. repeat split.
    + exists a. split; [exact Ha|]. right.
      destruct Hcases as [H | H]; [left|right]; tauto.
  - exists a. split; [exact Ha|]. right.
    destruct Hcases as [H | H]; [left|right]; tauto.
Qed.

Lemma classify_recommendation (score : Z) (row : EarlySignalSpec.Row) :
  EarlySignalSpec.classify score = Some row ->
  In (EarlySignalSpec.row_recommendation row) ["scale"; "continue"; "pause"; "kill"]
  /\ (EarlySignalSpec.row_recommendation row = "kill" <-> (score <= -4)%Z)
  /\ (EarlySignalSpec.row_recommendation row = "scale" <-> (3 <= score)%Z).
Proof.
  unfold EarlySignalSpec.classify, EarlySignalSpec.within.
  destruct (Z.leb_spec 3 score); [intros [= <-]; cbn; intuition (discriminate || lia)|].
  destruct (Z.leb_spec 1 score), (Z.leb_spec score 2); cbn [andb];
    try (intros [= <-]; cbn; intuition (discriminate || lia)).
  all: destruct (Z.leb_spec (-1) score), (Z.leb_spec score 0); cbn [andb];
    try (intros [= <-]; cbn; intuition (discriminate || lia)).
  all: destruct (Z.leb_spec (-3) score), (Z.leb_spec score (-2)); cbn [andb];
    try (intros [= <-]; cbn; intuition (discriminate || lia)).
  all: destruct (Z.leb_spec score (-4));
    try (intros [= <-]; cbn; intuition (discriminate || lia)); try discriminate.
Qed.


(** X2.  When the time gate lets the variant through, fewer than 100
    impressions or fewer than 10 clicks give the [insufficient_volume]
    answer, whatever the other metrics are. *)
Theorem volume_gate_answers
    (now : Q) (impressions clicks landing_views landing_bounces : Z)
    (avg_time_on_page : Q) (conversions : Z) (created_at : option Q) :
  too_young now created_at = false ->
  (impressions < 100 \/ clicks < 10)%Z ->
  analyze_24h_performance now impressions clicks landing_views landing_bounces
    avg_time_on_page conversions created_at
  = Ok {| signal := "insufficient_volume"; confidence := 0;
          recommendation := "wait";
          reasoning := NeedMinimumVolume impressions clicks; scored := None |}.
Proof.
  intros Hy Hlow. unfold analyze_24h_performance. rewrite !guarded_div.
  cbn [mbind result_bind].
  replace ((impressions <? 100) || (clicks <? 10))%Z with true
    by (symmetry; apply orb_true_iff; lia).
  destruct created_at as [created|]; [|reflexivity].
  cbn in Hy. now rewrite Hy.
Qed.

Lemma score_range (ctr bounce_rate avg_time_on_page : Q) (conversions : Z) :
  (-4 <= EarlySignalSpec.score ctr bounce_rate avg_time_on_page conversions <= 5)%Z
  /\ (EarlySignalSpec.score ctr bounce_rate avg_time_on_page conversions = (-4)%Z
      <-> ctr <= 1 # 100 /\ 70 # 100 <= bounce_rate
          /\ avg_time_on_page <= 2 /\ (conversions <= 0)%Z).
Proof.
  unfold EarlySignalSpec.score, EarlySignalSpec.ctr_points,
    EarlySignalSpec.bounce_points, EarlySignalSpec.time_points,
    EarlySignalSpec.conversion_points.
  destruct (Qle_bool (3 # 100) ctr) eqn:E1;
    [apply Qle_bool_iff in E1|apply Qle_bool_false_iff in E1];
  (destruct (Qle_bool ctr (1 # 100)) eqn:E2;
    [apply Qle_bool_iff in E2|apply Qle_bool_false_iff in E2]);
  (destruct (Qle_bool bounce_rate (40 # 100)) eqn:E3;
    [apply Qle_bool_iff in E3|apply Qle_bool_false_iff in E3]);
  (destruct (Qle_bool (70 # 100) bounce_rate) eqn:E4;
    [apply Qle_bool_iff in E4|apply Qle_bool_false_iff in E4]);
  (destruct (Qle_bool 5 avg_time_on_page) eqn:E5;
    [apply Qle_bool_iff in E5|apply Qle_bool_false_iff in E5]);
  (destruct (Qle_bool avg_time_on_page 2) eqn:E6;
    [apply Qle_bool_iff in E6|apply Qle_bool_false_iff in E6]);
  destruct (Z.ltb_spec 0 conversions);
  (split; [lia|]); (split; [intros Hs; try lia; repeat split; (lra || lia)
                           |intros (? & ? & ? & ?); try lia; exfalso; lra]).
Qed.

(** X3.  A score is between -4 and 5, and the recommendation is [kill]
    only in one situation: the CTR is at most 0.01, the bounce rate at
    least 0.70 (so the landing page was viewed), the time on page at most
    two seconds, and there is no conversion. *)
Theorem kill_needs_every_check_negative
    (now : Q) (impressions clicks landing_views landing_bounces : Z)
    (avg_time_on_page : Q) (conversions : Z) (created_at : option Q)
    (a : Analysis) (score : Z) :
  analyze_24h_performance now impressions clicks landing_views landing_bounces
    avg_time_on_page conversions created_at = Ok a ->
  score_of a = Some score ->
  (-4 <= score <= 5)%Z /\
  (recommendation a = "kill"
   <-> ctr_of impressions clicks <= 1 # 100 /\
       70 # 100 <= bounce_rate_of landing_views landing_bounces /\
       avg_time_on_page <= 2 /\ (conversions <= 0)%Z).
Proof.
  intros Ha Hs.
  destruct (analyze_24h_performance_cases now impressions clicks landing_views
              landing_bounces avg_time_on_page conversions created_at)
    as (a' & Ha' & Hcases).
  rewrite Ha in Ha'. injection Ha' as <-.
  destruct Hcases as [(_ & _ & _ & _ & _ & Hn) | [(_ & _ & _ & _ & _ & _ & Hn)
                     | (_ & _ & row & sc & Hrow & Hsc & _ & Hr & _)]];
    try congruence.
  cbv zeta in Hrow, Hsc. rewrite Hs in Hsc. injection Hsc as ->.
  pose proof (score_range (ctr_of impressions clicks)
                (bounce_rate_of landing_views landing_bounces)
                avg_time_on_page conversions) as (Hrange & Hmin).
  split; [exact Hrange|].
  apply classify_recommendation in Hrow as (_ & Hkill & _).
  rewrite Hr, Hkill, <- Hmin. lia.
Qed.

Lemma score_monotone (ctr ctr' bounce_rate bounce_rate' time time' : Q)
    (conversions conversions' : Z) :
  ctr <= ctr' -> bounce_rate' <= bounce_rate -> time <= time' ->
  (conversions <= conversions')%Z ->
  (EarlySignalSpec.score ctr bounce_rate time conversions
   <= EarlySignalSpec.score ctr' bounce_rate' time' conversions')%Z.
Proof.
  intros Hc Hb Ht Hn.
  unfold EarlySignalSpec.score, EarlySignalSpec.ctr_points,
    EarlySignalSpec.bounce_points, EarlySignalSpec.time_points,
    EarlySignalSpec.conversion_points.
  assert (H1 : ((if Qle_bool (3 # 100) ctr then 2
                 else if Qle_bool ctr (1 # 100) then -2 else 0)
                <= (if Qle_bool (3 # 100) ctr' then 2
                    else if Qle_bool ctr' (1 # 100) then -2 else 0))%Z).
  { destruct (Qle_bool (3 # 100) ctr) eqn:E1;
      [apply Qle_bool_iff in E1|apply Qle_bool_false_iff in E1];
    (destruct (Qle_bool ctr (1 # 100)) eqn:E2;
      [apply Qle_bool_iff in E2|apply Qle_bool_false_iff in E2]);
    (destruct (Qle_bool (3 # 100) ctr') eqn:E3;
      [apply Qle_bool_iff in E3|apply Qle_bool_false_iff in E3]);
    (destruct (Qle_bool ctr' (1 # 100)) eqn:E4;
      [apply Qle_bool_iff in E4|apply Qle_bool_false_iff in E4]);
    try lia; exfalso; lra. }
  assert (H2 : ((if Qle_bool bounce_rate (40 # 100) then 1
                 else if Qle_bool (70 # 100) bounce_rate then -1 else 0)
                <= (if Qle_bool bounce_rate' (40 # 100) then 1
                    else if Qle_bool (70 # 100) bounce_rate' then -1 else 0))%Z).
  { destruct (Qle_bool bounce_rate (40 # 100)) eqn:E1;
      [apply Qle_bool_iff in E1|apply Qle_bool_false_iff in E1];
    (destruct (Qle_bool (70 # 100) bounce_rate) eqn:E2;
      [apply Qle_bool_iff in E2|apply Qle_bool_false_iff in E2]);
    (destruct (Qle_bool bounce_rate' (40 # 100)) eqn:E3;
      [apply Qle_bool_iff in E3|apply Qle_bool_false_iff in E3]);
    (destruct (Qle_bool (70 # 100) bounce_rate') eqn:E4;
      [apply Qle_bool_iff in E4|apply Qle_bool_false_iff in E4]);
    try lia; exfalso; lra. }
  assert (H3 : ((if Qle_bool 5 time then 1
                 else if Qle_bool time 2 then -1 else 0)
                <= (if Qle_bool 5 time' then 1
                    else if Qle_bool time' 2 then -1 else 0))%Z).
  { destruct (Qle_bool 5 time) eqn:E1;
      [apply Qle_bool_iff in E1|apply Qle_bool_false_iff in E1];
    (destruct (Qle_bool time 2) eqn:E2;
      [apply Qle_bool_iff in E2|apply Qle_bool_false_iff in E2]);
    (destruct (Qle_bool 5 time') eqn:E3;
      [apply Qle_bool_iff in E3|apply Qle_bool_false_iff in E3]);
    (destruct (Qle_bool time' 2) eqn:E4;
      [apply Qle_bool_iff in E4|apply Qle_bool_false_iff in E4]);
    try lia; exfalso; lra. }
  destruct (Z.ltb_spec 0 conversions), (Z.ltb_spec 0 conversions'); lia.
Qed.

Lemma classify_factor_monotone (score score' : Z) (row row' : EarlySignalSpec.Row) :
  EarlySignalSpec.classify score = Some row ->
  EarlySignalSpec.classify score' = Some row' ->
  (score <= score')%Z ->
  0 < EarlySignalSpec.row_factor row /\
  EarlySignalSpec.row_factor row <= EarlySignalSpec.row_factor row'.
Proof.
  unfold EarlySignalSpec.classify, EarlySignalSpec.within.
  intros H H' Hle.
  destruct (Z.leb_spec 3 score), (Z.leb_spec 1 score), (Z.leb_spec score 2),
    (Z.leb_spec (-1) score), (Z.leb_spec score 0), (Z.leb_spec (-3) score),
    (Z.leb_spec score (-2)), (Z.leb_spec score (-4));
    cbn [andb] in H; try lia; try discriminate H; injection H as <-;
    (destruct (Z.leb_spec 3 score'), (Z.leb_spec 1 score'),
       (Z.leb_spec score' 2), (Z.leb_spec (-1) score'), (Z.leb_spec score' 0),
       (Z.leb_spec (-3) score'), (Z.leb_spec score' (-2)),
       (Z.leb_spec score' (-4));
     cbn [andb] in H'; try lia; try discriminate H'; injection H' as <-);
    cbn; split; reflexivity || discriminate.
Qed.

(** X4.  Better metrics never lower the score: with a CTR and a time on
    page at least as high, a bounce rate at most as high and at least as
    many conversions, the score and the predicted CVR are at least as
    high. *)
Theorem better_metrics_never_score_lower
    (now now' : Q)
    (impressions clicks landing_views landing_bounces conversions : Z)
    (impressions' clicks' landing_views' landing_bounces' conversions' : Z)
    (avg_time_on_page avg_time_on_page' : Q) (created_at created_at' : option Q)
    (a a' : Analysis) (sc sc' : Scored) (score score' : Z) :
  analyze_24h_performance now impressions clicks landing_views landing_bounces
    avg_time_on_page conversions created_at = Ok a ->
  analyze_24h_performance now' impressions' clicks' landing_views'
    landing_bounces' avg_time_on_page' conversions' created_at' = Ok a' ->
  score_of a = Some score -> score_of a' = Some score' ->
  scored a = Some sc -> scored a' = Some sc' ->
  ctr_of impressions clicks <= ctr_of impressions' clicks' ->
  bounce_rate_of landing_views' landing_bounces'
  <= bounce_rate_of landing_views landing_bounces ->
  avg_time_on_page <= avg_time_on_page' ->
  (conversions <= conversions')%Z ->
  (score <= score')%Z /\ predicted_final_cvr sc <= predicted_final_cvr sc'.
Proof.
  intros Ha Ha' Hs Hs' Hsc Hsc' Hctr Hb Ht Hn.
  destruct (analyze_24h_performance_cases now impressions clicks landing_views
              landing_bounces avg_time_on_page conversions created_at)
    as (b & Hb0 & Hcases).
  rewrite Ha in Hb0. injection Hb0 as <-.
  destruct (analyze_24h_performance_cases now' impressions' clicks'
              landing_views' landing_bounces' avg_time_on_page' conversions'
              created_at') as (b' & Hb0' & Hcases').
  rewrite Ha' in Hb0'. injection Hb0' as <-.
  destruct Hcases as [(_ & _ & _ & _ & _ & Hn0) | [(_ & _ & _ & _ & _ & _ & Hn0)
                     | (_ & Hv & row & s1 & Hrow & Hsq & _ & _ & _ & Hs1 & Hp & _)]];
    try congruence.
  destruct Hcases' as [(_ & _ & _ & _ & _ & Hn0) | [(_ & _ & _ & _ & _ & _ & Hn0)
                      | (_ & Hv' & row' & s1' & Hrow' & Hsq' & _ & _ & _ & Hs1' & Hp' & _)]];
    try congruence.
  cbv zeta in *.
  rewrite Hs in Hsq. injection Hsq as ->.
  rewrite Hs' in Hsq'. injection Hsq' as ->.
  rewrite Hsc in Hs1. injection Hs1 as ->.
  rewrite Hsc' in Hs1'. injection Hs1' as ->.
  pose proof (score_monotone _ _ _ _ _ _ _ _ Hctr Hb Ht Hn) as Hle.
  split; [exact Hle|].
  destruct (classify_factor_monotone _ _ _ _ Hrow Hrow' Hle) as [Hpos Hfac].
  rewrite Hp, Hp'.
  assert (H0 : 0 <= ctr_of impressions clicks).
  { unfold low_volume in Hv. apply orb_false_iff in Hv as [Hi Hc].
    unfold ctr_of. replace (impressions >? 0)%Z with true by lia.
    apply Qle_shift_div_l; [unfold Qlt; cbn; lia|].
    rewrite Qmult_0_l. unfold Qle. cbn. lia. }
  nra.
Qed.

(** *** [bulk_analyze_24h] *)

Lemma entry_for_returns (now : nat -> Q) (i : nat) (creative : CreativeData) :
  exists e, entry_for now i creative = Ok e
            /\ b_creative_id e = d_id creative /\ b_name e = d_name creative.
Proof.
  unfold entry_for.
  destruct (analyze_24h_performance_cases (now i)
              (default 0%Z (d_impressions creative))
              (default 0%Z (d_clicks creative))
              (default 0%Z (d_landing_views creative))
              (default 0%Z (d_landing_bounces creative))
              (default 0 (d_avg_time_on_page creative))
              (default 0%Z (d_conversions creative))
              (d_created_at creative)) as (a & -> & _).
  cbn. eauto.
Qed.

(** The loop appends each entry to the list chosen by its
    recommendation. *)
Lemma bulk_loop_spec (now : nat -> Q) (creatives_data : list CreativeData) :
  forall (i : nat) (ws ps ls : list BulkEntry),
  exists entries,
    bulk_entries now i creatives_data = Ok entries /\
    length entries = length creatives_data /\
    bulk_loop now i creatives_data ws ps ls
    = Ok (ws ++ List.filter is_winner entries,
          ps ++ List.filter is_potential entries,
          ls ++ List.filter is_loser entries).
Proof.
  induction creatives_data as [|c rest IH]; intros i ws ps ls.
  - exists []. cbn. rewrite !app_nil_r. auto.
  - destruct (entry_for_returns now i c) as (e & He & _).
    cbn [bulk_loop bulk_entries]. rewrite He. unfold entry_for in He.
    destruct (analyze_24h_performance _ _ _ _ _ _ _ _) as [a|] eqn:Ha;
      [|discriminate He].
    cbn in He. injection He as <-. cbn [mbind result_bind].
    set (e := {| b_creative_id := d_id c; b_name := d_name c; b_analysis := a |}).
    change (recommendation a) with (recommendation (b_analysis e)).
    fold (is_winner e).
    destruct (is_winner e) eqn:Ew.
    + destruct (IH (S i) (ws ++ [e]) ps ls) as (es & -> & Hlen & ->).
      exists (e :: es). cbn [List.filter length mret result_ret].
      unfold is_potential, is_loser. rewrite Ew. cbn [negb andb].
      rewrite <- !app_assoc. cbn [app]. auto.
    + assert (Ep : is_potential e
                   = String.eqb (recommendation (b_analysis e)) "continue"
                     || String.eqb (recommendation (b_analysis e)) "pause")
        by (unfold is_potential; now rewrite Ew).
      rewrite <- Ep. destruct (is_potential e) eqn:Ep'.
      * destruct (IH (S i) ws (ps ++ [e]) ls) as (es & -> & Hlen & ->).
        exists (e :: es). cbn [List.filter length mret result_ret].
        unfold is_loser. rewrite Ew, Ep'. cbn [negb andb].
        rewrite <- !app_assoc. cbn [app]. auto.
      * destruct (IH (S i) ws ps (ls ++ [e])) as (es & -> & Hlen & ->).
        exists (e :: es). cbn [List.filter length mret result_ret].
        unfold is_loser. rewrite Ew, Ep'. cbn [negb andb].
        rewrite <- !app_assoc. cbn [app]. auto.
Qed.

Lemma bulk_entries_lookup (now : nat -> Q) (creatives_data : list CreativeData) :
  forall (i : nat) (entries : list BulkEntry),
    bulk_entries now i creatives_data = Ok entries ->
    forall (j : nat) (c : CreativeData),
      creatives_data !! j = Some c ->
      exists e, entries !! j = Some e /\ entry_for now (i + j) c = Ok e.
Proof.
  induction creatives_data as [|c0 rest IH]; intros i entries He j c Hj;
    [discriminate Hj|].
  cbn [bulk_entries] in He.
  destruct (entry_for now i c0) as [e0|] eqn:E0; [|discriminate He].
  cbn [mbind result_bind] in He.
  destruct (bulk_entries now (S i) rest) as [es|] eqn:Es; [|discriminate He].
  cbn in He. injection He as <-.
  destruct j as [|j].
  - cbn in Hj. injection Hj as <-. exists e0. rewrite Nat.add_0_r. auto.
  - cbn in Hj. destruct (IH (S i) es Es j c Hj) as (e & Hl & Hent).
    exists e. split; [exact Hl|]. now rewrite Nat.add_succ_r.
Qed.

Lemma filter_three_way (entries : list BulkEntry) :
  (length (List.filter is_winner entries)
   + length (List.filter is_potential entries)
   + length (List.filter is_loser entries))%nat = length entries.
Proof.
  induction entries as [|e es IH]; [reflexivity|].
  assert (El : is_loser e = negb (is_winner e) && negb (is_potential e))
    by reflexivity.
  cbn [List.filter]. rewrite El.
  destruct (is_winner e) eqn:Ew, (is_potential e) eqn:Ep;
    cbn [negb andb length]; try lia.
  unfold is_potential in Ep. rewrite Ew in Ep. discriminate Ep.
Qed.

Lemma entry_recommendation (now : nat -> Q) (i : nat) (c : CreativeData)
    (e : BulkEntry) :
  entry_for now i c = Ok e ->
  b_creative_id e = d_id c /\ b_name e = d_name c /\
  (too_young (now i) (d_created_at c)
   || low_volume (default 0%Z (d_impressions c)) (default 0%Z (d_clicks c))
   = true /\ recommendation (b_analysis e) = "wait"
   \/
   too_young (now i) (d_created_at c)
   || low_volume (default 0%Z (d_impressions c)) (default 0%Z (d_clicks c))
   = false /\
   In (recommendation (b_analysis e)) ["scale"; "continue"; "pause"; "kill"]).
Proof.
  unfold entry_for. intros He.
  destruct (analyze_24h_performance_cases (now i)
              (default 0%Z (d_impressions c)) (default 0%Z (d_clicks c))
              (default 0%Z (d_landing_views c))
              (default 0%Z (d_landing_bounces c))
              (default 0 (d_avg_time_on_page c))
              (default 0%Z (d_conversions c)) (d_created_at c))
    as (a & Ha & Hcases).
  rewrite Ha in He. cbn in He. injection He as <-. cbn.
  split; [reflexivity|]. split; [reflexivity|].
  destruct Hcases as [(Hy & _ & Hr & _)
                     | [(Hy & Hv & _ & Hr & _)
                       | (Hy & Hv & row & sc & Hrow & _ & _ & Hr & _)]];
    rewrite Hy; try rewrite Hv; cbn [orb]; [left; auto|left; auto|right].
  split; [reflexivity|]. rewrite Hr.
  now apply classify_recommendation in Hrow as (Hin & _).
Qed.

(** X5.  [bulk_analyze_24h] returns for every input.  Its three lists hold
    the entries of the input, each in the order of the input: [winners]
    those recommended [scale], [potential] those recommended [continue] or
    [pause], [losers] all the others. *)
Theorem bulk_buckets (now : nat -> Q) (creatives_data : list CreativeData) :
  exists entries r,
    bulk_entries now 0 creatives_data = Ok entries /\
    length entries = length creatives_data /\
    bulk_analyze_24h now creatives_data = Ok r /\
    winners r = List.filter is_winner entries /\
    potential r = List.filter is_potential entries /\
    losers r = List.filter is_loser entries.
Proof.
  destruct (bulk_loop_spec now creatives_data 0 [] [] [])
    as (entries & He & Hlen & Hloop).
  exists entries. unfold bulk_analyze_24h. rewrite Hloop.
  cbn [mbind result_bind app]. rewrite guarded_div.
  cbn [mbind result_bind mret result_ret]. eexists. repeat split; assumption.
Qed.

(** X6.  The summary counts every input element once: the three counts
    add up to [total_analyzed], the number of elements; the savings are
    40 per loser; [kill_rate] is the share of losers, between 0 and 1,
    and 0 for an empty input, where nothing is divided. *)
Theorem bulk_summary_counts (now : nat -> Q) (creatives_data : list CreativeData)
    (r : BulkResult) :
  bulk_analyze_24h now creatives_data = Ok r ->
  total_analyzed (summary r) = Z.of_nat (length creatives_data) /\
  winners_count (summary r) = Z.of_nat (length (winners r)) /\
  potential_count (summary r) = Z.of_nat (length (potential r)) /\
  losers_count (summary r) = Z.of_nat (length (losers r)) /\
  (winners_count (summary r) + potential_count (summary r)
   + losers_count (summary r))%Z = total_analyzed (summary r) /\
  estimated_savings_usd (summary r) = (40 * losers_count (summary r))%Z /\
  0 <= kill_rate (summary r) <= 1 /\
  kill_rate (summary r) * inject_Z (total_analyzed (summary r))
  == inject_Z (losers_count (summary r)) /\
  (creatives_data = [] -> kill_rate (summary r) = 0).
Proof.
  intros Hr.
  destruct (bulk_loop_spec now creatives_data 0 [] [] [])
    as (entries & He & Hlen & Hloop).
  unfold bulk_analyze_24h in Hr. rewrite Hloop in Hr.
  cbn [mbind result_bind app] in Hr. rewrite guarded_div in Hr.
  cbn [mbind result_bind mret result_ret] in Hr. injection Hr as <-.
  cbn [summary total_analyzed winners_count potential_count losers_count
       kill_rate estimated_savings_usd winners potential losers].
  pose proof (filter_three_way entries) as Hsum. rewrite Hlen in Hsum.
  set (nl := length (List.filter is_loser entries)) in *.
  set (n := length creatives_data) in *.
  repeat (split; [reflexivity || lia|]).
  destruct (Z.of_nat n >? 0)%Z eqn:En.
  - assert (Hn : 0 < inject_Z (Z.of_nat n)) by (unfold Qlt; cbn; lia).
    split; [split|split].
    + apply Qle_shift_div_l; [exact Hn|]. rewrite Qmult_0_l.
      unfold Qle. cbn. lia.
    + apply Qle_shift_div_r; [exact Hn|]. rewrite Qmult_1_l.
      rewrite <- Zle_Qle. lia.
    + field. lra.
    + intros E. subst n. rewrite E in En. discriminate En.
  - assert (n = 0%nat) by lia. assert (nl = 0%nat) by lia.
    split; [split; discriminate|]. split; [|reflexivity].
    replace nl with 0%nat by lia. reflexivity.
Qed.

(** X7.  An element that a gate answers is listed among the losers: too
    young, or with fewer than 100 impressions or 10 clicks (absent
    counters count as 0), its recommendation is [wait] and it is counted
    in [losers_count], [kill_rate] and the savings.  Every loser is
    recommended [wait] or [kill]. *)
Theorem gated_elements_are_losers
    (now : nat -> Q) (creatives_data : list CreativeData) (r : BulkResult) :
  bulk_analyze_24h now creatives_data = Ok r ->
  (forall (j : nat) (c : CreativeData),
     creatives_data !! j = Some c ->
     too_young (now j) (d_created_at c)
     || low_volume (default 0%Z (d_impressions c)) (default 0%Z (d_clicks c))
     = true ->
     exists e, In e (losers r) /\
               b_creative_id e = d_id c /\ b_name e = d_name c /\
               recommendation (b_analysis e) = "wait") /\
  (forall e, In e (losers r) ->
             recommendation (b_analysis e) = "wait"
             \/ recommendation (b_analysis e) = "kill").
Proof.
  intros Hr.
  destruct (bulk_loop_spec now creatives_data 0 [] [] [])
    as (entries & He & Hlen & Hloop).
  unfold bulk_analyze_24h in Hr. rewrite Hloop in Hr.
  cbn [mbind result_bind app] in Hr. rewrite guarded_div in Hr.
  cbn [mbind result_bind mret result_ret] in Hr. injection Hr as <-.
  cbn [losers]. split.
  - intros j c Hj Hgate.
    destruct (bulk_entries_lookup now creatives_data 0 entries He j c Hj)
      as (e & Hej & Hent).
    apply entry_recommendation in Hent as (Hid & Hname & Hrec).
    destruct Hrec as [(_ & Hw) | (Hng & _)]; [|cbn in Hng; congruence].
    exists e. repeat split; try assumption.
    apply filter_In. split; [apply list_elem_of_In; eapply list_elem_of_lookup_2; exact Hej|].
    unfold is_loser, is_potential, is_winner. now rewrite Hw.
  - intros e Hin. apply filter_In in Hin as [Hin Hlose].
    apply list_elem_of_In, list_elem_of_lookup_1 in Hin as (j & Hj).
    assert (Hc : exists c, creatives_data !! j = Some c).
    { apply lookup_lt_is_Some. rewrite <- Hlen.
      apply lookup_lt_is_Some. eauto. }
    destruct Hc as (c & Hc).
    destruct (bulk_entries_lookup now creatives_data 0 entries He j c Hc)
      as (e' & Hej & Hent).
    rewrite Hj in Hej. injection Hej as <-.
    apply entry_recommendation in Hent as (_ & _ & Hrec).
    destruct Hrec as [(_ & Hw) | (_ & Hin)]; [now left|].
    unfold is_loser, is_potential, is_winner in Hlose.
    destruct Hin as [E | [E | [E | [E | []]]]]; rewrite <- E in Hlose;
      cbn in Hlose; try discriminate Hlose.
    now right.
Qed.

End EarlySignalsMore.

(** ** Errors, tenants and the allocator *)

Section AnalyzerMore.
Import ABTest.
Context {N : Numerics}.

(** X8.  A row that is missing for the user is reported before the metric
    is looked at, and an unknown metric before any count is read. *)
Theorem analyze_test_errors
    (self : t) (creative_a_id creative_b_id metric : string) :
  (query_first (db self) creative_a_id (user_id self) = None
   \/ query_first (db self) creative_b_id (user_id self) = None ->
   analyze_test self creative_a_id creative_b_id metric
   = Ok (Error "Creative not found")) /\
  (is_Some (query_first (db self) creative_a_id (user_id self)) ->
   is_Some (query_first (db self) creative_b_id (user_id self)) ->
   metric <> "cvr" -> metric <> "install_rate" -> metric <> "ctr" ->
   analyze_test self creative_a_id creative_b_id metric
   = Ok (Error ("Unknown metric: " +:+ metric))).
Proof.
  unfold analyze_test. split.
  - intros [H | H]; rewrite H; [reflexivity|].
    now destruct (query_first (db self) creative_a_id (user_id self)).
  - intros [ca ->] [cb ->] H1 H2 H3. unfold metric_values.
    apply String.eqb_neq in H1, H2, H3. now rewrite H1, H2, H3.
Qed.

Lemma query_first_rows_of (db : Session) (cid uid : string) :
  query_first (rows_of uid db) cid uid = query_first db cid uid.
Proof.
  unfold query_first, rows_of.
  induction db as [|c db IH]; [reflexivity|].
  cbn [List.filter]. destruct (String.eqb (cr_user_id c) uid) eqn:E.
  - cbn [List.find]. rewrite E. now rewrite IH.
  - cbn [List.find]. rewrite E, andb_false_r. exact IH.
Qed.

Lemma query_all_rows_of (db : Session) (cids : list string) (uid : string) :
  query_all (rows_of uid db) cids uid = query_all db cids uid.
Proof.
  unfold query_all, rows_of.
  induction db as [|c db IH]; [reflexivity|].
  cbn [List.filter]. destruct (String.eqb (cr_user_id c) uid) eqn:E.
  - cbn [List.filter]. rewrite E. now rewrite IH.
  - rewrite andb_false_r. exact IH.
Qed.

Context {G : Type} {RG : RandomGen G}.

(** X9.  Rows of other users never influence a result: [analyze_test] and
    [multi_armed_bandit] return what they return on the table reduced to
    the rows of [user_id]. *)
Theorem other_users_rows_ignored
    (self : t) (creative_a_id creative_b_id metric : string)
    (creative_ids : list string) (epsilon : Q) (g : G) :
  let own := {| db := rows_of (user_id self) (db self);
                user_id := user_id self |} in
  analyze_test self creative_a_id creative_b_id metric
  = analyze_test own creative_a_id creative_b_id metric /\
  multi_armed_bandit self creative_ids epsilon g
  = multi_armed_bandit own creative_ids epsilon g.
Proof.
  cbv zeta. unfold analyze_test, multi_armed_bandit. cbn [db user_id].
  now rewrite !query_first_rows_of, query_all_rows_of.
Qed.

(** X10.  When no requested id is a row of the user (an empty request
    included), [multi_armed_bandit] returns the error dictionary and
    draws nothing: the generator is left in the state it was in. *)
Theorem no_rows_no_draw
    (self : t) (creative_ids : list string) (epsilon : Q) (g : G) :
  (forall c, In c (db self) -> cr_user_id c = user_id self ->
             ~ In (cr_id c) creative_ids) ->
  multi_armed_bandit self creative_ids epsilon g
  = (NoCreatives "No creatives found", g).
Proof.
  intros Hnone. unfold multi_armed_bandit.
  destruct (query_all (db self) creative_ids (user_id self))
    as [|c rows] eqn:Hq; [reflexivity|].
  exfalso. assert (Hin : In c (query_all (db self) creative_ids (user_id self)))
    by (rewrite Hq; now left).
  unfold query_all in Hin. apply filter_In in Hin as [Hin Hkeep].
  apply andb_true_iff in Hkeep as [Hreq Hown].
  apply String.eqb_eq in Hown.
  apply (Hnone c Hin Hown).
  apply existsb_exists in Hreq as (k & Hk & E).
  apply String.eqb_eq in E. now rewrite E.
Qed.

(** the weight written for a key *)
Lemma fill_value (chosen : Arm) (hi lo : Q) (l : list Arm) :
  forall (acc : gmap string Q),
    (forall k w, acc !! k = Some w ->
                 w = if String.eqb k (creative_id chosen) then hi else lo) ->
    forall k w, fill chosen hi lo acc l !! k = Some w ->
                w = if String.eqb k (creative_id chosen) then hi else lo.
Proof.
  induction l as [|x l IH]; intros acc Hacc k w Hk; [now apply Hacc|].
  rewrite fill_cons in Hk. revert Hk. apply IH. clear k w.
  intros k w Hk.
  destruct (String.eqb (creative_id x) (creative_id chosen)) eqn:E;
    (destruct (decide (k = creative_id x)) as [-> | Hne];
     [rewrite lookup_insert_eq in Hk; injection Hk as <-; now rewrite E
     |rewrite lookup_insert_ne in Hk by congruence; now apply Hacc]).
Qed.

Lemma allocate_value (results : list Arm) (chosen : Arm) (epsilon : Q)
    (k : string) (w : Q) :
  allocate results chosen epsilon !! k = Some w ->
  w = if String.eqb k (creative_id chosen)
      then 1 - epsilon + epsilon / inject_Z (Z.of_nat (length results))
      else epsilon / inject_Z (Z.of_nat (length results)).
Proof.
  rewrite allocate_fill. apply fill_value.
  intros k' w' H. rewrite lookup_empty in H. discriminate H.
Qed.

Lemma fill_has_key (chosen : Arm) (hi lo : Q) (l : list Arm) :
  forall (acc : gmap string Q) (k : string),
    In k (map creative_id l) \/ is_Some (acc !! k) ->
    is_Some (fill chosen hi lo acc l !! k).
Proof.
  induction l as [|x l IH]; intros acc k Hk.
  - destruct Hk as [[] | Hk]. exact Hk.
  - rewrite fill_cons. apply IH.
    destruct Hk as [[E | Hk] | Hk]; [right|now left|right].
    + rewrite <- E. destruct (String.eqb _ _); rewrite lookup_insert_eq; eauto.
    + destruct (String.eqb _ _);
        (destruct (decide (k = creative_id x)) as [-> | Hne];
         [rewrite lookup_insert_eq; eauto
         |now rewrite lookup_insert_ne by congruence]).
Qed.

Lemma allocate_keys (results : list Arm) (chosen : Arm) (epsilon : Q)
    (k : string) :
  is_Some (allocate results chosen epsilon !! k)
  <-> In k (map creative_id results).
Proof.
  rewrite allocate_fill. split.
  - intros H. apply fill_keys in H as [H | H]; [now apply list_elem_of_In|].
    rewrite lookup_empty in H. now destruct H.
  - intros H. apply fill_has_key. now left.
Qed.

Lemma ranking_ids_In (creatives : list Creative) (k : string) :
  In k (map creative_id (sort_desc (map arm_of creatives)))
  <-> In k (map cr_id creatives).
Proof.
  rewrite <- !list_elem_of_In. now rewrite ranking_ids.
Qed.

(** X11.  The keys of the allocation are the requested ids that are rows
    of the user: an id that is not requested, does not exist or belongs to
    another user gets no weight, and every other requested id gets one. *)
Theorem allocation_keys
    (self : t) (creative_ids : list string) (epsilon : Q) (g g' : G)
    (plan : Plan) :
  multi_armed_bandit self creative_ids epsilon g = (Allocated plan, g') ->
  forall k,
    is_Some (allocation plan !! k)
    <-> In k creative_ids /\
        exists c, In c (db self) /\ cr_id c = k /\ cr_user_id c = user_id self.
Proof.
  intros Hrun k.
  assert (Hne : query_all (db self) creative_ids (user_id self) <> []).
  { intros E. unfold multi_armed_bandit in Hrun. rewrite E in Hrun.
    discriminate Hrun. }
  destruct (bandit_returns self creative_ids epsilon g Hne)
    as (chosen & reason & g2 & _ & Hrun').
  rewrite Hrun in Hrun'. injection Hrun' as -> _. cbn [allocation].
  rewrite allocate_keys, ranking_ids_In, in_map_iff. unfold query_all.
  split.
  - intros (c & <- & Hc). apply filter_In in Hc as [Hc Hkeep].
    apply andb_true_iff in Hkeep as [Hreq Hown].
    apply String.eqb_eq in Hown.
    apply existsb_exists in Hreq as (k & Hk & E). apply String.eqb_eq in E.
    split; [now rewrite E|]. eauto.
  - intros (Hk & c & Hc & <- & Hown). exists c. split; [reflexivity|].
    apply filter_In. split; [exact Hc|]. apply andb_true_iff. split.
    + apply existsb_exists. exists (cr_id c). split; [exact Hk|].
      apply String.eqb_refl.
    + now apply String.eqb_eq.
Qed.

(** X12.  For an epsilon between 0 and 1 every weight of the allocation is
    between 0 and 1. *)
Theorem allocation_weights_in_range
    (self : t) (creative_ids : list string) (epsilon : Q) (g g' : G)
    (plan : Plan) (k : string) (w : Q) :
  0 <= epsilon <= 1 ->
  multi_armed_bandit self creative_ids epsilon g = (Allocated plan, g') ->
  allocation plan !! k = Some w ->
  0 <= w <= 1.
Proof.
  intros Heps Hrun Hk.
  assert (Hne : query_all (db self) creative_ids (user_id self) <> []).
  { intros E. unfold multi_armed_bandit in Hrun. rewrite E in Hrun.
    discriminate Hrun. }
  destruct (bandit_returns self creative_ids epsilon g Hne)
    as (chosen & reason & g2 & Hin & Hrun').
  rewrite Hrun in Hrun'. injection Hrun' as -> _. cbn [allocation] in Hk.
  apply allocate_value in Hk.
  set (results := sort_desc _) in *.
  assert (Hn : 1 <= inject_Z (Z.of_nat (length results))).
  { destruct results; [destruct Hin|]. unfold Qle. cbn [length Qnum Qden inject_Z]. lia. }
  set (n := inject_Z (Z.of_nat (length results))) in *.
  assert (Hlo : 0 <= epsilon / n <= epsilon).
  { split.
    - apply Qle_shift_div_l; lra.
    - apply Qle_shift_div_r; [lra|]. nra. }
  destruct (String.eqb k (creative_id chosen)); subst w; lra.
Qed.

(** X13.  The two extremes of epsilon.  With epsilon 0 the chosen variant
    has weight 1 and every other variant weight 0; with epsilon 1 every
    variant has the same weight [1 / n], the chosen one included. *)
Theorem epsilon_extremes
    (self : t) (creative_ids : list string) (epsilon : Q) (g g' : G)
    (plan : Plan) (k : string) (w : Q) :
  multi_armed_bandit self creative_ids epsilon g = (Allocated plan, g') ->
  allocation plan !! k = Some w ->
  let n := inject_Z (Z.of_nat
             (length (query_all (db self) creative_ids (user_id self)))) in
  (epsilon == 0 -> w == (if String.eqb k (next_creative plan) then 1 else 0)) /\
  (epsilon == 1 -> w == 1 / n).
Proof.
  intros Hrun Hk n.
  assert (Hne : query_all (db self) creative_ids (user_id self) <> []).
  { intros E. unfold multi_armed_bandit in Hrun. rewrite E in Hrun.
    discriminate Hrun. }
  destruct (bandit_returns self creative_ids epsilon g Hne)
    as (chosen & reason & g2 & Hin & Hrun').
  rewrite Hrun in Hrun'. injection Hrun' as -> _.
  cbn [allocation next_creative] in *.
  apply allocate_value in Hk.
  assert (Hlen : length (sort_desc (map arm_of
                   (query_all (db self) creative_ids (user_id self))))
                 = length (query_all (db self) creative_ids (user_id self))).
  { rewrite <- (length_map creative_id), ranking_ids. apply length_map. }
  rewrite Hlen in Hk. fold n in Hk.
  assert (Hn : 1 <= n).
  { unfold n. destruct (query_all (db self) creative_ids (user_id self));
      [contradiction|]. unfold Qle. cbn [length Qnum Qden inject_Z]. lia. }
  split; intros E; destruct (String.eqb k (creative_id chosen));
    subst w; rewrite E; field; lra.
Qed.

(** rows of a given rate keep their order through the sort *)
Lemma insert_desc_stable (v : Q) (r : Arm) (l : list Arm) :
  List.filter (fun x => Qeq_bool (cvr x) v) (insert_desc r l)
  = List.filter (fun x => Qeq_bool (cvr x) v) (r :: l).
Proof.
  induction l as [|x l IH]; [reflexivity|].
  cbn [insert_desc]. destruct (Qlt_bool (cvr r) (cvr x)) eqn:E; [|reflexivity].
  apply Qlt_bool_iff in E.
  cbn [List.filter] in *. rewrite IH.
  destruct (Qeq_bool (cvr r) v) eqn:Er; [|reflexivity].
  apply Qeq_bool_iff in Er.
  destruct (Qeq_bool (cvr x) v) eqn:Ex; [|reflexivity].
  apply Qeq_bool_iff in Ex. lra.
Qed.

Lemma sort_desc_stable (v : Q) (l : list Arm) :
  List.filter (fun x => Qeq_bool (cvr x) v) (sort_desc l)
  = List.filter (fun x => Qeq_bool (cvr x) v) l.
Proof.
  induction l as [|x l IH]; [reflexivity|].
  cbn [sort_desc foldr]. fold (sort_desc l).
  rewrite insert_desc_stable. cbn [List.filter]. now rewrite IH.
Qed.

Lemma sorted_head_max (best : Arm) (rest : list Arm) :
  Sorted (fun x y => cvr y <= cvr x) (best :: rest) ->
  forall x, In x (best :: rest) -> cvr x <= cvr best.
Proof.
  intros Hs. apply Sorted_StronglySorted in Hs.
  - apply StronglySorted_inv in Hs as [_ Hall].
    intros x [<- | Hx]; [lra|].
    rewrite List.Forall_forall in Hall. now apply Hall.
  - intros x y z Hxy Hyz. lra.
Qed.

(** X14.  The leaderboard of a plan holds the arms of the matched rows,
    each once, by falling rate; rows of equal rate keep the order they
    have in the table. *)
Theorem leaderboard_ranked
    (self : t) (creative_ids : list string) (epsilon : Q) (g g' : G)
    (plan : Plan) :
  multi_armed_bandit self creative_ids epsilon g = (Allocated plan, g') ->
  let arms := map arm_of (query_all (db self) creative_ids (user_id self)) in
  leaderboard plan ≡ₚ arms /\
  Sorted (fun x y => cvr y <= cvr x) (leaderboard plan) /\
  forall v, List.filter (fun x => Qeq_bool (cvr x) v) (leaderboard plan)
            = List.filter (fun x => Qeq_bool (cvr x) v) arms.
Proof.
  intros Hrun arms.
  assert (Hne : query_all (db self) creative_ids (user_id self) <> []).
  { intros E. unfold multi_armed_bandit in Hrun. rewrite E in Hrun.
    discriminate Hrun. }
  destruct (bandit_returns self creative_ids epsilon g Hne)
    as (chosen & reason & g2 & _ & Hrun').
  rewrite Hrun in Hrun'. injection Hrun' as -> _. cbn [leaderboard].
  split; [apply sort_desc_perm|]. split; [apply sort_desc_sorted|].
  intros v. apply sort_desc_stable.
Qed.

(** X15.  A first draw that is not below epsilon exploits: one draw is
    consumed, the reason is [exploit_winner], and the chosen variant is the
    top of the leaderboard, a row of the highest rate, and the first such
    row of the table. *)
Theorem exploit_takes_the_best
    (self : t) (creative_ids : list string) (epsilon : Q) (g : G) :
  query_all (db self) creative_ids (user_id self) <> [] ->
  epsilon <= fst (random_random g) ->
  let arms := map arm_of (query_all (db self) creative_ids (user_id self)) in
  exists plan best rest,
    multi_armed_bandit self creative_ids epsilon g
    = (Allocated plan, snd (random_random g)) /\
    reason plan = "exploit_winner" /\
    leaderboard plan = best :: rest /\
    next_creative plan = creative_id best /\
    (forall x, In x arms -> cvr x <= cvr best) /\
    List.find (fun x => Qeq_bool (cvr x) (cvr best)) arms = Some best.
Proof.
  intros Hne Hu arms. unfold multi_armed_bandit.
  destruct (query_all (db self) creative_ids (user_id self))
    as [|first_row rows] eqn:Hq; [contradiction|].
  fold arms.
  destruct (random_random g) as [u g1]. cbn [fst snd] in *.
  apply Qlt_bool_false_iff in Hu. rewrite Hu.
  pose proof (sort_desc_perm arms) as Hperm.
  pose proof (sort_desc_sorted arms) as Hsorted.
  pose proof (fun v => sort_desc_stable v arms) as Hstable.
  destruct (sort_desc arms) as [|best rest] eqn:Hs.
  { apply Permutation_nil in Hperm. discriminate Hperm. }
  cbn [hd]. eexists _, best, rest. split; [reflexivity|].
  cbn [reason leaderboard next_creative]. repeat (split; [reflexivity|]).
  split.
  - intros x Hx. apply (sorted_head_max best rest Hsorted).
    apply list_elem_of_In. rewrite Hperm. now apply list_elem_of_In.
  - specialize (Hstable (cvr best)). cbn [List.filter] in Hstable.
    assert (Eb : Qeq_bool (cvr best) (cvr best) = true)
      by now apply Qeq_bool_iff.
    rewrite Eb in Hstable. clear -Hstable.
    induction arms as [|x l IH]; [discriminate Hstable|].
    cbn [List.filter List.find] in *.
    destruct (Qeq_bool (cvr x) (cvr best)).
    + now injection Hstable as ->.
    + now apply IH.
Qed.

End AnalyzerMore.

(** ** Rounding, the interval and the symmetry of the test *)

Section Rounding.

Lemma round_half_even_proper (x y : Q) :
  x == y -> round_half_even x = round_half_even y.
Proof.
  intros E. unfold round_half_even.
  rewrite (Qfloor_comp x y E).
  assert (Ec : Qcompare (x - inject_Z (Qfloor y)) (1 # 2)
               = Qcompare (y - inject_Z (Qfloor y)) (1 # 2))
    by now rewrite E.
  now rewrite Ec.
Qed.

(** rounding moves a number by at most one half *)
Lemma round_half_even_close (y : Q) :
  inject_Z (round_half_even y) - (1 # 2) <= y
  /\ y <= inject_Z (round_half_even y) + (1 # 2).
Proof.
  unfold round_half_even.
  pose proof (Qfloor_le y) as Hf1. pose proof (Qlt_floor y) as Hf2.
  set (f := Qfloor y) in *.
  rewrite inject_Z_plus in Hf2. change (inject_Z 1) with 1 in Hf2.
  destruct (Qcompare (y - inject_Z f) (1 # 2)) eqn:E.
  - apply Qeq_alt in E.
    destruct (Z.even f); [|rewrite inject_Z_plus; change (inject_Z 1) with 1];
      lra.
  - apply Qlt_alt in E. lra.
  - apply Qgt_alt in E. rewrite inject_Z_plus. change (inject_Z 1) with 1. lra.
Qed.

Lemma round_half_even_monotone (x y : Q) :
  x <= y -> (round_half_even x <= round_half_even y)%Z.
Proof.
  intros Hxy.
  destruct (Z.le_gt_cases (round_half_even x) (round_half_even y))
    as [Hle | Hgt]; [exact Hle|exfalso].
  pose proof (round_half_even_close x) as [Hx1 Hx2].
  pose proof (round_half_even_close y) as [Hy1 Hy2].
  assert (Hz : (round_half_even y + 1 <= round_half_even x)%Z) by lia.
  rewrite Zle_Qle, inject_Z_plus in Hz.
  change (inject_Z 1) with 1 in Hz.
  assert (E : x == y) by lra.
  apply round_half_even_proper in E. lia.
Qed.

Lemma round_half_even_Z (n : Z) : round_half_even (inject_Z n) = n.
Proof.
  apply round_half_even_near; lra.
Qed.

Lemma py_round_monotone (x y : Q) (ndigits : Z) :
  (0 <= ndigits)%Z -> x <= y -> py_round x ndigits <= py_round y ndigits.
Proof.
  intros Hn Hxy. unfold py_round.
  assert (Hp : 0 < inject_Z (10 ^ ndigits)).
  { change 0 with (inject_Z 0). rewrite <- Zlt_Qlt.
    apply Z.pow_pos_nonneg; lia. }
  apply Qle_shift_div_l; [exact Hp|].
  unfold Qdiv. rewrite <- Qmult_assoc, (Qmult_comm (/ _)), Qmult_inv_r by lra.
  rewrite Qmult_1_r. rewrite <- Zle_Qle.
  apply round_half_even_monotone. nra.
Qed.

Lemma py_round_Z (n ndigits : Z) :
  (0 <= ndigits)%Z -> py_round (inject_Z n) ndigits == inject_Z n.
Proof.
  intros Hn. unfold py_round.
  assert (Hp : 0 < inject_Z (10 ^ ndigits)).
  { change 0 with (inject_Z 0). rewrite <- Zlt_Qlt.
    apply Z.pow_pos_nonneg; lia. }
  rewrite <- inject_Z_mult, round_half_even_Z, inject_Z_mult.
  field. lra.
Qed.

(** rounding keeps a number between two integers *)
Lemma py_round_between (x : Q) (lo hi ndigits : Z) :
  (0 <= ndigits)%Z -> inject_Z lo <= x <= inject_Z hi ->
  inject_Z lo <= py_round x ndigits <= inject_Z hi.
Proof.
  intros Hn [Hlo Hhi]. split.
  - rewrite <- (py_round_Z lo ndigits Hn). now apply py_round_monotone.
  - rewrite <- (py_round_Z hi ndigits Hn). now apply py_round_monotone.
Qed.

End Rounding.

Section AnalyzerStats.
Import ABTest.
Context {N : Numerics} {NS : NumericsSpec N}.

Lemma guarded_rate_div_inv (a r q : Q) :
  (if Qlt_bool 0 r then py_div a r else Ok 0) = Ok q ->
  q = if Qlt_bool 0 r then a / r else 0.
Proof. rewrite guarded_rate_div. now intros [= <-]. Qed.

(** The critical value of the 95% interval is positive. *)
Lemma critical_value_pos : 0 < norm_ppf ((1 + (95 # 100)) / 2).
Proof.
  assert (E : norm_ppf ((1 + (95 # 100)) / 2) == norm_ppf (975 # 1000))
    by (apply ppf_proper; reflexivity).
  pose proof ppf_975. lra.
Qed.

Lemma _confidence_interval_inv (rate_a rate_b : Q) (n_a n_b : Z) (lower upper : Q) :
  _confidence_interval rate_a rate_b n_a n_b (95 # 100) = Ok (lower, upper) ->
  exists margin,
    0 <= margin /\
    lower = (if Qlt_bool 0 rate_a then (rate_b - rate_a - margin) / rate_a else 0) /\
    upper = (if Qlt_bool 0 rate_a then (rate_b - rate_a + margin) / rate_a else 0).
Proof.
  unfold _confidence_interval. intros H.
  apply bind_ok in H as (se_a & _ & H).
  apply bind_ok in H as (se_b & _ & H).
  apply bind_ok in H as (se_diff & Hsd & H).
  apply math_sqrt_inv in Hsd as [Hx ->].
  apply bind_ok in H as (lo & Hlo & H).
  apply bind_ok in H as (hi & Hhi & H).
  apply guarded_rate_div_inv in Hlo, Hhi. injection H as <- <-.
  eexists. split; [|split; [exact Hlo|exact Hhi]].
  pose proof critical_value_pos. pose proof (sqrt_nonneg _ Hx).
  apply Qmult_le_0_compat; lra.
Qed.

Lemma test_statistics_interval_inv
    (a_conversions a_total b_conversions b_total : Z) (s : Statistics) :
  test_statistics a_conversions a_total b_conversions b_total = Ok s ->
  exists margin,
    0 <= margin /\
    lift s = (if Qlt_bool 0 (rate_a s)
              then (rate_b s - rate_a s) / rate_a s else 0) /\
    ci_lower s = (if Qlt_bool 0 (rate_a s)
                  then (rate_b s - rate_a s - margin) / rate_a s else 0) /\
    ci_upper s = (if Qlt_bool 0 (rate_a s)
                  then (rate_b s - rate_a s + margin) / rate_a s else 0).
Proof.
  unfold test_statistics. rewrite !guarded_div. cbn [mbind result_bind].
  intros H.
  apply bind_ok in H as (pooled & _ & H).
  apply bind_ok in H as (inv_a & _ & H).
  apply bind_ok in H as (inv_b & _ & H).
  apply bind_ok in H as (se0 & _ & H).
  apply bind_ok in H as ([z p] & _ & H).
  apply bind_ok in H as (lift0 & Hlift & H).
  apply bind_ok in H as ([lo hi] & Hci & H).
  apply guarded_rate_div_inv in Hlift.
  apply _confidence_interval_inv in Hci as (margin & Hm & Hlo & Hhi).
  injection H as <-. cbn [lift ci_lower ci_upper rate_a rate_b].
  exists margin. auto.
Qed.

(** Every field of a returned verdict, from the statistics. *)
Lemma analyze_test_inv_fields
    (self : t) (creative_a_id creative_b_id metric : string) (v : Verdict) :
  analyze_test self creative_a_id creative_b_id metric = Ok (Analyzed v) ->
  exists a_conversions a_total b_conversions b_total s,
    (100 <= a_total)%Z /\ (100 <= b_total)%Z /\
    test_statistics a_conversions a_total b_conversions b_total = Ok s /\
    v_lift v = py_round (lift s) 3 /\
    v_confidence_interval v = (py_round (ci_lower s) 3, py_round (ci_upper s) 3) /\
    v_p_value v = py_round (p_value s) 4 /\
    v_z_score v = py_round (z_score s) 3 /\
    v_confidence v = (if Qlt_bool (p_value s) 1
                      then py_round (1 - p_value s) 3 else 0) /\
    v_statistical_significance v = is_significant s /\
    v_winner v = winner s /\
    e_samples (v_creative_a v) = a_total /\
    e_samples (v_creative_b v) = b_total /\
    e_conversions (v_creative_a v) = a_conversions /\
    e_conversions (v_creative_b v) = b_conversions /\
    e_rate (v_creative_a v) = py_round (rate_a s) 4 /\
    e_rate (v_creative_b v) = py_round (rate_b s) 4.
Proof.
  unfold analyze_test. intros H.
  destruct (query_first (db self) creative_a_id (user_id self))
    as [creative_a|]; [|discriminate].
  destruct (query_first (db self) creative_b_id (user_id self))
    as [creative_b|]; [|discriminate].
  destruct (metric_values metric creative_a)
    as [[a_conversions a_total]|]; [|discriminate].
  destruct (metric_values metric creative_b)
    as [[b_conversions b_total]|]; [|discriminate].
  destruct ((a_total <? 100) || (b_total <? 100))%Z eqn:Hgate; [discriminate|].
  apply bind_ok in H as (s & Hs & H). injection H as <-.
  exists a_conversions, a_total, b_conversions, b_total, s.
  cbn. repeat split; try assumption; lia.
Qed.

(** X16.  The interval reported for the lift contains the lift reported,
    and before rounding it is centred on it.  When the control rate is 0
    the lift and both ends of the interval are 0: nothing is divided by
    the rate. *)
Theorem interval_contains_lift
    (self : t) (creative_a_id creative_b_id metric : string) (v : Verdict) :
  analyze_test self creative_a_id creative_b_id metric = Ok (Analyzed v) ->
  fst (v_confidence_interval v) <= v_lift v <= snd (v_confidence_interval v) /\
  exists a_conversions a_total b_conversions b_total s,
    test_statistics a_conversions a_total b_conversions b_total = Ok s /\
    v_lift v = py_round (lift s) 3 /\
    ci_lower s <= lift s <= ci_upper s /\
    ci_lower s + ci_upper s == 2 * lift s /\
    (rate_a s <= 0 -> lift s = 0 /\ ci_lower s = 0 /\ ci_upper s = 0).
Proof.
  intros Hv.
  apply analyze_test_inv_fields in Hv
    as (na & da & nb & db & s & _ & _ & Hs & Hl & Hci & _).
  destruct (test_statistics_interval_inv _ _ _ _ _ Hs)
    as (margin & Hm & Hlift & Hlo & Hhi).
  assert (Hord : ci_lower s <= lift s <= ci_upper s
                 /\ ci_lower s + ci_upper s == 2 * lift s).
  { rewrite Hlift, Hlo, Hhi.
    destruct (Qlt_bool 0 (rate_a s)) eqn:E; [|repeat split; discriminate].
    apply Qlt_bool_iff in E. split; [split|].
    - apply Qle_shift_div_l; [exact E|].
      unfold Qdiv. rewrite <- Qmult_assoc, (Qmult_comm (/ _)), Qmult_inv_r by lra.
      lra.
    - apply Qle_shift_div_r; [exact E|].
      unfold Qdiv. rewrite <- Qmult_assoc, (Qmult_comm (/ _)), Qmult_inv_r by lra.
      lra.
    - field. lra. }
  destruct Hord as [[H1 H2] Hc].
  split.
  - rewrite Hci, Hl. cbn [fst snd].
    split; apply py_round_monotone; solve [lia | assumption].
  - exists na, da, nb, db, s.
    split; [exact Hs|]. split; [exact Hl|]. split; [split; assumption|].
    split; [exact Hc|].
    intros Hra. apply Qlt_bool_false_iff in Hra.
    rewrite Hlift, Hlo, Hhi, Hra. auto.
Qed.

(** X17.  The p-value and the confidence of a verdict are probabilities,
    also after rounding, and a verdict marked significant carries a
    confidence of at least 0.95. *)
Theorem reported_probabilities
    (self : t) (creative_a_id creative_b_id metric : string) (v : Verdict) :
  analyze_test self creative_a_id creative_b_id metric = Ok (Analyzed v) ->
  0 <= v_p_value v <= 1 /\ 0 <= v_confidence v <= 1 /\
  (v_statistical_significance v = true ->
   v_p_value v <= 5 # 100 /\ 95 # 100 <= v_confidence v).
Proof.
  intros Hv.
  apply analyze_test_inv_fields in Hv
    as (na & da & nb & db & s & _ & _ & Hs & _ & _ & Hp & _ & Hc & Hsg & _).
  pose proof (test_statistics_inv _ _ _ _ _ Hs)
    as (_ & _ & _ & _ & Hzp & Hsig & _).
  assert (Hrange : 0 <= p_value s <= 1).
  { destruct Hzp as [(_ & _ & ->) | (_ & _ & ->)]; [split; discriminate|].
    apply two_tailed_range. }
  assert (H0 : forall x n, (0 <= n)%Z -> 0 <= x <= 1 -> 0 <= py_round x n <= 1).
  { intros x n Hn Hx. apply (py_round_between x 0 1 n Hn). exact Hx. }
  assert (Hconf : 0 <= v_confidence v <= 1).
  { rewrite Hc. destruct (Qlt_bool (p_value s) 1); [|split; discriminate].
    apply H0; [lia|lra]. }
  split; [rewrite Hp; apply H0; [lia|exact Hrange]|]. split; [exact Hconf|].
  intros Hsignificant. rewrite Hsg, Hsig in Hsignificant.
  apply Qlt_bool_iff in Hsignificant. split.
  - rewrite Hp.
    assert (E : py_round (5 # 100) 4 == 5 # 100) by reflexivity.
    rewrite <- E. apply py_round_monotone; [lia|lra].
  - rewrite Hc.
    replace (Qlt_bool (p_value s) 1) with true
      by (symmetry; apply Qlt_bool_iff; lra).
    assert (E : py_round (95 # 100) 3 == 95 # 100) by reflexivity.
    rewrite <- E. apply py_round_monotone; [lia|lra].
Qed.

(** X18.  Exchanging the two variants, for valid counts: the rates are
    exchanged, the z-score changes sign, the p-value and the significance
    are unchanged, and the winner is the same variant under its other
    name. *)
Theorem swap_symmetry (a_conversions a_total b_conversions b_total : Z) :
  (0 <= a_conversions <= a_total)%Z -> (0 <= b_conversions <= b_total)%Z ->
  (0 < a_total)%Z -> (0 < b_total)%Z ->
  exists s s',
    test_statistics a_conversions a_total b_conversions b_total = Ok s /\
    test_statistics b_conversions b_total a_conversions a_total = Ok s' /\
    rate_a s' = rate_b s /\ rate_b s' = rate_a s /\
    z_score s' == - z_score s /\ p_value s' == p_value s /\
    is_significant s' = is_significant s /\
    (winner s = "B" <-> winner s' = "A") /\
    (winner s = "A" <-> winner s' = "B") /\
    (winner s = "tie" <-> winner s' = "tie").
Proof.
  intros Ha Hb Hta Htb.
  destruct (test_statistics_returns _ _ _ _ Ha Hb Hta Htb) as (s & Hs).
  destruct (test_statistics_returns _ _ _ _ Hb Ha Htb Hta) as (s' & Hs').
  exists s, s'. split; [exact Hs|]. split; [exact Hs'|].
  pose proof (verdict_rule _ _ _ _ _ Hs) as (_ & Hw & Ht).
  pose proof (verdict_rule _ _ _ _ _ Hs') as (_ & Hw' & Ht').
  pose proof (test_statistics_inv _ _ _ _ _ Hs)
    as (Hra & Hrb & Hp & Hse & Hzp & Hsig & _).
  pose proof (test_statistics_inv _ _ _ _ _ Hs')
    as (Hra' & Hrb' & Hp' & Hse' & Hzp' & Hsig' & _).
  assert (Era : rate_a s' = rate_b s) by congruence.
  assert (Erb : rate_b s' = rate_a s) by congruence.
  assert (Epool : pooled_rate s' == pooled_rate s).
  { rewrite Hp, Hp', (Z.add_comm b_conversions), (Z.add_comm b_total).
    reflexivity. }
  assert (Ese : se s' == se s).
  { rewrite Hse, Hse'. apply sqrt_proper. rewrite Epool. ring. }
  assert (Ez : z_score s' == - z_score s /\ p_value s' == p_value s).
  { destruct Hzp as [(E & -> & ->) | (Hne & Hz & Hpv)];
      destruct Hzp' as [(E' & -> & ->) | (Hne' & Hz' & Hpv')].
    - split; reflexivity.
    - rewrite Ese in Hne'. contradiction.
    - rewrite Ese in E'. contradiction.
    - assert (E : z_score s' == - z_score s).
      { rewrite Hz, Hz', Era, Erb, Ese. field. exact Hne. }
      split; [exact E|]. rewrite Hpv, Hpv'.
      assert (Ec : norm_cdf (Qabs (z_score s')) == norm_cdf (Qabs (z_score s))).
      { apply cdf_proper. rewrite E. apply Qabs_opp. }
      rewrite Ec. reflexivity. }
  destruct Ez as [Ez Epv].
  assert (Esig : is_significant s' = is_significant s).
  { rewrite Hsig, Hsig'. unfold Qlt_bool. now rewrite Epv. }
  do 4 (split; [assumption|]). split; [exact Esig|].
  rewrite Era, Erb in Hw'. rewrite Esig in Hw', Ht'.
  destruct (is_significant s).
  - destruct (Hw eq_refl) as [[E1 H1] | [E1 H1]];
      destruct (Hw' eq_refl) as [[E2 H2] | [E2 H2]]; try lra;
      rewrite E1, E2; repeat split; intros; solve [reflexivity | discriminate].
  - rewrite (Ht eq_refl), (Ht' eq_refl).
    repeat split; intros; solve [reflexivity | discriminate].
Qed.


End AnalyzerStats.

(** ** Instances of the further properties *)

Lemma volume_gate_answers_witness :
  too_young 0 None = false /\ (800 < 100 \/ 5 < 10)%Z /\
  EarlySignalsAnalyzer.analyze_24h_performance 0 800 5 4 3 (12 # 10) 0 None
  = Ok {| EarlySignalsAnalyzer.signal := "insufficient_volume";
          EarlySignalsAnalyzer.confidence := 0;
          EarlySignalsAnalyzer.recommendation := "wait";
          EarlySignalsAnalyzer.reasoning :=
            EarlySignalsAnalyzer.NeedMinimumVolume 800 5;
          EarlySignalsAnalyzer.scored := None |}.
Proof.
  assert (H1 : too_young 0 None = false) by reflexivity.
  assert (H2 : (800 < 100 \/ 5 < 10)%Z) by (right; lia).
  split; [exact H1|]. split; [exact H2|].
  exact (volume_gate_answers 0 800 5 4 3 (12 # 10) 0 None H1 H2).
Defined.

Lemma kill_needs_every_check_negative_witness :
  exists a,
    EarlySignalsAnalyzer.analyze_24h_performance 0 2000 15 12 10 (12 # 10) 0 None
    = Ok a /\
    score_of a = Some (-4)%Z /\
    EarlySignalsAnalyzer.recommendation a = "kill" /\
    ctr_of 2000 15 <= 1 # 100 /\ 70 # 100 <= bounce_rate_of 12 10.
Proof.
  eassert (Ha : EarlySignalsAnalyzer.analyze_24h_performance 0 2000 15 12 10
                  (12 # 10) 0 None = Ok _) by (vm_compute; reflexivity).
  eexists. split; [exact Ha|]. split; [reflexivity|]. split; [reflexivity|].
  destruct (kill_needs_every_check_negative _ _ _ _ _ _ _ _ _ (-4)%Z Ha eq_refl)
    as (_ & Hkill).
  destruct (proj1 Hkill eq_refl) as (H1 & H2 & _). split; assumption.
Defined.

Lemma better_metrics_never_score_lower_witness :
  ctr_of 2000 15 <= ctr_of 500 20 /\
  bounce_rate_of 18 6 <= bounce_rate_of 12 10 /\
  exists a a' sc sc',
    EarlySignalsAnalyzer.analyze_24h_performance 0 2000 15 12 10 (12 # 10) 0 None
    = Ok a /\
    EarlySignalsAnalyzer.analyze_24h_performance 0 500 20 18 6 (65 # 10) 2 None
    = Ok a' /\
    EarlySignalsAnalyzer.scored a = Some sc /\
    EarlySignalsAnalyzer.scored a' = Some sc' /\
    EarlySignalsAnalyzer.predicted_final_cvr sc
    <= EarlySignalsAnalyzer.predicted_final_cvr sc'.
Proof.
  assert (H1 : ctr_of 2000 15 <= ctr_of 500 20)
    by (apply Qle_bool_imp_le; reflexivity).
  assert (H2 : bounce_rate_of 18 6 <= bounce_rate_of 12 10)
    by (apply Qle_bool_imp_le; reflexivity).
  assert (H3 : 12 # 10 <= 65 # 10) by (apply Qle_bool_imp_le; reflexivity).
  assert (H4 : (0 <= 2)%Z) by lia.
  split; [exact H1|]. split; [exact H2|].
  eassert (Ha : EarlySignalsAnalyzer.analyze_24h_performance 0 2000 15 12 10
                  (12 # 10) 0 None = Ok _) by (vm_compute; reflexivity).
  eassert (Ha' : EarlySignalsAnalyzer.analyze_24h_performance 0 500 20 18 6
                   (65 # 10) 2 None = Ok _) by (vm_compute; reflexivity).
  do 4 eexists. split; [exact Ha|]. split; [exact Ha'|].
  split; [reflexivity|]. split; [reflexivity|].
  exact (proj2 (better_metrics_never_score_lower _ _ _ _ _ _ _ _ _ _ _ _ _ _ _ _
                  _ _ _ _ (-4)%Z 5%Z Ha Ha' eq_refl eq_refl eq_refl eq_refl
                  H1 H2 H3 H4)).
Defined.

Lemma bulk_summary_counts_witness :
  exists r,
    bulk_analyze_24h (fun _ => 0) example_bulk = Ok r /\
    total_analyzed (summary r) = 3%Z /\
    (winners_count (summary r) + potential_count (summary r)
     + losers_count (summary r))%Z = total_analyzed (summary r) /\
    0 <= kill_rate (summary r) <= 1.
Proof.
  eassert (Hr : bulk_analyze_24h (fun _ => 0) example_bulk = Ok _)
    by (vm_compute; reflexivity).
  eexists. split; [exact Hr|].
  destruct (bulk_summary_counts _ _ _ Hr)
    as (Ht & _ & _ & _ & Hsum & _ & Hk & _).
  split; [exact Ht|]. split; [exact Hsum|exact Hk].
Defined.

Lemma gated_elements_are_losers_witness :
  exists r e,
    bulk_analyze_24h (fun _ => 0) example_bulk = Ok r /\
    In e (losers r) /\ b_creative_id e = Some "empty" /\
    EarlySignalsAnalyzer.recommendation (b_analysis e) = "wait".
Proof.
  eassert (Hr : bulk_analyze_24h (fun _ => 0) example_bulk = Ok _)
    by (vm_compute; reflexivity).
  destruct (proj1 (gated_elements_are_losers _ _ _ Hr) 2%nat example_data_empty
              eq_refl eq_refl) as (e & Hin & Hid & _ & Hw).
  eexists _, e. split; [exact Hr|]. split; [exact Hin|]. split; assumption.
Defined.

Lemma no_rows_no_draw_witness :
  (forall c, In c (ABTest.db example_arms) ->
             cr_user_id c = ABTest.user_id example_arms ->
             ~ In (cr_id c) ["ghost"]) /\
  ABTest.multi_armed_bandit example_arms ["ghost"] (1 # 10) [1 # 2; 1 # 4]
  = (ABTest.NoCreatives "No creatives found", [1 # 2; 1 # 4]).
Proof.
  assert (H : forall c, In c (ABTest.db example_arms) ->
                        cr_user_id c = ABTest.user_id example_arms ->
                        ~ In (cr_id c) ["ghost"]).
  { intros c [<- | [<- | []]] _ [E | []]; discriminate E. }
  split; [exact H|].
  exact (no_rows_no_draw (G := Tape.state) example_arms ["ghost"] (1 # 10)
           [1 # 2; 1 # 4] H).
Defined.

Lemma allocation_keys_witness :
  exists plan g',
    ABTest.multi_armed_bandit example_arms ["a"; "b"; "ghost"] (1 # 10) [1 # 2]
    = (ABTest.Allocated plan, g') /\
    is_Some (ABTest.allocation plan !! "a") /\
    ~ is_Some (ABTest.allocation plan !! "ghost").
Proof.
  eassert (Hrun : ABTest.multi_armed_bandit example_arms ["a"; "b"; "ghost"]
                    (1 # 10) [1 # 2] = (ABTest.Allocated _, _))
    by (vm_compute; reflexivity).
  eexists _, _. split; [exact Hrun|].
  pose proof (allocation_keys (G := Tape.state) _ _ _ _ _ _ Hrun) as Hkeys.
  split.
  - apply Hkeys. split; [now left|].
    exists (example_arm "a" 500). split; [right; now left|]. split; reflexivity.
  - intros Hk. apply Hkeys in Hk as (_ & c & Hc & Hid & _).
    destruct Hc as [<- | [<- | []]]; discriminate Hid.
Defined.

Lemma allocation_weights_in_range_witness :
  0 <= 1 # 10 <= 1 /\
  exists plan g' w,
    ABTest.multi_armed_bandit example_arms ["a"; "b"] (1 # 10) [1 # 2]
    = (ABTest.Allocated plan, g') /\
    ABTest.allocation plan !! "b" = Some w /\ 0 <= w <= 1.
Proof.
  assert (He : 0 <= 1 # 10 <= 1) by (split; discriminate).
  split; [exact He|].
  eassert (Hrun : ABTest.multi_armed_bandit example_arms ["a"; "b"]
                    (1 # 10) [1 # 2] = (ABTest.Allocated _, _))
    by (vm_compute; reflexivity).
  lazymatch type of Hrun with
  | _ = (ABTest.Allocated ?p, _) =>
      eassert (Hw : ABTest.allocation p !! "b" = Some _)
        by (vm_compute; reflexivity)
  end.
  eexists _, _, _. split; [exact Hrun|]. split; [exact Hw|].
  exact (allocation_weights_in_range (G := Tape.state) _ _ _ _ _ _ _ _ He Hrun Hw).
Defined.

Lemma epsilon_extremes_witness :
  exists plan g' w,
    ABTest.multi_armed_bandit example_arms ["a"; "b"] 0 [1 # 2]
    = (ABTest.Allocated plan, g') /\
    ABTest.next_creative plan = "a" /\
    ABTest.allocation plan !! "a" = Some w /\ w == 1.
Proof.
  eassert (Hrun : ABTest.multi_armed_bandit example_arms ["a"; "b"]
                    0 [1 # 2] = (ABTest.Allocated _, _))
    by (vm_compute; reflexivity).
  lazymatch type of Hrun with
  | _ = (ABTest.Allocated ?p, _) =>
      eassert (Hw : ABTest.allocation p !! "a" = Some _)
        by (vm_compute; reflexivity)
  end.
  eexists _, _, _. split; [exact Hrun|]. split; [reflexivity|].
  split; [exact Hw|].
  exact (proj1 (epsilon_extremes (G := Tape.state) _ _ _ _ _ _ _ _ Hrun Hw)
           (Qeq_refl 0)).
Defined.

Lemma leaderboard_ranked_witness :
  exists plan g',
    ABTest.multi_armed_bandit example_arms ["a"; "b"] (1 # 10) [1 # 2]
    = (ABTest.Allocated plan, g') /\
    map ABTest.creative_id (ABTest.leaderboard plan) = ["a"; "b"] /\
    Sorted (fun x y => ABTest.cvr y <= ABTest.cvr x) (ABTest.leaderboard plan).
Proof.
  eassert (Hrun : ABTest.multi_armed_bandit example_arms ["a"; "b"]
                    (1 # 10) [1 # 2] = (ABTest.Allocated _, _))
    by (vm_compute; reflexivity).
  eexists _, _. split; [exact Hrun|]. split; [reflexivity|].
  exact (proj1 (proj2 (leaderboard_ranked (G := Tape.state) _ _ _ _ _ _ Hrun))).
Defined.

Lemma exploit_takes_the_best_witness :
  query_all (ABTest.db example_arms) ["a"; "b"] "user" <> [] /\
  1 # 10 <= fst (random_random [1 # 2]) /\
  exists plan best rest,
    ABTest.multi_armed_bandit example_arms ["a"; "b"] (1 # 10) [1 # 2]
    = (ABTest.Allocated plan, snd (random_random [1 # 2])) /\
    ABTest.reason plan = "exploit_winner" /\
    ABTest.leaderboard plan = best :: rest /\
    ABTest.next_creative plan = ABTest.creative_id best.
Proof.
  assert (Hne : query_all (ABTest.db example_arms) ["a"; "b"] "user" <> [])
    by discriminate.
  assert (Hu : 1 # 10 <= fst (random_random [1 # 2])) by discriminate.
  split; [exact Hne|]. split; [exact Hu|].
  destruct (exploit_takes_the_best (G := Tape.state) example_arms ["a"; "b"]
              (1 # 10) [1 # 2] Hne Hu)
    as (plan & best & rest & Hrun & Hr & Hl & Hn & _).
  exists plan, best, rest. repeat split; assumption.
Defined.

Lemma interval_contains_lift_witness :
  exists v,
    @ABTest.analyze_test Approx.numerics (example_test 100 10 100 20) "a" "b" "cvr"
    = Ok (ABTest.Analyzed v) /\
    fst (ABTest.v_confidence_interval v) <= ABTest.v_lift v
    <= snd (ABTest.v_confidence_interval v).
Proof.
  eassert (Hv : @ABTest.analyze_test Approx.numerics
                  (example_test 100 10 100 20) "a" "b" "cvr"
                = Ok (ABTest.Analyzed _)) by (vm_compute; reflexivity).
  eexists. split; [exact Hv|].
  exact (proj1 (@interval_contains_lift Approx.numerics approx_numerics_spec
                  _ _ _ _ _ Hv)).
Defined.

Lemma reported_probabilities_witness :
  exists v,
    @ABTest.analyze_test Approx.numerics (example_test 100 10 100 20) "a" "b" "cvr"
    = Ok (ABTest.Analyzed v) /\
    ABTest.v_statistical_significance v = true /\
    0 <= ABTest.v_p_value v <= 1 /\ 95 # 100 <= ABTest.v_confidence v.
Proof.
  eassert (Hv : @ABTest.analyze_test Approx.numerics
                  (example_test 100 10 100 20) "a" "b" "cvr"
                = Ok (ABTest.Analyzed _)) by (vm_compute; reflexivity).
  eexists. split; [exact Hv|]. split; [reflexivity|].
  destruct (@reported_probabilities Approx.numerics approx_numerics_spec
              _ _ _ _ _ Hv) as (Hp & _ & Hsig).
  split; [exact Hp|]. exact (proj2 (Hsig eq_refl)).
Defined.

Lemma swap_symmetry_witness :
  (0 <= 10 <= 100)%Z /\ (0 <= 20 <= 100)%Z /\ (0 < 100)%Z /\
  exists s s',
    @ABTest.test_statistics Approx.numerics 10 100 20 100 = Ok s /\
    @ABTest.test_statistics Approx.numerics 20 100 10 100 = Ok s' /\
    ABTest.z_score s' == - ABTest.z_score s /\
    ABTest.p_value s' == ABTest.p_value s /\
    ABTest.is_significant s' = ABTest.is_significant s.
Proof.
  assert (Ha : (0 <= 10 <= 100)%Z) by lia.
  assert (Hb : (0 <= 20 <= 100)%Z) by lia.
  assert (Ht : (0 < 100)%Z) by lia.
  split; [exact Ha|]. split; [exact Hb|]. split; [exact Ht|].
  destruct (@swap_symmetry Approx.numerics approx_numerics_spec
              10 100 20 100 Ha Hb Ht Ht)
    as (s & s' & Hs & Hs' & _ & _ & Hz & Hp & Hsig & _).
  exists s, s'. repeat split; assumption.
Defined.

